(** * Optimistic transactions, marketplace, counters and statistics over Redis

    A shallow embedding of [list_item] and [purchase_item]
    (04_数据安全与性能保证.py) and of [log_common], [update_counter],
    [clean_counters], [update_stats] and [get_stats]
    (05_使用Redis构建支持程序.py), together with the part of the Redis
    server and of the redis-py pipeline they run against.

    The Python sources are Python 2 (print statements, [xrange],
    [iteritems]); numbers follow Python 2: [int] is unbounded ([Z]),
    [float] is an IEEE binary64 ([PrimFloat.float]), [/] on floats raises
    on a zero divisor. *)

From Stdlib Require Import ZArith String Ascii List Bool Lia.
From Stdlib Require Import Floats.PrimFloat Floats.SpecFloat Floats.FloatOps.
From Stdlib Require Floats.FloatAxioms.
From Stdlib Require Import DecimalString.
From Stdlib Require DecimalZ DecimalPos.
From stdpp Require Import gmap strings list sorting.

Set Warnings "-inexact-float".

Local Open Scope string_scope.
Local Open Scope list_scope.
Local Open Scope Z_scope.

(** ** Python exceptions and results *)

Inductive exn :=
| WatchError | ResponseError
| KeyError | TypeError | ValueError | ZeroDivisionError | OverflowError.

Inductive res (A : Type) :=
| Ret (a : A)
| Raise (e : exn).
Arguments Ret {A} a.
Arguments Raise {A} e.

#[global] Instance res_ret : MRet res := fun _ a => Ret a.
#[global] Instance res_bind : MBind res := fun _ _ f m =>
  match m with Ret a => f a | Raise e => Raise e end.

(** ** Python numbers *)

Module Py.

(** The double nearest to an int, ties to even; an infinity past the
    double range, where [float(z)] and [strtod] both give up. *)
Definition float_of_Z (z : Z) : float :=
  SF2Prim (binary_normalize 53 1024 z 0 false).

(** [int(f)]: truncation toward zero; raises on nan and on an infinity. *)
Definition int_of_float (f : float) : res Z :=
  match Prim2SF f with
  | S754_nan => Raise ValueError
  | S754_infinity _ => Raise OverflowError
  | S754_zero _ => Ret 0
  | S754_finite s m e =>
      let mag := if 0 <=? e then Zpos m * 2 ^ e else Zpos m / 2 ^ (- e) in
      Ret (if s then - mag else mag)
  end.

(** Comparison of a float with an int is exact in CPython
    ([float_richcompare]); [None] is the unordered outcome of a nan. *)
Definition cmp_float_Z (f : float) (z : Z) : option comparison :=
  match Prim2SF f with
  | S754_nan => None
  | S754_infinity s => Some (if s then Lt else Gt)
  | S754_zero _ => Some (0 ?= z)
  | S754_finite s m e =>
      let v := if s then Zneg m else Zpos m in
      Some (if 0 <=? e then v * 2 ^ e ?= z else v ?= z * 2 ^ (- e))
  end.

(** [f < z], [f > z], [f != z], [z <= f] for a float [f] and an int [z]. *)
Definition float_lt_Z (f : float) (z : Z) : bool :=
  match cmp_float_Z f z with Some Lt => true | _ => false end.
Definition float_gt_Z (f : float) (z : Z) : bool :=
  match cmp_float_Z f z with Some Gt => true | _ => false end.
Definition float_ne_Z (f : float) (z : Z) : bool :=
  match cmp_float_Z f z with Some Eq => false | _ => true end.
Definition Z_le_float (z : Z) (f : float) : bool :=
  match cmp_float_Z f z with Some (Eq | Gt) => true | _ => false end.

(** [a / b] on floats. *)
Definition fdiv (a b : float) : res float :=
  if PrimFloat.eqb b 0%float then Raise ZeroDivisionError
  else Ret (PrimFloat.div a b).

(** [a ** 2] on a float: the square, [OverflowError] when a finite
    operand gives an infinite result. *)
Definition fsquare (a : float) : res float :=
  let r := PrimFloat.mul a a in
  if is_infinity r && negb (is_infinity a) then Raise OverflowError
  else Ret r.

(** [a ** .5] on a float, after CPython 2's [float_pow]: a nan stays,
    an infinity gives the positive one, a zero gives zero, a negative
    base raises [ValueError]; otherwise the C library's [pow] at
    exponent one half, taken as the correctly rounded square root. *)
Definition fsqrt (a : float) : res float :=
  if is_nan a then Ret a
  else if is_infinity a then Ret infinity
  else if PrimFloat.eqb a 0%float then Ret 0%float
  else if PrimFloat.ltb a 0%float then Raise ValueError
  else Ret (PrimFloat.sqrt a).

(** A Python number: the sources pass both ints and floats as values
    and as clock readings. *)
Inductive num :=
| Int (z : Z)
| Float (f : float).

(** The score Redis reads from a number sent to it. A float goes out as
    its [repr], which reads back as the same double. An int goes out as
    its decimal digits: within the double range [strtod] gives the
    nearest double, beyond it [strtod] overflows and Redis refuses the
    argument, as it refuses a nan. The nan stands for both here: the
    commands that take a score answer a nan with an error. *)
Definition to_float (n : num) : float :=
  match n with
  | Int z => let f := float_of_Z z in if is_infinity f then nan else f
  | Float f => f
  end.

(** [float(z)] inside Python, as in [t + z] and [t - z] for a float
    [t]: an int too large for a double raises. *)
Definition float_of_int (z : Z) : res float :=
  let f := float_of_Z z in
  if is_infinity f then Raise OverflowError else Ret f.

Definition coerce (n : num) : res float :=
  match n with Int z => float_of_int z | Float f => Ret f end.

Definition mul (a b : num) : num :=
  match a, b with
  | Int x, Int y => Int (x * y)
  | _, _ => Float (PrimFloat.mul (to_float a) (to_float b))
  end.

(** Truth value of a number ([now or time.time()]). *)
Definition truthy (n : num) : bool :=
  match n with
  | Int z => negb (z =? 0)
  | Float f => negb (PrimFloat.eqb f 0%float)
  end.

(** [str(z)]: the decimal digits, after a minus sign for a negative. *)
Definition str (z : Z) : string := NilZero.string_of_int (Z.to_int z).

(** The characters [str.isspace] takes as blank: space, tab, line feed,
    vertical tab, form feed, carriage return. *)
Definition is_space (c : ascii) : bool :=
  let n := nat_of_ascii c in ((n =? 32) || ((9 <=? n) && (n <=? 13)))%nat.

Fixpoint lstrip (s : string) : string :=
  match s with
  | EmptyString => EmptyString
  | String c r => if is_space c then lstrip r else s
  end.

Fixpoint rstrip (s : string) : string :=
  match s with
  | EmptyString => EmptyString
  | String c r =>
      match rstrip r with
      | EmptyString => if is_space c then EmptyString else String c EmptyString
      | r' => String c r'
      end
  end.

(** [int(s)] on a string: blanks around the literal are dropped, the
    literal is a sign, [+] or [-], or none, and then one decimal digit or
    more; anything else raises [ValueError]. *)
Definition int_of_str (s : string) : res Z :=
  match rstrip (lstrip s) with
  | EmptyString => Raise ValueError
  | String c r as t =>
      match (if Ascii.eqb c "+"
             then option_map Decimal.Pos (NilZero.uint_of_string r)
             else NilZero.int_of_string t) with
      | Some d => Ret (Z.of_int d)
      | None => Raise ValueError
      end
  end.

(** [s.partition(':')[0]]: the part of [s] before the first colon, all
    of [s] when it has none. *)
Fixpoint before_colon (s : string) : string :=
  match s with
  | EmptyString => EmptyString
  | String c r => if Ascii.eqb c ":" then EmptyString else String c (before_colon r)
  end.

End Py.

(** ** The Redis keyspace *)

(** One keyspace, every key holding a value of one type. Hash fields of
    this program hold the integers that HSET of an int and HINCRBY leave
    there; sorted-set scores are doubles. *)
Inductive rvalue :=
| VString (s : string)
| VList (l : list string)
| VSet (s : gset string)
| VHash (h : gmap string Z)
| VZSet (z : gmap string float).

Abbreviation store := (gmap string rvalue).

(** Redis deletes a key whose container becomes empty. *)
Definition put_set (k : string) (s : gset string) (st : store) : store :=
  if decide (size s = 0%nat) then delete k st else <[k := VSet s]> st.
Definition put_hash (k : string) (h : gmap string Z) (st : store) : store :=
  if decide (size h = 0%nat) then delete k st else <[k := VHash h]> st.
Definition put_zset (k : string) (z : gmap string float) (st : store) : store :=
  if decide (size z = 0%nat) then delete k st else <[k := VZSet z]> st.
Definition put_list (k : string) (l : list string) (st : store) : store :=
  match l with [] => delete k st | _ => <[k := VList l]> st end.

(** *** Reads *)

Definition sismember (st : store) (k m : string) : res bool :=
  match st !! k with
  | None => Ret false
  | Some (VSet s) => Ret (bool_decide (m ∈ s))
  | Some _ => Raise ResponseError
  end.

Definition zscore (st : store) (k m : string) : res (option float) :=
  match st !! k with
  | None => Ret None
  | Some (VZSet z) => Ret (z !! m)
  | Some _ => Raise ResponseError
  end.

Definition hget (st : store) (k f : string) : res (option Z) :=
  match st !! k with
  | None => Ret None
  | Some (VHash h) => Ret (h !! f)
  | Some _ => Raise ResponseError
  end.

Definition get (st : store) (k : string) : res (option string) :=
  match st !! k with
  | None => Ret None
  | Some (VString s) => Ret (Some s)
  | Some _ => Raise ResponseError
  end.

Definition hlen (st : store) (k : string) : res Z :=
  match st !! k with
  | None => Ret 0
  | Some (VHash h) => Ret (Z.of_nat (size h))
  | Some _ => Raise ResponseError
  end.

Definition hkeys (st : store) (k : string) : res (list string) :=
  match st !! k with
  | None => Ret []
  | Some (VHash h) => Ret (map fst (map_to_list h))
  | Some _ => Raise ResponseError
  end.

Definition zcard (st : store) (k : string) : res Z :=
  match st !! k with
  | None => Ret 0
  | Some (VZSet z) => Ret (Z.of_nat (size z))
  | Some _ => Raise ResponseError
  end.

(** Sorted-set order: by score, members of equal score bytewise. *)
Definition zleb (a b : string * float) : bool :=
  PrimFloat.ltb a.2 b.2 || (PrimFloat.eqb a.2 b.2 && String.leb a.1 b.1).
Definition zle (a b : string * float) : Prop := zleb a b = true.
#[global] Instance zle_dec : RelDecision zle :=
  fun a b => decide (zleb a b = true).

Definition zsorted (z : gmap string float) : list (string * float) :=
  merge_sort zle (map_to_list z).

(** The index arithmetic of ZRANGE and LTRIM: negative indexes count from
    the end, the range is clipped to the sequence. *)
Definition range_of {A} (l : list A) (start stop : Z) : list A :=
  let len := Z.of_nat (length l) in
  let start := if start <? 0 then Z.max (start + len) 0 else start in
  let stop := if stop <? 0 then stop + len else stop in
  let stop := Z.min stop (len - 1) in
  if (stop <? start) || (len <=? start) then []
  else take (Z.to_nat (stop - start + 1)) (drop (Z.to_nat start) l).

Definition zrange_withscores (st : store) (k : string) (start stop : Z)
  : res (list (string * float)) :=
  match st !! k with
  | None => Ret []
  | Some (VZSet z) => Ret (range_of (zsorted z) start stop)
  | Some _ => Raise ResponseError
  end.

Definition zrange (st : store) (k : string) (start stop : Z) : res (list string) :=
  l ← zrange_withscores st k start stop; Ret (map fst l).

(** *** Writes *)

Inductive aggregate := AggSum | AggMin | AggMax.

Inductive cmd :=
| ZADD (key member : string) (score : float)
| ZREM (key member : string)
| ZINCRBY (key member : string) (amount : float)
| ZUNIONSTORE (dest : string) (keys : list string) (agg : aggregate)
| SADD (key member : string)
| SREM (key member : string)
| HINCRBY (key field : string) (amount : Z)
| HDEL (key : string) (fields : list string)
| SET (key value : string)
| RENAME (src dst : string)
| DEL (keys : list string)
| LPUSH (key value : string)
| LTRIM (key : string) (start stop : Z).

Inductive reply :=
| ROk
| RInt (n : Z)
| RDouble (f : float)
| RError.

Definition int64 (z : Z) : bool := (- 2 ^ 63 <=? z) && (z <? 2 ^ 63).

Definition agg_score (a : aggregate) (old new : float) : float :=
  match a with
  | AggSum => let r := PrimFloat.add old new in if is_nan r then 0%float else r
  | AggMin => if PrimFloat.ltb new old then new else old
  | AggMax => if PrimFloat.ltb old new then new else old
  end.

(** A source of ZUNIONSTORE: a sorted set, a plain set (every member at
    score 1), or nothing. *)
Definition zsource (st : store) (k : string) : option (gmap string float) :=
  match st !! k with
  | None => Some ∅
  | Some (VZSet z) => Some z
  | Some (VSet s) => Some (gset_to_gmap 1%float s)
  | Some _ => None
  end.

(** The sources are folded in the order given. Redis visits them by
    increasing cardinality, which for min and max can change the result
    only in the sign of a zero score. *)
Fixpoint zunion (a : aggregate) (srcs : list (gmap string float))
    (acc : gmap string float) : gmap string float :=
  match srcs with
  | [] => acc
  | z :: rest => zunion a rest (union_with (fun old new => Some (agg_score a old new)) acc z)
  end.

Definition count_existing (st : store) (ks : list string) : Z :=
  Z.of_nat (length (filter (fun k => is_Some (st !! k)) ks)).

(** One write command on the keyspace: the reply and the new keyspace. A
    command that replies with an error leaves the keyspace as it was. *)
Definition exec_cmd (c : cmd) (st : store) : reply * store :=
  match c with
  | ZADD k m s =>
      if is_nan s then (RError, st) else
      match st !! k with
      | None => (RInt 1, <[k := VZSet {[m := s]}]> st)
      | Some (VZSet z) =>
          (RInt (match z !! m with Some _ => 0 | None => 1 end),
           <[k := VZSet (<[m := s]> z)]> st)
      | Some _ => (RError, st)
      end
  | ZREM k m =>
      match st !! k with
      | None => (RInt 0, st)
      | Some (VZSet z) =>
          match z !! m with
          | Some _ => (RInt 1, put_zset k (delete m z) st)
          | None => (RInt 0, st)
          end
      | Some _ => (RError, st)
      end
  | ZINCRBY k m d =>
      if is_nan d then (RError, st) else
      match st !! k with
      | None => (RDouble d, <[k := VZSet {[m := d]}]> st)
      | Some (VZSet z) =>
          let s := match z !! m with Some old => PrimFloat.add old d | None => d end in
          if is_nan s then (RError, st)
          else (RDouble s, <[k := VZSet (<[m := s]> z)]> st)
      | Some _ => (RError, st)
      end
  | ZUNIONSTORE d ks a =>
      match mapM (zsource st) ks with
      | None => (RError, st)
      | Some srcs =>
          let z := zunion a srcs ∅ in
          (RInt (Z.of_nat (size z)), put_zset d z st)
      end
  | SADD k m =>
      match st !! k with
      | None => (RInt 1, <[k := VSet {[m]}]> st)
      | Some (VSet s) =>
          (RInt (if bool_decide (m ∈ s) then 0 else 1), <[k := VSet ({[m]} ∪ s)]> st)
      | Some _ => (RError, st)
      end
  | SREM k m =>
      match st !! k with
      | None => (RInt 0, st)
      | Some (VSet s) =>
          if bool_decide (m ∈ s) then (RInt 1, put_set k (s ∖ {[m]}) st)
          else (RInt 0, st)
      | Some _ => (RError, st)
      end
  | HINCRBY k f d =>
      if negb (int64 d) then (RError, st) else
      match st !! k with
      | None => (RInt d, <[k := VHash {[f := d]}]> st)
      | Some (VHash h) =>
          let v := default 0 (h !! f) + d in
          if int64 v then (RInt v, <[k := VHash (<[f := v]> h)]> st)
          else (RError, st)
      | Some _ => (RError, st)
      end
  | HDEL k fs =>
      match st !! k with
      | None => (RInt 0, st)
      | Some (VHash h) =>
          let h' := foldr delete h fs in
          (RInt (Z.of_nat (size h) - Z.of_nat (size h')), put_hash k h' st)
      | Some _ => (RError, st)
      end
  | SET k v => (ROk, <[k := VString v]> st)
  | RENAME s d =>
      match st !! s with
      | None => (RError, st)
      | Some v => (ROk, <[d := v]> (delete s st))
      end
  | DEL ks => (RInt (count_existing st (remove_dups ks)), foldr delete st ks)
  | LPUSH k v =>
      match st !! k with
      | None => (RInt 1, <[k := VList [v]]> st)
      | Some (VList l) => (RInt (Z.of_nat (S (length l))), <[k := VList (v :: l)]> st)
      | Some _ => (RError, st)
      end
  | LTRIM k a b =>
      match st !! k with
      | None => (ROk, st)
      | Some (VList l) => (ROk, put_list k (range_of l a b) st)
      | Some _ => (RError, st)
      end
  end.

(** The keys a command writes: what invalidates a WATCH held by another
    client. A command that changes nothing is the same as no command, so
    taking every write as a touch loses no behaviour. *)
Definition writes (c : cmd) : list string :=
  match c with
  | ZADD k _ _ | ZREM k _ | ZINCRBY k _ _ | SADD k _ | SREM k _
  | HINCRBY k _ _ | HDEL k _ | SET k _ | LPUSH k _ | LTRIM k _ _ => [k]
  | ZUNIONSTORE d _ _ => [d]
  | RENAME s d => [s; d]
  | DEL ks => ks
  end.

Fixpoint run_cmds (cs : list cmd) (st : store) : list reply * store :=
  match cs with
  | [] => ([], st)
  | c :: rest =>
      let '(r, st1) := exec_cmd c st in
      let '(rs, st2) := run_cmds rest st1 in
      (r :: rs, st2)
  end.

Definition is_error (r : reply) : bool :=
  match r with RError => true | _ => false end.

(** ** The server side of a connection: WATCH, MULTI and EXEC *)

Record session := Session {
  watched : list string;       (* keys under WATCH *)
  dirty : bool;                (* a watched key was written by another client *)
  queue : option (list cmd)    (* [Some q]: after MULTI, [q] queued so far *)
}.

Definition idle : session := Session [] false None.

(** The keyspace, the session of the connection in use, and the write
    commands the server has run for this program so far, oldest first. *)
Record world := World {
  db : store;
  sess : session;
  history : list cmd
}.

Inductive wire :=
| W_WATCH (keys : list string)
| W_UNWATCH
| W_MULTI
| W_EXEC
| W_CMD (c : cmd).

Inductive answer :=
| AReply (r : reply)
| AQueued
| AExec (rs : list reply)
| AAbort.                      (* EXEC answered nil: the transaction was dropped *)

Definition serve (m : wire) (w : world) : answer * world :=
  let s := sess w in
  match m with
  | W_WATCH ks =>
      (AReply ROk, World (db w) (Session (ks ++ watched s) (dirty s) (queue s)) (history w))
  | W_UNWATCH =>
      (AReply ROk, World (db w) (Session [] false (queue s)) (history w))
  | W_MULTI =>
      match queue s with
      | Some _ => (AReply RError, w)
      | None =>
          (AReply ROk, World (db w) (Session (watched s) (dirty s) (Some [])) (history w))
      end
  | W_CMD c =>
      match queue s with
      | Some q =>
          (AQueued, World (db w) (Session (watched s) (dirty s) (Some (q ++ [c]))) (history w))
      | None =>
          let '(r, st) := exec_cmd c (db w) in
          (AReply r, World st s (history w ++ [c]))
      end
  | W_EXEC =>
      match queue s with
      | None => (AReply RError, w)
      | Some q =>
          if dirty s then (AAbort, World (db w) idle (history w))
          else
            let '(rs, st) := run_cmds q (db w) in
            (AExec rs, World st idle (history w ++ q))
      end
  end.

Fixpoint serve_all (ms : list wire) (w : world) : list answer * world :=
  match ms with
  | [] => ([], w)
  | m :: rest =>
      let '(a, w1) := serve m w in
      let '(l, w2) := serve_all rest w1 in
      (a :: l, w2)
  end.

(** A command of another client: it runs on the keyspace and marks this
    session dirty when it writes a watched key. *)
Definition touches (c : cmd) (s : session) : bool :=
  existsb (fun k => bool_decide (k ∈ watched s)) (writes c).

Definition other_client (c : cmd) (w : world) : world :=
  World (exec_cmd c (db w)).2
        (Session (watched (sess w)) (dirty (sess w) || touches c (sess w)) (queue (sess w)))
        (history w).

Definition others_run (cs : list cmd) (w : world) : world :=
  foldl (fun w c => other_client c w) w cs.

(** ** The redis-py client *)

Record pipeline := Pipeline {
  transaction : bool;
  explicit_transaction : bool;
  command_stack : list cmd
}.

(** [conn.pipeline(transaction=True)]: with no argument the pipeline is
    transactional. *)
Definition new_pipeline (transaction : option bool) : pipeline :=
  Pipeline (default true transaction) false [].

(** A new pipeline takes a connection on which nothing is watched and
    nothing is queued. *)
Definition connect (w : world) : world := World (db w) idle (history w).

Definition multi (p : pipeline) : pipeline :=
  Pipeline (transaction p) true (command_stack p).

Definition push (c : cmd) (p : pipeline) : pipeline :=
  Pipeline (transaction p) (explicit_transaction p) (command_stack p ++ [c]).

(** What [execute] sends: the stacked commands, wrapped in MULTI and EXEC
    when the pipeline is transactional. *)
Definition wire_of (p : pipeline) : list wire :=
  if transaction p || explicit_transaction p
  then W_MULTI :: map W_CMD (command_stack p) ++ [W_EXEC]
  else map W_CMD (command_stack p).

Definition plain_replies (l : list answer) : list reply :=
  omap (fun a => match a with AReply r => Some r | _ => None end) l.

Definition raise_on_error (rs : list reply) : res (list reply) :=
  if existsb is_error rs then Raise ResponseError else Ret rs.

(** [pipe.execute()]: a nil answer to EXEC raises [WatchError]; an error
    reply among the results raises [ResponseError] after the whole batch
    has run. *)
Definition execute (p : pipeline) (w : world) : res (list reply) * world :=
  let '(l, w') := serve_all (wire_of p) w in
  if transaction p || explicit_transaction p then
    match last l with
    | Some AAbort => (Raise WatchError, w')
    | Some (AExec rs) => (raise_on_error rs, w')
    | _ => (Raise ResponseError, w')
    end
  else (raise_on_error (plain_replies l), w').

Definition watch (ks : list string) (w : world) : world := (serve (W_WATCH ks) w).2.
Definition unwatch (w : world) : world := (serve W_UNWATCH w).2.

(** ** The environment of a call *)

(** What one turn of a retry loop takes from outside the program: the
    clock at the loop test, the UTC hour in ISO format, two uuid4
    strings, the [time.asctime()] stamp, and the commands other clients
    get served between this turn's reads and its EXEC or UNWATCH. *)
Record tick := Tick {
  clock : float;
  utc_hour : string;
  uuid1 : string;
  uuid2 : string;
  asctime : string;
  others : list cmd
}.

(** What a Python function hands back. *)
Inductive pyval :=
| PyNone
| PyTrue
| PyFalse
| PyReplies (rs : list reply).

(** [while time.time() < end: try: <attempt> except WatchError: <again>],
    followed by [fallthrough]. One [tick] is consumed per loop test;
    [None] when the schedule ends before the loop does. *)
Fixpoint retry (attempt : tick -> world -> res pyval * world) (fallthrough : pyval)
    (deadline : float) (sched : list tick) (w : world) : option (res pyval * world) :=
  match sched with
  | [] => None
  | e :: rest =>
      if PrimFloat.ltb (clock e) deadline then
        match attempt e w with
        | (Raise WatchError, w') => retry attempt fallthrough deadline rest w'
        | out => Some out
        end
      else Some (Ret fallthrough, w)
  end.

(** ** The marketplace (04_数据安全与性能保证.py) *)

Definition list_item_attempt (itemid sellerid : string) (price : Py.num)
    (e : tick) (w : world) : res pyval * world :=
  let inventory := "inventory:" +:+ sellerid in
  let item := itemid +:+ "." +:+ sellerid in
  let w := watch [inventory] w in
  match sismember (db w) inventory itemid with
  | Raise x => (Raise x, w)
  | Ret false => (Ret PyNone, unwatch (others_run (others e) w))
  | Ret true =>
      let pipe := multi (new_pipeline None) in
      let pipe := push (ZADD "market:" item (Py.to_float price)) pipe in
      let pipe := push (SREM inventory itemid) pipe in
      match execute pipe (others_run (others e) w) with
      | (Ret _, w') => (Ret PyTrue, w')
      | (Raise x, w') => (Raise x, w')
      end
  end.

Definition list_item (itemid sellerid : string) (price : Py.num)
    (t0 : float) (sched : list tick) (w : world) : option (res pyval * world) :=
  let deadline := PrimFloat.add t0 (Py.float_of_Z 5) in
  retry (list_item_attempt itemid sellerid price) PyFalse deadline sched (connect w).

(** [price != lprice], [price] being what ZSCORE gave. *)
Definition ne_num (f : float) (n : Py.num) : bool :=
  match n with
  | Py.Int z => Py.float_ne_Z f z
  | Py.Float g => negb (PrimFloat.eqb f g)
  end.

Definition purchase_item_attempt (buyerid itemid sellerid : string) (lprice : Py.num)
    (e : tick) (w : world) : res pyval * world :=
  let buyer := "users:" +:+ buyerid in
  let seller := "users:" +:+ sellerid in
  let item := itemid +:+ "." +:+ sellerid in
  let inventory := "inventory:" +:+ buyerid in
  let w := watch ["market:"; buyer] w in
  match zscore (db w) "market:" item with
  | Raise x => (Raise x, w)
  | Ret price =>
      match hget (db w) buyer "funds" with
      | Raise x => (Raise x, w)
      | Ret None => (Raise TypeError, w)             (* int(None) *)
      | Ret (Some funds) =>
          match price with
          | None =>                                  (* None != lprice *)
              (Ret PyNone, unwatch (others_run (others e) w))
          | Some price =>
              if ne_num price lprice || Py.float_gt_Z price funds
              then (Ret PyNone, unwatch (others_run (others e) w))
              else
                match Py.int_of_float price, Py.int_of_float (PrimFloat.opp price) with
                | Raise x, _ | _, Raise x => (Raise x, w)
                | Ret credit, Ret debit =>
                    let pipe := multi (new_pipeline None) in
                    let pipe := push (HINCRBY seller "funds" credit) pipe in
                    let pipe := push (HINCRBY buyer "funds" debit) pipe in
                    let pipe := push (SADD inventory itemid) pipe in
                    let pipe := push (ZREM "market:" item) pipe in
                    match execute pipe (others_run (others e) w) with
                    | (Ret _, w') => (Ret PyTrue, w')
                    | (Raise x, w') => (Raise x, w')
                    end
                end
          end
      end
  end.

Definition purchase_item (buyerid itemid sellerid : string) (lprice : Py.num)
    (t0 : float) (sched : list tick) (w : world) : option (res pyval * world) :=
  let deadline := PrimFloat.add t0 (Py.float_of_Z 10) in
  retry (purchase_item_attempt buyerid itemid sellerid lprice) PyFalse deadline sched
        (connect w).

(** ** Logs (05_使用Redis构建支持程序.py) *)

(** A severity as callers give it: a [logging] level or a name. *)
Inductive level :=
| Level (n : Z)
| Named (s : string).

Definition severity_names : list string :=
  ["debug"; "info"; "warning"; "error"; "critical"].

Definition SEVERITY (l : level) : option string :=
  match l with
  | Level 10 => Some "debug"
  | Level 20 => Some "info"
  | Level 30 => Some "warning"
  | Level 40 => Some "error"
  | Level 50 => Some "critical"
  | Level _ => None
  | Named s => if bool_decide (s ∈ severity_names) then Some s else None
  end.

Definition lower_ascii (c : ascii) : ascii :=
  let n := nat_of_ascii c in
  if ((65 <=? n) && (n <=? 90))%nat then ascii_of_nat (n + 32) else c.

Fixpoint lower (s : string) : string :=
  match s with
  | EmptyString => EmptyString
  | String c r => String (lower_ascii c) (lower r)
  end.

(** [str(SEVERITY.get(severity, severity)).lower()] *)
Definition severity_name (l : level) : string :=
  lower (match SEVERITY l with
         | Some s => s
         | None => match l with Level n => Py.str n | Named s => s end
         end).

(** [pipe or conn.pipeline()]: a pipeline with an empty stack has length
    zero and counts as false. *)
Definition pipe_or_new (pipe : option pipeline) : pipeline :=
  match pipe with
  | Some p => match command_stack p with [] => new_pipeline None | _ => p end
  | None => new_pipeline None
  end.

Definition log_recent (name message : string) (severity : level)
    (pipe : option pipeline) (e : tick) (w : world) : res pyval * world :=
  let severity := severity_name severity in
  let destination := "recent:" +:+ name +:+ ":" +:+ severity in
  let message := asctime e +:+ " " +:+ message in
  let pipe := pipe_or_new pipe in
  let pipe := push (LPUSH destination message) pipe in
  let pipe := push (LTRIM destination 0 99) pipe in
  match execute pipe w with
  | (Ret _, w') => (Ret PyNone, w')
  | (Raise x, w') => (Raise x, w')
  end.

(** Truth value of what GET gave: [None] and the empty string are false. *)
Definition nonempty (existing : option string) : bool :=
  match existing with
  | Some s => negb (String.eqb s "")
  | None => false
  end.

(** The hourly rotation that [log_common] and [update_stats] both stage
    right after [pipe.multi()], in the same words:
    [if existing and existing < hour_start: rename; rename; set
     elif not existing: set]. *)
Definition stage_rotation (destination start_key : string)
    (existing : option string) (hour_start : string) (pipe : pipeline) : pipeline :=
  if nonempty existing && String.ltb (default "" existing) hour_start then
    let pipe := push (RENAME destination (destination +:+ ":last")) pipe in
    let pipe := push (RENAME start_key (destination +:+ ":pstart")) pipe in
    push (SET start_key hour_start) pipe
  else if negb (nonempty existing) then
    push (SET start_key hour_start) pipe
  else pipe.

Definition log_common_attempt (name message : string) (severity : level)
    (e : tick) (w : world) : res pyval * world :=
  let severity := severity_name severity in
  let destination := "common:" +:+ name +:+ ":" +:+ severity in
  let start_key := destination +:+ ":start" in
  let w := watch [start_key] w in
  let hour_start := utc_hour e in
  match get (db w) start_key with
  | Raise x => (Raise x, w)
  | Ret existing =>
      let pipe := multi (new_pipeline None) in
      let pipe := stage_rotation destination start_key existing hour_start pipe in
      let pipe := push (ZINCRBY destination message 1) pipe in
      match log_recent name message (Named severity) (Some pipe) e
                       (others_run (others e) w) with
      | (Ret _, w') => (Ret PyNone, w')
      | (Raise x, w') => (Raise x, w')
      end
  end.

Definition log_common (name message : string) (severity : level) (timeout : Py.num)
    (t0 : float) (sched : list tick) (w : world) : option (res pyval * world) :=
  match Py.coerce timeout with
  | Raise x => Some (Raise x, w)
  | Ret timeout =>
      let deadline := PrimFloat.add t0 timeout in
      retry (log_common_attempt name message severity) PyNone deadline sched (connect w)
  end.

(** ** Counters *)

Definition PRECISION : list Z := [1; 5; 60; 300; 3600; 18000; 86400].

(** [int(now / prec) * prec]: on an int [now] Python 2 divides to the
    floor; on a float it divides as floats and [int] truncates. *)
Definition bucket_start (now : Py.num) (prec : Z) : res Z :=
  match now with
  | Py.Int z => Ret (z / prec * prec)
  | Py.Float f =>
      q ← Py.int_of_float (PrimFloat.div f (Py.float_of_Z prec)); Ret (q * prec)
  end.

(** The body of [for prec in PRECISION], stacking two commands a turn. *)
Fixpoint update_counter_stack (name : string) (count : Z) (now : Py.num)
    (precs : list Z) (pipe : pipeline) : res pipeline :=
  match precs with
  | [] => Ret pipe
  | prec :: rest =>
      pnow ← bucket_start now prec;
      let hash := Py.str prec +:+ ":" +:+ name in
      let pipe := push (ZADD "known:" hash 0%float) pipe in
      let pipe := push (HINCRBY ("count:" +:+ hash) (Py.str pnow) count) pipe in
      update_counter_stack name count now rest pipe
  end.

(** [now or time.time()] *)
Definition now_or (now : option Py.num) (t : float) : Py.num :=
  match now with
  | Some n => if Py.truthy n then n else Py.Float t
  | None => Py.Float t
  end.

Definition update_counter_pipe (name : string) (count : Z) (now : option Py.num)
    (t : float) : res pipeline :=
  update_counter_stack name count (now_or now t) PRECISION (new_pipeline None).

Definition update_counter (name : string) (count : Z) (now : option Py.num)
    (t : float) (w : world) : res pyval * world :=
  match update_counter_pipe name count now t with
  | Raise x => (Raise x, w)
  | Ret pipe =>
      match execute pipe (connect w) with
      | (Ret _, w') => (Ret PyNone, w')
      | (Raise x, w') => (Raise x, w')
      end
  end.

(** [bisect.bisect_right(a, x)] of the Python library, on a list of ints
    and a float: [while lo < hi: mid = (lo+hi)//2;
    if x < a[mid]: hi = mid else: lo = mid+1]. The interval shrinks at
    every turn, so [length a] turns are enough. *)
Fixpoint bisect_loop (fuel : nat) (a : list Z) (x : float) (lo hi : nat) : nat :=
  match fuel with
  | O => lo
  | S fuel =>
      if (lo <? hi)%nat then
        let mid := ((lo + hi) / 2)%nat in
        match a !! mid with
        | Some y =>
            if Py.float_lt_Z x y then bisect_loop fuel a x lo mid
            else bisect_loop fuel a x (S mid) hi
        | None => lo
        end
      else lo
  end.

Definition bisect_right (a : list Z) (x : float) : nat :=
  bisect_loop (length a) a x 0 (length a).

Definition SAMPLE_COUNT : Z := 100.

(** A command sent on the plain connection, outside the pipeline. It is
    another connection than the pipeline's, so it touches what the
    pipeline watches. *)
Definition call (c : cmd) (w : world) : res reply * world :=
  let '(r, st) := exec_cmd c (db w) in
  let s := sess w in
  (if is_error r then Raise ResponseError else Ret r,
   World st (Session (watched s) (dirty s || touches c s) (queue s)) (history w ++ [c])).

(** What one turn of the registry walk takes from outside: the clock read
    for the cutoff, and the commands other clients get served between
    HDEL and WATCH and between HLEN and EXEC or UNWATCH. *)
Record sweep_env := SweepEnv {
  sweep_clock : float;
  refill : list cmd;
  racing : list cmd
}.

(** [cutoff = time.time() - SAMPLE_COUNT * prec] *)
Definition cutoff_of (sample_count prec : Z) (now : float) : res float :=
  f ← Py.float_of_int (sample_count * prec); Ret (PrimFloat.sub now f).

(** The walk's body from [hkey = 'count:' + hash] on; the result is the
    index to go on with. *)
Definition trim_counter (sample_count : Z) (hash : string) (prec index : Z)
    (e : sweep_env) (w : world) : res Z * world :=
  let hkey := "count:" +:+ hash in
  match cutoff ← cutoff_of sample_count prec (sweep_clock e);
        fields ← hkeys (db w) hkey;
        samples ← mapM Py.int_of_str fields;
        Ret (cutoff, samples) with
  | Raise x => (Raise x, w)
  | Ret (cutoff, samples) =>
      let samples := merge_sort Z.le samples in
      let remove := bisect_right samples cutoff in
      if (remove =? 0)%nat then (Ret index, w) else
      match call (HDEL hkey (map Py.str (take remove samples))) w with
      | (Raise x, w) => (Raise x, w)
      | (Ret _, w) =>
          if (remove =? length samples)%nat then
            let w := watch [hkey] (others_run (refill e) w) in
            match hlen (db w) hkey with
            | Raise x => (Raise x, w)
            | Ret n =>
                if n =? 0 then
                  let pipe := multi (new_pipeline (Some true)) in
                  let pipe := push (ZREM "known:" hash) pipe in
                  match execute pipe (others_run (racing e) w) with
                  | (Ret _, w) => (Ret (index - 1), w)
                  | (Raise WatchError, w) => (Ret index, w)
                  | (Raise x, w) => (Raise x, w)
                  end
                else (Ret index, unwatch (others_run (racing e) w))
            end
          else (Ret index, w)
      end
  end.

(** [while index < conn.zcard('known:')]: one [sweep_env] a turn, [None]
    when they run out before the walk ends. *)
Fixpoint registry_pass (sample_count passes : Z) (envs : list sweep_env)
    (index : Z) (w : world) : option (res unit * world) :=
  match zcard (db w) "known:" with
  | Raise x => Some (Raise x, w)
  | Ret n =>
      if index <? n then
        match envs with
        | [] => None
        | e :: rest =>
            match zrange (db w) "known:" index index with
            | Raise x => Some (Raise x, w)
            | Ret [] => Some (Ret (), w)
            | Ret (hash :: _) =>
                let index := index + 1 in
                match Py.int_of_str (Py.before_colon hash) with
                | Raise x => Some (Raise x, w)
                | Ret prec =>
                    let bprec := if prec / 60 =? 0 then 1 else prec / 60 in
                    if negb (passes mod bprec =? 0)
                    then registry_pass sample_count passes rest index w
                    else
                      match trim_counter sample_count hash prec index e w with
                      | (Raise x, w) => Some (Raise x, w)
                      | (Ret index, w) => registry_pass sample_count passes rest index w
                      end
                end
            end
        end
      else Some (Ret (), w)
  end.

(** [duration = min(int(time.time() - start) + 1, 60)] and the argument
    of [time.sleep(max(60 - duration, 1))]. *)
Definition sleep_time (start finish : float) : res Z :=
  elapsed ← Py.int_of_float (PrimFloat.sub finish start);
  let duration := Z.min (elapsed + 1) 60 in
  Ret (Z.max (60 - duration) 1).

(** One turn of [while not QUIT]: the flag at the loop test, the clock at
    the start and at the end of the walk, and the walk's own turns. *)
Record pass_env := PassEnv {
  quit : bool;
  started : float;
  steps : list sweep_env;
  finished : float
}.

(** The daemon; it hands back the arguments of its [time.sleep] calls. *)
Fixpoint clean_counters_from (sample_count : Z) (sched : list pass_env)
    (passes : Z) (slept : list Z) (w : world) : option (res (list Z) * world) :=
  match sched with
  | [] => None
  | p :: rest =>
      if quit p then Some (Ret slept, w) else
      match registry_pass sample_count passes (steps p) 0 w with
      | None => None
      | Some (Raise x, w) => Some (Raise x, w)
      | Some (Ret _, w) =>
          match sleep_time (started p) (finished p) with
          | Raise x => Some (Raise x, w)
          | Ret s => clean_counters_from sample_count rest (passes + 1) (slept ++ [s]) w
          end
      end
  end.

Definition clean_counters (sample_count : Z) (sched : list pass_env) (w : world)
  : option (res (list Z) * world) :=
  clean_counters_from sample_count sched 0 [] (connect w).

(** ** Statistics *)

(** [lst[-3:]] *)
Definition last3 {A} (l : list A) : list A := drop (length l - 3) l.

(** ['stats:%s:%s'%(context, type)] *)
Definition stats_key (context type : string) : string :=
  "stats:" +:+ context +:+ ":" +:+ type.

Definition update_stats_attempt (context type : string) (value : Py.num)
    (e : tick) (w : world) : res pyval * world :=
  let destination := stats_key context type in
  let start_key := destination +:+ ":start" in
  let w := watch [start_key] w in
  let hour_start := utc_hour e in
  match get (db w) start_key with
  | Raise x => (Raise x, w)
  | Ret existing =>
      let pipe := multi (new_pipeline (Some true)) in
      let pipe := stage_rotation destination start_key existing hour_start pipe in
      let tkey1 := uuid1 e in
      let tkey2 := uuid2 e in
      let pipe := push (ZADD tkey1 "min" (Py.to_float value)) pipe in
      let pipe := push (ZADD tkey2 "max" (Py.to_float value)) pipe in
      let pipe := push (ZUNIONSTORE destination [destination; tkey1] AggMin) pipe in
      let pipe := push (ZUNIONSTORE destination [destination; tkey2] AggMax) pipe in
      let pipe := push (DEL [tkey1; tkey2]) pipe in
      let pipe := push (ZINCRBY destination "count" 1%float) pipe in
      let pipe := push (ZINCRBY destination "sum" (Py.to_float value)) pipe in
      let pipe := push (ZINCRBY destination "sumsq" (Py.to_float (Py.mul value value))) pipe in
      match execute pipe (others_run (others e) w) with
      | (Ret rs, w') => (Ret (PyReplies (last3 rs)), w')
      | (Raise x, w') => (Raise x, w')
      end
  end.

Definition update_stats (context type : string) (value timeout : Py.num)
    (t0 : float) (sched : list tick) (w : world) : option (res pyval * world) :=
  match Py.coerce timeout with
  | Raise x => Some (Raise x, w)
  | Ret timeout =>
      let deadline := PrimFloat.add t0 timeout in
      retry (update_stats_attempt context type value) PyNone deadline sched (connect w)
  end.

(** [dict(pairs)]: a later pair replaces an earlier one of the same key. *)
Definition dict (pairs : list (string * float)) : gmap string float :=
  foldl (fun d kv => <[kv.1 := kv.2]> d) ∅ pairs.

(** [d[k]] *)
Definition item (d : gmap string float) (k : string) : res float :=
  match d !! k with
  | Some v => Ret v
  | None => Raise KeyError
  end.

(** [x or 1] on a float *)
Definition or_one (x : float) : float :=
  if PrimFloat.eqb x 0%float then 1%float else x.

(** The arithmetic of [get_stats] on the dictionary it has read. *)
Definition stats_of (data : gmap string float) : res (gmap string float) :=
  sum ← item data "sum";
  count ← item data "count";
  average ← Py.fdiv sum count;
  let data := <["average" := average]> data in
  sumsq ← item data "sumsq";
  sum ← item data "sum";
  square ← Py.fsquare sum;
  count ← item data "count";
  mean_square ← Py.fdiv square count;
  let numerator := PrimFloat.sub sumsq mean_square in
  count ← item data "count";
  variance ← Py.fdiv numerator (or_one (PrimFloat.sub count 1%float));
  stddev ← Py.fsqrt variance;
  Ret (<["stddev" := stddev]> data).

Definition get_stats (context type : string) (w : world) : res (gmap string float) :=
  let key := stats_key context type in
  pairs ← zrange_withscores (db w) key 0 (-1);
  stats_of (dict pairs).

(** [max(60 - elapsed, 1)], the sleep as the specification words it, on
    the float [elapsed = time.time() - start]. *)
Definition sleep_as_specified (start finish : float) : float :=
  let rest := PrimFloat.sub 60%float (PrimFloat.sub finish start) in
  if PrimFloat.ltb rest 1%float then 1%float else rest.

(** Every turn of a schedule is taken before the deadline and ends in a
    watch conflict; the worlds are what the first turn starts from and
    what the last one leaves. *)
Inductive all_conflict (attempt : tick -> world -> res pyval * world)
    (deadline : float) : list tick -> world -> world -> Prop :=
| all_conflict_nil w : all_conflict attempt deadline [] w w
| all_conflict_cons e rest w w1 w2 :
    PrimFloat.ltb (clock e) deadline = true ->
    attempt e w = (Raise WatchError, w1) ->
    all_conflict attempt deadline rest w1 w2 ->
    all_conflict attempt deadline (e :: rest) w w2.

(** A turn on which another client writes [key]. *)
Definition interferes (key : string) (e : tick) : bool :=
  existsb (fun c => bool_decide (key ∈ writes c)) (others e).

(** The two writes of [update_counter] for one precision, given the
    bucket start. *)
Definition counter_writes (name : string) (count : Z) (prec pnow : Z) : list cmd :=
  let hash := Py.str prec +:+ ":" +:+ name in
  [ZADD "known:" hash 0%float; HINCRBY ("count:" +:+ hash) (Py.str pnow) count].

(** The commands [stage_rotation] stacks. *)
Definition rotation_cmds (destination start_key : string)
    (existing : option string) (hour_start : string) : list cmd :=
  command_stack (stage_rotation destination start_key existing hour_start
                                (Pipeline true true [])).

(** The writes of [update_stats] after the rotation. *)
Definition stats_writes (destination tkey1 tkey2 : string) (value : Py.num) : list cmd :=
  [ZADD tkey1 "min" (Py.to_float value); ZADD tkey2 "max" (Py.to_float value);
   ZUNIONSTORE destination [destination; tkey1] AggMin;
   ZUNIONSTORE destination [destination; tkey2] AggMax;
   DEL [tkey1; tkey2];
   ZINCRBY destination "count" 1%float;
   ZINCRBY destination "sum" (Py.to_float value);
   ZINCRBY destination "sumsq" (Py.to_float (Py.mul value value))].

(** The writes of [log_common] after the rotation, those of the
    [log_recent] it ends with included. *)
Definition log_writes (name message severity stamp : string) : list cmd :=
  let recent := "recent:" +:+ name +:+ ":" +:+ severity_name (Named severity) in
  [ZINCRBY ("common:" +:+ name +:+ ":" +:+ severity) message 1%float;
   LPUSH recent (stamp +:+ " " +:+ message);
   LTRIM recent 0 99].

(** The shape [log_common] and [update_stats] share: watch the start
    marker, read it, stack the rotation and then the writes, execute. *)
Definition rotating_attempt (destination start_key : string) (tail : list cmd)
    (hand_back : list reply -> pyval) (e : tick) (w : world) : res pyval * world :=
  let w := watch [start_key] w in
  match get (db w) start_key with
  | Raise x => (Raise x, w)
  | Ret existing =>
      let pipe := Pipeline true true
                    (rotation_cmds destination start_key existing (utc_hour e) ++ tail) in
      match execute pipe (others_run (others e) w) with
      | (Ret rs, w') => (Ret (hand_back rs), w')
      | (Raise x, w') => (Raise x, w')
      end
  end.

(** The keyspace after the commands of other clients. *)
Definition others_db (cs : list cmd) (st : store) : store :=
  foldl (fun st c => (exec_cmd c st).2) st cs.

(** ZINCRBY on a sorted set: the new score and the new set, [None] where
    Redis answers with an error. *)
Definition zincr (m : string) (d : float) (z : gmap string float)
  : option (float * gmap string float) :=
  if is_nan d then None else
  let s := match z !! m with Some old => PrimFloat.add old d | None => d end in
  if is_nan s then None else Some (s, <[m := s]> z).

(** What [stats_writes] leaves in the aggregate record [z], and its last
    three replies. *)
Definition stats_merge (z : gmap string float) (value : Py.num)
  : option (gmap string float * list reply) :=
  let v := Py.to_float value in
  if is_nan v then None else
  let z1 := zunion AggMin [z; {["min" := v]}] ∅ in
  let z2 := zunion AggMax [z1; {["max" := v]}] ∅ in
  '(c, z3) ← zincr "count" 1%float z2;
  '(s, z4) ← zincr "sum" v z3;
  '(q, z5) ← zincr "sumsq" (Py.to_float (Py.mul value value)) z4;
  Some (z5, [RDouble c; RDouble s; RDouble q]).

(** The key holds the sorted set [z], the empty one when it is absent. *)
Definition zset_at (st : store) (k : string) (z : gmap string float) : Prop :=
  (st !! k = None /\ z = ∅) \/ st !! k = Some (VZSet z).

Definition is_rename (c : cmd) : bool :=
  match c with RENAME _ _ => true | _ => false end.

(** How many RENAME commands a list holds. *)
Definition renames (cs : list cmd) : nat := length (List.filter is_rename cs).

(** The read phase of a purchase found the price changed or the funds
    short: the listing is gone, or its price is not the expected one, or
    it is above the buyer's funds. *)
Definition precondition_failed (st : store) (buyerid itemid sellerid : string)
    (lprice : Py.num) : Prop :=
  exists funds, hget st ("users:" +:+ buyerid) "funds" = Ret (Some funds)
  /\ (zscore st "market:" (itemid +:+ "." +:+ sellerid) = Ret None
      \/ exists price, zscore st "market:" (itemid +:+ "." +:+ sellerid) = Ret (Some price)
           /\ (ne_num price lprice = true \/ Py.float_gt_Z price funds = true)).

(** The start marker holds a non-empty hour that is not before [hour]. *)
Definition marker_at (st : store) (start_key hour : string) : Prop :=
  exists s, st !! start_key = Some (VString s) /\ s <> "" /\ String.ltb s hour = false.

(** A turn with no other client at work, read in the hour [hour], whose
    uuid4 strings are two different keys, free in [st] and other than the
    aggregate's two keys. *)
Definition calm_turn (st : store) (destination hour : string) (e : tick) : Prop :=
  others e = [] /\ utc_hour e = hour
  /\ uuid1 e <> uuid2 e
  /\ uuid1 e <> destination /\ uuid2 e <> destination
  /\ uuid1 e <> destination +:+ ":start" /\ uuid2 e <> destination +:+ ":start"
  /\ st !! uuid1 e = None /\ st !! uuid2 e = None.

(** [update_stats] called once for each value of a list, every call
    handing back a list of replies. *)
Fixpoint update_stats_each (context type : string) (timeout : Py.num)
    (calls : list (Py.num * float * list tick)) (w : world) : option world :=
  match calls with
  | [] => Some w
  | (value, t0, sched) :: rest =>
      match update_stats context type value timeout t0 sched w with
      | Some (Ret (PyReplies _), w') => update_stats_each context type timeout rest w'
      | _ => None
      end
  end.

(** A calm turn at clock [c] in the hour 2020-10-29T21, with the given
    temporary keys: what the scenarios below run on. *)
Definition calm (c : float) (k1 k2 : string) : tick :=
  Tick c "2020-10-29T21:00:00" k1 k2 "Thu Oct 29 21:27:18 2020" [].

Definition five_turns : list (float * tick * list tick) :=
  [(0%float, calm 1%float "a1" "a2", []);
   (2%float, calm 3%float "b1" "b2", []);
   (4%float, calm 5%float "c1" "c2", []);
   (6%float, calm 7%float "d1" "d2", []);
   (8%float, calm 9%float "e1" "e2", [])].

(** The world a call leaves, the one it started from when the schedule
    ran out. *)
Definition after (o : option (res pyval * world)) (w : world) : world :=
  match o with Some (_, w') => w' | None => w end.

(** An aggregate left from the hour before. *)
Definition stale_world : world :=
  World (<["stats:temp:example:start" := VString "2020-10-29T20:00:00"]>
           (<["stats:temp:example" :=
                VZSet (<["min" := 7%float]> (<["max" := 7%float]> (<["count" := 1%float]>
                         (<["sum" := 7%float]> (<["sumsq" := 49%float]> ∅)))))]> ∅))
        idle [].

(** The integer a hash field holds, zero when the key or the field is
    absent, as HINCRBY reads it. *)
Definition hfield (st : store) (k f : string) : Z :=
  match st !! k with
  | Some (VHash h) => default 0 (h !! f)
  | _ => 0
  end.

(** A user's funds. *)
Definition funds_of (st : store) (user : string) : Z :=
  hfield st ("users:" +:+ user) "funds".

(** No other client is at work on any turn. *)
Definition quiet (sched : list tick) : Prop := Forall (fun e => others e = []) sched.

(** The batch of a listing and the batch of a purchase. *)
Definition list_item_cmds (itemid sellerid : string) (price : Py.num) : list cmd :=
  [ZADD "market:" (itemid +:+ "." +:+ sellerid) (Py.to_float price);
   SREM ("inventory:" +:+ sellerid) itemid].

Definition purchase_item_cmds (buyerid itemid sellerid : string) (credit debit : Z)
  : list cmd :=
  [HINCRBY ("users:" +:+ sellerid) "funds" credit;
   HINCRBY ("users:" +:+ buyerid) "funds" debit;
   SADD ("inventory:" +:+ buyerid) itemid;
   ZREM "market:" (itemid +:+ "." +:+ sellerid)].

(** A seller holding item1 and a buyer with 125 in funds. *)
Definition market_world : world :=
  World (<["inventory:sellerA" := VSet {["item1"]}]>
           (<["users:buyerB" := VHash {["funds" := 125]}]> ∅))
        idle [].

(** The hash a key holds, the empty one when the key is absent. *)
Definition hash_at (st : store) (k : string) : gmap string Z :=
  match st !! k with
  | Some (VHash h) => h
  | _ => ∅
  end.

(** A float that is not a nan. *)
Definition is_number (f : float) : bool :=
  match Prim2SF f with S754_nan => false | _ => true end.

(** The field is a bucket start not above the cutoff. *)
Definition expired (cutoff : float) (field : string) : bool :=
  match Py.int_of_str field with
  | Ret z => Py.Z_le_float z cutoff
  | Raise _ => false
  end.

(** Every field of a bucket hash is [str] of an int, as [update_counter]
    writes them. *)
Definition bucket_hash (h : gmap string Z) : Prop :=
  forall f v, h !! f = Some v -> exists z, f = Py.str z.

(** The score ZINCRBY by [d] leaves for the member [m] of [z]. *)
Definition bumped (z : gmap string float) (m : string) (d : float) : float :=
  match z !! m with Some old => PrimFloat.add old d | None => d end.

(** The score ZUNIONSTORE leaves for [m] when [z] is aggregated with the
    one-member set [{m: v}]. *)
Definition merged (a : aggregate) (z : gmap string float) (m : string) (v : float) : float :=
  match z !! m with Some old => agg_score a old v | None => v end.

(** Two scores are the same number: equal, or a zero each. ZUNIONSTORE
    visits its sources by increasing size and keeps the score it met
    first when the other is neither lower, for MIN, nor higher, for MAX;
    of two zeros of different sign either may stay. *)
Definition same_score (a b : float) : Prop :=
  a = b \/ (PrimFloat.eqb a 0%float = true /\ PrimFloat.eqb b 0%float = true).

(** ** Integer literals *)

(** [int(s, 10)] on a string: ten is the base [int(s)] reads in. *)
Definition int_literal (s : string) : res Z := Py.int_of_str s.

(** ** Addresses *)

(** [s.split(sep)] for a separator of one character: the pieces between
    the separators, one more than there are separators. *)
Fixpoint split_on (sep : ascii) (s : string) : list string :=
  match s with
  | EmptyString => [EmptyString]
  | String c r =>
      if Ascii.eqb c sep then EmptyString :: split_on sep r
      else match split_on sep r with
           | p :: ps => String c p :: ps
           | [] => [String c EmptyString]
           end
  end.

(** The body of [for v in ip_address.split('.')]. *)
Fixpoint ip_score_loop (score : Z) (parts : list string) : res Z :=
  match parts with
  | [] => Ret score
  | v :: rest => n ← int_literal v; ip_score_loop (score * 256 + n) rest
  end.

Definition ip_to_score (ip_address : string) : res Z :=
  ip_score_loop 0 (split_on "." ip_address).

(** ['.'.join(parts)] *)
Fixpoint join_dots (parts : list string) : string :=
  match parts with
  | [] => EmptyString
  | [p] => p
  | p :: rest => p +:+ "." +:+ join_dots rest
  end.

(** The address written with the four octets in decimal. *)
Definition dotted (a b c d : Z) : string :=
  join_dots [Py.str a; Py.str b; Py.str c; Py.str d].

(** An octet. *)
Definition octet (z : Z) : Prop := 0 <= z < 256.

(** Every character of the string satisfies [p]. *)
Fixpoint all_chars (p : ascii -> bool) (s : string) : bool :=
  match s with
  | EmptyString => true
  | String c r => p c && all_chars p r
  end.

Definition is_digit (c : ascii) : bool :=
  let n := nat_of_ascii c in ((48 <=? n) && (n <=? 57))%nat.

(** ** Reading a counter *)

Definition hgetall (st : store) (k : string) : res (list (string * Z)) :=
  match st !! k with
  | None => Ret []
  | Some (VHash h) => Ret (map_to_list h)
  | Some _ => Raise ResponseError
  end.

(** Python's order on tuples of two ints: by the first component, then
    by the second. *)
Definition pair_leb (a b : Z * Z) : bool :=
  (a.1 <? b.1) || ((a.1 =? b.1) && (a.2 <=? b.2)).
Definition pair_le (a b : Z * Z) : Prop := pair_leb a b = true.
#[global] Instance pair_le_dec : RelDecision pair_le :=
  fun a b => decide (pair_leb a b = true).

(** The hash values are the ints HINCRBY keeps, so [int(value)] is the
    value; the dictionary is walked in the order the hash lists its
    fields, which the sort makes immaterial. *)
Definition get_counter (name : string) (precision : Z) (w : world) : res (list (Z * Z)) :=
  let hash := Py.str precision +:+ ":" +:+ name in
  data ← hgetall (db w) ("count:" +:+ hash);
  to_return ← mapM (fun kv : string * Z => key ← int_literal kv.1; Ret (key, kv.2)) data;
  Ret (merge_sort pair_le to_return).

(** ** The maintenance flag *)

(** The two globals of [is_under_maintenance]. *)
Record maintenance := Maintenance {
  LAST_CHECKED : option float;
  IS_UNDER_MAINTENANCE : bool
}.

(** [LAST_CHECKED = None] and [IS_UNDER_MAINTENANCE = False], as the
    module sets them. *)
Definition maintenance_start : maintenance := Maintenance None false.

(** [a < b] where [a] may be [None]: Python 2 orders [None] before every
    number. *)
Definition none_ltb (a : option float) (b : float) : bool :=
  match a with
  | None => true
  | Some x => PrimFloat.ltb x b
  end.

(** [t1] and [t2] are the clock at the test and at the assignment. The
    time of the check is stored before GET is sent, so it stays when GET
    raises. *)
Definition is_under_maintenance (t1 t2 : float) (w : world) (g : maintenance)
  : res bool * maintenance :=
  if none_ltb (LAST_CHECKED g) (PrimFloat.sub t1 1%float) then
    match get (db w) "is-under-maintenance" with
    | Raise x => (Raise x, Maintenance (Some t2) (IS_UNDER_MAINTENANCE g))
    | Ret v => (Ret (nonempty v), Maintenance (Some t2) (nonempty v))
    end
  else (Ret (IS_UNDER_MAINTENANCE g), g).

(** ** Keyspaces the properties are run on *)

(** A registry with the counter 5:hits, whose hash holds three buckets,
    beside a recent log. *)
Definition sweep_world : world :=
  World (<["known:" := VZSet {["5:hits" := 0%float]}]>
           (<["count:5:hits" := VHash {["85" := 3; "90" := 1; "95" := 2]}]>
              (<["recent:test:info" := VList ["a message"]]> ∅)))
        idle [].

(** The market after sellerA listed item1 at 100, and a buyer with 125
    in funds. *)
Definition listed_world : world :=
  World (<["market:" := VZSet {["item1.sellerA" := 100%float]}]>
           (<["users:buyerB" := VHash {["funds" := 125]}]> ∅))
        idle [].

(** A common log of the hour 20:00 that holds one message seen 3 times. *)
Definition logged_world : world :=
  World (<["common:test:info:start" := VString "2020-10-29T20:00:00"]>
           (<["common:test:info" := VZSet {["a message" := 3%float]}]> ∅))
        idle [].

(** An aggregate of the hour 20:00. *)
Definition measured_world : world :=
  World (<["stats:temp:example:start" := VString "2020-10-29T20:00:00"]>
           (<["stats:temp:example" :=
                VZSet {["count" := 2%float; "sum" := 18%float; "sumsq" := 164%float;
                        "min" := 8%float; "max" := 10%float]}]> ∅))
        idle [].

(** * Properties *)

(** ** Transactions on the server *)

Lemma serve_all_queued (cs : list cmd) (st : store) wk d q h :
  serve_all (map W_CMD cs) (World st (Session wk d (Some q)) h)
  = (map (fun _ => AQueued) cs, World st (Session wk d (Some (q ++ cs))) h).
Proof.
  revert q. induction cs as [|c cs IH]; intros q; cbn.
  - by rewrite app_nil_r.
  - rewrite IH. by rewrite <- app_assoc.
Qed.

Lemma serve_all_app (l1 l2 : list wire) (w : world) :
  serve_all (l1 ++ l2) w
  = let '(a1, w1) := serve_all l1 w in
    let '(a2, w2) := serve_all l2 w1 in (a1 ++ a2, w2).
Proof.
  revert w. induction l1 as [|m l1 IH]; intros w; cbn.
  - by destruct (serve_all l2 w).
  - destruct (serve m w) as [a w1]. rewrite IH.
    destruct (serve_all l1 w1) as [a1 w2]. by destruct (serve_all l2 w2).
Qed.

(** What [execute] does with a transactional pipeline on a connection
    that is not inside MULTI: nothing when the session is dirty, the
    whole stack in order otherwise. *)
Lemma execute_transaction (p : pipeline) (st : store) wk d h :
  transaction p || explicit_transaction p = true ->
  execute p (World st (Session wk d None) h)
  = if d then (Raise WatchError, World st idle h)
    else (raise_on_error (run_cmds (command_stack p) st).1,
          World (run_cmds (command_stack p) st).2 idle (h ++ command_stack p)).
Proof.
  intros Ht. unfold execute, wire_of. rewrite Ht. cbn [serve_all serve sess queue db watched dirty history].
  rewrite serve_all_app, serve_all_queued. cbn.
  destruct d; cbn.
  - by rewrite app_comm_cons, last_snoc.
  - destruct (run_cmds (command_stack p) st) as [rs st']. cbn.
    by rewrite app_comm_cons, last_snoc.
Qed.

Lemma others_run_nil (w : world) : others_run [] w = w.
Proof. done. Qed.

Lemma others_run_queue (cs : list cmd) (w : world) :
  queue (sess (others_run cs w)) = queue (sess w)
  /\ watched (sess (others_run cs w)) = watched (sess w)
  /\ history (others_run cs w) = history w.
Proof.
  revert w. induction cs as [|c cs IH]; intros w; [done|].
  change (others_run (c :: cs) w) with (others_run cs (other_client c w)).
  destruct (IH (other_client c w)) as (-> & -> & ->). done.
Qed.

(** ** Reading a whole sorted set into a dictionary *)

Lemma range_of_all {A} (l : list A) : range_of l 0 (-1) = l.
Proof.
  unfold range_of. cbn [Z.ltb Z.compare].
  destruct l as [|a l]; [done|].
  replace (Z.min (-1 + Z.of_nat (length (a :: l))) (Z.of_nat (length (a :: l)) - 1))
    with (Z.of_nat (length l)) by (cbn [length]; lia).
  replace (Z.of_nat (length l) <? 0) with false by (symmetry; apply Z.ltb_ge; lia).
  replace (Z.of_nat (length (a :: l)) <=? 0) with false
    by (symmetry; apply Z.leb_gt; cbn [length]; lia).
  cbn [orb Z.to_nat drop].
  replace (Z.to_nat (Z.of_nat (length l) - 0 + 1)) with (length (a :: l))
    by (cbn [length]; lia).
  apply firstn_all.
Qed.

Lemma dict_foldl (l : list (string * float)) (d : gmap string float) :
  foldl (fun d kv => <[kv.1 := kv.2]> d) d l
  = foldr (fun kv d => <[kv.1 := kv.2]> d) d (reverse l).
Proof.
  revert d. induction l as [|kv l IH]; intros d; [done|].
  cbn [foldl]. rewrite IH, reverse_cons, foldr_app. done.
Qed.

Lemma dict_list_to_map (l : list (string * float)) :
  dict l = list_to_map (reverse l).
Proof.
  unfold dict. rewrite dict_foldl.
  induction (reverse l) as [|[k v] r IH]; [done|].
  cbn. by rewrite IH.
Qed.

Lemma dict_zsorted (z : gmap string float) : dict (zsorted z) = z.
Proof.
  rewrite dict_list_to_map. unfold zsorted.
  rewrite <- (list_to_map_to_list z) at 2.
  apply list_to_map_proper.
  - rewrite fmap_reverse, reverse_Permutation, merge_sort_Permutation.
    apply NoDup_fst_map_to_list.
  - rewrite reverse_Permutation. apply merge_sort_Permutation.
Qed.

Lemma get_stats_absent (context type : string) (w : world) :
  db w !! stats_key context type = None ->
  get_stats context type w = stats_of ∅.
Proof.
  intros H. unfold get_stats, zrange_withscores. rewrite H. done.
Qed.

Lemma get_stats_zset (context type : string) (w : world) (z : gmap string float) :
  db w !! stats_key context type = Some (VZSet z) ->
  get_stats context type w = stats_of z.
Proof.
  intros H. unfold get_stats, zrange_withscores. rewrite H.
  cbn [mbind res_bind]. rewrite range_of_all, dict_zsorted. done.
Qed.

(** ** Statistics of an empty aggregate *)

Lemma or_one_nonzero (x : float) : PrimFloat.eqb (or_one x) 0%float = false.
Proof.
  unfold or_one. destruct (PrimFloat.eqb x 0%float) eqn:E; [reflexivity|exact E].
Qed.

Lemma fdiv_nonzero (a b : float) :
  PrimFloat.eqb b 0%float = false -> Py.fdiv a b = Ret (PrimFloat.div a b).
Proof. intros H. unfold Py.fdiv. by rewrite H. Qed.

(** C1, as the code has it: on an aggregate whose record is absent
    [get_stats] raises [KeyError], and on a record holding [sum] and a
    [count] of zero it raises [ZeroDivisionError]; no "no data" result is
    produced. Of the divisors only [count - 1] is guarded: on a record
    holding [sum], [count] and [sumsq] with a count other than zero no
    division raises. *)
Theorem get_stats_empty_raises (context type : string) (w : world) :
  (db w !! stats_key context type = None ->
   get_stats context type w = Raise KeyError)
  /\ (forall z sum count,
        db w !! stats_key context type = Some (VZSet z) ->
        z !! "sum" = Some sum -> z !! "count" = Some count ->
        PrimFloat.eqb count 0%float = true ->
        get_stats context type w = Raise ZeroDivisionError)
  /\ (forall z sum count sumsq,
        db w !! stats_key context type = Some (VZSet z) ->
        z !! "sum" = Some sum -> z !! "count" = Some count ->
        z !! "sumsq" = Some sumsq ->
        PrimFloat.eqb count 0%float = false ->
        get_stats context type w <> Raise ZeroDivisionError
        /\ get_stats context type w <> Raise KeyError).
Proof.
  split; [|split].
  - intros H. rewrite get_stats_absent by done. reflexivity.
  - intros z sum count H Hs Hc H0. rewrite (get_stats_zset _ _ _ _ H).
    unfold stats_of, item. rewrite Hs, Hc. cbn [mbind res_bind].
    unfold Py.fdiv. rewrite H0. reflexivity.
  - intros z sum count sumsq H Hs Hc Hq H0. rewrite (get_stats_zset _ _ _ _ H).
    unfold stats_of, item. rewrite Hs, Hc. cbn [mbind res_bind].
    rewrite (fdiv_nonzero _ _ H0). cbn [mbind res_bind].
    rewrite !lookup_insert_ne by done. rewrite Hs, Hc, Hq. cbn [mbind res_bind].
    unfold Py.fsquare.
    destruct (is_infinity (PrimFloat.mul sum sum) && negb (is_infinity sum));
      cbn [mbind res_bind]; [split; discriminate|].
    rewrite (fdiv_nonzero _ _ H0). cbn [mbind res_bind].
    rewrite (fdiv_nonzero _ _ (or_one_nonzero _)). cbn [mbind res_bind].
    match goal with |- context [Py.fsqrt ?v] => destruct (Py.fsqrt v) as [r|x] eqn:E end;
      cbn [mbind res_bind]; [split; discriminate|].
    unfold Py.fsqrt in E.
    repeat match type of E with
           | (if ?c then _ else _) = _ => destruct c; try discriminate E
           end.
    injection E as <-. split; discriminate.
Qed.

(** C1, as stated, fails: on the empty keyspace [get_stats] raises
    [KeyError], and on a record with a zero count it raises
    [ZeroDivisionError]. *)
Lemma get_stats_empty_counterexample :
  get_stats "temp" "example" (World ∅ idle []) = Raise KeyError
  /\ get_stats "temp" "example"
       (World {[ "stats:temp:example" :=
                   VZSet (<["count" := 0%float]> (<["sum" := 0%float]> (<["sumsq" := 0%float]> ∅))) ]}
              idle [])
     = Raise ZeroDivisionError.
Proof. split; vm_compute; reflexivity. Qed.

Lemma get_stats_empty_raises_witness :
  get_stats "temp" "example" (World ∅ idle []) = Raise KeyError.
Proof.
  apply (get_stats_empty_raises "temp" "example" (World ∅ idle [])).
  reflexivity.
Defined.

(** ** The sweeper's sleep *)

(** C7, as the code has it: the pass's elapsed time is truncated to whole
    seconds and one second is added before it is taken from 60, so an
    outer turn that does not quit and whose walk ends sleeps
    [max(60 - min(int(elapsed) + 1, 60), 1)] seconds, a whole number that
    is at least 1, and at most 59 once [int(elapsed)] is not negative. *)
Theorem clean_counters_sleep (sample_count passes elapsed : Z) (p : pass_env)
    (rest : list pass_env) (slept : list Z) (w w' : world) :
  quit p = false ->
  registry_pass sample_count passes (steps p) 0 w = Some (Ret (), w') ->
  Py.int_of_float (PrimFloat.sub (finished p) (started p)) = Ret elapsed ->
  let s := Z.max (60 - Z.min (elapsed + 1) 60) 1 in
  sleep_time (started p) (finished p) = Ret s
  /\ clean_counters_from sample_count (p :: rest) passes slept w
     = clean_counters_from sample_count rest (passes + 1) (slept ++ [s]) w'
  /\ 1 <= s /\ (0 <= elapsed -> s <= 59).
Proof.
  intros Hq Hp He s.
  assert (Hs : sleep_time (started p) (finished p) = Ret s).
  { unfold sleep_time. rewrite He. reflexivity. }
  split; [exact Hs|]. split.
  - cbn [clean_counters_from]. rewrite Hq, Hp, Hs. reflexivity.
  - subst s. lia.
Qed.

(** C7, as stated, fails: a pass that takes no time at all sleeps 59
    seconds, where [max(60 - elapsed, 1)] is 60; one that takes half a
    second sleeps 59 seconds, not 59.5. *)
Lemma clean_counters_sleep_counterexample :
  sleep_time 0%float 0%float = Ret 59
  /\ sleep_as_specified 0%float 0%float = 60%float
  /\ sleep_time 100%float 100.5%float = Ret 59
  /\ sleep_as_specified 100%float 100.5%float = 59.5%float.
Proof. repeat split; vm_compute; reflexivity. Qed.

Lemma clean_counters_sleep_witness :
  let p := PassEnv false 100%float [] 100.5%float in
  let w := World ∅ idle [] in
  sleep_time (started p) (finished p) = Ret 59
  /\ clean_counters_from SAMPLE_COUNT [p; PassEnv true 0%float [] 0%float] 0 [] w
     = clean_counters_from SAMPLE_COUNT [PassEnv true 0%float [] 0%float] (0 + 1) ([] ++ [59]) w
  /\ 1 <= 59 /\ (0 <= 0 -> 59 <= 59).
Proof.
  intros p w.
  apply (clean_counters_sleep SAMPLE_COUNT 0 0 p [PassEnv true 0%float [] 0%float] [] w w);
    vm_compute; reflexivity.
Defined.

(** ** The retry loop *)

Lemma retry_all_conflict attempt fallthrough deadline turns rest w w1 :
  all_conflict attempt deadline turns w w1 ->
  retry attempt fallthrough deadline (turns ++ rest) w
  = retry attempt fallthrough deadline rest w1.
Proof.
  induction 1 as [|e turns w w1 w2 Ht Ha _ IH]; [done|].
  cbn [app retry]. rewrite Ht, Ha. exact IH.
Qed.

(** How a call that ends can have ended: on a turn taken after the
    deadline, with the fall-through value, or on a turn taken before it
    whose attempt did not raise [WatchError]. *)
Lemma retry_ends attempt fallthrough deadline sched w r w' :
  retry attempt fallthrough deadline sched w = Some (r, w') ->
  (r = Ret fallthrough
   /\ exists e, e ∈ sched /\ PrimFloat.ltb (clock e) deadline = false)
  \/ (exists e w1, e ∈ sched /\ PrimFloat.ltb (clock e) deadline = true
        /\ attempt e w1 = (r, w') /\ r <> Raise WatchError).
Proof.
  revert w. induction sched as [|e rest IH]; intros w H; [done|].
  cbn [retry] in H. destruct (PrimFloat.ltb (clock e) deadline) eqn:Ht.
  - destruct (attempt e w) as [r1 w1] eqn:Ha.
    assert (Hcases : (r1 = Raise WatchError
                      /\ retry attempt fallthrough deadline rest w1 = Some (r, w'))
                     \/ (r1 <> Raise WatchError /\ r1 = r /\ w1 = w')).
    { destruct r1 as [v|[]]; try (right; split; [discriminate|]; by inversion H).
      left. done. }
    destruct Hcases as [[-> Hrec]|(Hne & -> & ->)].
    + destruct (IH _ Hrec) as [(-> & e' & Hin & Hout)|(e' & w2 & Hin & Hrest)].
      * left. split; [done|]. exists e'. split; [by apply list_elem_of_further|done].
      * right. exists e', w2. split; [by apply list_elem_of_further|done].
    + right. exists e, w. split; [apply list_elem_of_here|done].
  - inversion H; subst. left. split; [done|]. exists e.
    split; [apply list_elem_of_here|done].
Qed.

Lemma retry_never_watch_error attempt fallthrough deadline sched w r w' :
  retry attempt fallthrough deadline sched w = Some (r, w') ->
  r <> Raise WatchError.
Proof.
  intros H. destruct (retry_ends _ _ _ _ _ _ _ H) as [[-> _]|(e & w1 & _ & _ & _ & Hne)];
    [discriminate|done].
Qed.

(** ** A purchase with no funds on record *)

(** C9: a purchase whose first turn is taken before the deadline, on a
    keyspace where the market key is a sorted set or absent and the
    buyer's account hash is missing or has no [funds] field, ends in an
    uncaught [TypeError], raised by [int(None)]; it hands back none of
    [True], [None] and [False], and it writes nothing. *)
Theorem purchase_item_no_funds_raises (buyerid itemid sellerid : string)
    (lprice : Py.num) (t0 : float) (e : tick) (rest : list tick) (w : world) :
  PrimFloat.ltb (clock e) (PrimFloat.add t0 (Py.float_of_Z 10)) = true ->
  (db w !! "market:" = None \/ exists z, db w !! "market:" = Some (VZSet z)) ->
  (db w !! ("users:" +:+ buyerid) = None
   \/ exists h, db w !! ("users:" +:+ buyerid) = Some (VHash h) /\ h !! "funds" = None) ->
  exists w',
    purchase_item buyerid itemid sellerid lprice t0 (e :: rest) w
    = Some (Raise TypeError, w')
    /\ db w' = db w /\ history w' = history w.
Proof.
  intros Ht Hm Hb. unfold purchase_item. cbn [retry]. rewrite Ht.
  unfold purchase_item_attempt. cbn [watch connect serve snd db sess history].
  assert (Hz : exists price, zscore (db w) "market:" (itemid +:+ "." +:+ sellerid) = Ret price).
  { unfold zscore. destruct Hm as [->|[z ->]]; eauto. }
  destruct Hz as [price ->].
  assert (Hf : hget (db w) ("users:" +:+ buyerid) "funds" = Ret None).
  { unfold hget. destruct Hb as [->|(h & -> & ->)]; done. }
  rewrite Hf. eexists. split; [reflexivity|]. done.
Qed.

Lemma purchase_item_no_funds_raises_witness :
  exists w',
    purchase_item "buyerB" "item1" "sellerA" (Py.Int 100) 0%float
      [Tick 1%float "" "" "" "" []]
      (World {[ "market:" := VZSet {[ "item1.sellerA" := 100%float ]} ]} idle [])
    = Some (Raise TypeError, w')
    /\ db w' = {[ "market:" := VZSet {[ "item1.sellerA" := 100%float ]} ]}
    /\ history w' = [].
Proof.
  refine (purchase_item_no_funds_raises "buyerB" "item1" "sellerA" (Py.Int 100) 0%float
           (Tick 1%float "" "" "" "" []) []
           (World {[ "market:" := VZSet {[ "item1.sellerA" := 100%float ]} ]} idle [])
           _ _ _).
  - reflexivity.
  - right. eexists. reflexivity.
  - left. reflexivity.
Defined.

(** ** Conflicts *)

Lemma others_run_dirty (cs : list cmd) (w : world) :
  dirty (sess (others_run cs w))
  = dirty (sess w) || existsb (fun c => touches c (sess w)) cs.
Proof.
  revert w. induction cs as [|c cs IH]; intros w.
  - cbn. by rewrite orb_false_r.
  - change (others_run (c :: cs) w) with (others_run cs (other_client c w)).
    rewrite IH. cbn [other_client sess dirty existsb].
    rewrite <- orb_assoc. reflexivity.
Qed.

Lemma touches_single (c : cmd) (k : string) d q :
  touches c (Session [k] d q) = bool_decide (k ∈ writes c).
Proof.
  unfold touches. cbn [watched].
  induction (writes c) as [|k' ks IH]; [done|].
  cbn [existsb]. rewrite IH.
  destruct (decide (k = k')) as [->|Hne].
  - rewrite (bool_decide_eq_true_2 (k' ∈ [k'])) by apply list_elem_of_here.
    rewrite (bool_decide_eq_true_2 (k' ∈ k' :: ks)) by apply list_elem_of_here. done.
  - rewrite (bool_decide_eq_false_2 (k' ∈ [k])) by (rewrite list_elem_of_singleton; congruence).
    cbn [orb]. apply bool_decide_ext. rewrite elem_of_cons. intuition congruence.
Qed.

Lemma interferes_touches (k : string) (e : tick) d q :
  existsb (fun c => touches c (Session [k] d q)) (others e) = interferes k e.
Proof.
  unfold interferes. induction (others e) as [|c cs IH]; [done|].
  cbn [existsb]. by rewrite IH, touches_single.
Qed.

(** A turn of [update_stats] on which another client writes the start
    marker while it is watched ends in [WatchError]. *)
Lemma update_stats_attempt_conflict context type value e st h existing :
  get st (stats_key context type +:+ ":start") = Ret existing ->
  interferes (stats_key context type +:+ ":start") e = true ->
  exists w', update_stats_attempt context type value e (World st idle h)
             = (Raise WatchError, w')
             /\ sess w' = idle /\ history w' = h.
Proof.
  intros Hg Hi. unfold update_stats_attempt.
  cbn [watch serve snd db sess idle watched dirty queue history app].
  rewrite Hg.
  match goal with |- context [execute ?p ?w0] => set (pipe := p); set (w1 := w0) end.
  destruct w1 as [st1 [wk d q] h1] eqn:Hw.
  pose proof (others_run_queue (others e)
    (World st (Session [stats_key context type +:+ ":start"] false None) h)) as (Hq & Hwk & Hh).
  pose proof (others_run_dirty (others e)
    (World st (Session [stats_key context type +:+ ":start"] false None) h)) as Hd.
  fold w1 in Hq, Hwk, Hh, Hd. rewrite Hw in Hq, Hwk, Hh, Hd. cbn in Hq, Hwk, Hh, Hd.
  subst q h1.
  assert (d = true) as ->.
  { rewrite Hd. by rewrite interferes_touches. }
  rewrite execute_transaction.
  - eexists. split; [reflexivity|]. done.
  - subst pipe. unfold stage_rotation.
    repeat match goal with |- context [if ?c then _ else _] => destruct c end; reflexivity.
Qed.

(** C10: when every turn of [update_stats] taken before the deadline ends
    in a watch conflict and the next loop test finds the deadline passed,
    the call hands back [None], not a list of replies, and its commands
    never ran. *)
Theorem update_stats_timeout (context type : string) (value timeout : Py.num)
    (d t0 : float) (turns : list tick) (final : tick) (rest : list tick) (w w1 : world) :
  Py.coerce timeout = Ret d ->
  all_conflict (update_stats_attempt context type value) (PrimFloat.add t0 d)
               turns (connect w) w1 ->
  PrimFloat.ltb (clock final) (PrimFloat.add t0 d) = false ->
  update_stats context type value timeout t0 (turns ++ final :: rest) w
  = Some (Ret PyNone, w1)
  /\ (forall rs, Ret PyNone <> Ret (PyReplies rs)).
Proof.
  intros Hc Hall Hlate. split; [|discriminate].
  unfold update_stats. rewrite Hc.
  rewrite (retry_all_conflict _ _ _ _ _ _ _ Hall).
  cbn [retry]. by rewrite Hlate.
Qed.

Lemma update_stats_timeout_witness :
  let e := Tick 1%float "2020-10-29T21:00:00" "k1" "k2" ""
                [SET "stats:temp:example:start" "2020-10-29T21:00:00"] in
  let late := Tick 6%float "2020-10-29T21:00:00" "k3" "k4" "" [] in
  let w := World ∅ idle [] in
  update_stats "temp" "example" (Py.Int 8) (Py.Int 5) 0%float ([e; e] ++ [late]) w
  = Some (Ret PyNone,
          World {[ "stats:temp:example:start" := VString "2020-10-29T21:00:00" ]} idle [])
  /\ (forall rs, Ret PyNone <> Ret (PyReplies rs)).
Proof.
  intros e late w.
  refine (update_stats_timeout "temp" "example" (Py.Int 8) (Py.Int 5) 5%float 0%float
            [e; e] late [] w _ _ _ _).
  - reflexivity.
  - eapply all_conflict_cons; [reflexivity|vm_compute; reflexivity|].
    eapply all_conflict_cons; [reflexivity|vm_compute; reflexivity|].
    apply all_conflict_nil.
  - reflexivity.
Defined.

(** ** The batch of [update_counter] *)

Lemma serve_all_plain (cs : list cmd) (st : store) wk d h :
  serve_all (map W_CMD cs) (World st (Session wk d None) h)
  = (map AReply (run_cmds cs st).1,
     World (run_cmds cs st).2 (Session wk d None) (h ++ cs)).
Proof.
  revert st h. induction cs as [|c cs IH]; intros st h; cbn.
  - by rewrite app_nil_r.
  - destruct (exec_cmd c st) as [r st1]. rewrite IH.
    destruct (run_cmds cs st1) as [rs st2]. cbn. by rewrite <- app_assoc.
Qed.

Lemma plain_replies_map (rs : list reply) : plain_replies (map AReply rs) = rs.
Proof. unfold plain_replies. induction rs as [|r rs IH]; [done|]. cbn. by rewrite IH. Qed.

Lemma update_counter_stack_spec name count now precs pipe p :
  update_counter_stack name count now precs pipe = Ret p ->
  exists starts,
    mapM (bucket_start now) precs = Ret starts
    /\ p = Pipeline (transaction pipe) (explicit_transaction pipe)
                    (command_stack pipe
                     ++ concat (zip_with (counter_writes name count) precs starts)).
Proof.
  revert pipe. induction precs as [|prec precs IH]; intros pipe H.
  - injection H as <-. exists []. split; [done|]. destruct pipe; cbn. by rewrite app_nil_r.
  - cbn [update_counter_stack] in H.
    destruct (bucket_start now prec) as [pnow|x] eqn:Hb; [|done].
    cbn [mbind res_bind] in H. destruct (IH _ H) as (starts & Hs & ->).
    exists (pnow :: starts). split.
    + cbn [mapM]. rewrite Hb. cbn [mbind res_bind]. rewrite Hs. done.
    + cbn [push transaction explicit_transaction command_stack zip_with concat counter_writes].
      by rewrite <- !app_assoc.
Qed.

(** C4, as the code has it: [conn.pipeline()] is transactional, so the
    writes of one [update_counter] call, a ZADD on the registry and an
    HINCRBY on the bucket hash for each precision in turn, go out as one
    batch wrapped in MULTI and EXEC; nothing is watched, so the batch
    always runs, and it leaves the keyspace, the replies and the order
    of the writes as issuing each write alone in that order does. *)
Theorem update_counter_batch (name : string) (count : Z) (now : option Py.num)
    (t : float) (p : pipeline) (w : world) :
  update_counter_pipe name count now t = Ret p ->
  (exists starts,
      mapM (bucket_start (now_or now t)) PRECISION = Ret starts
      /\ command_stack p
         = concat (zip_with (counter_writes name count) PRECISION starts))
  /\ transaction p = true
  /\ wire_of p = W_MULTI :: map W_CMD (command_stack p) ++ [W_EXEC]
  /\ (let alone := serve_all (map W_CMD (command_stack p)) (connect w) in
      let batch := serve_all (wire_of p) (connect w) in
      batch.2 = alone.2
      /\ last batch.1 = Some (AExec (plain_replies alone.1))
      /\ execute p (connect w) = (raise_on_error (plain_replies alone.1), alone.2)).
Proof.
  intros H. unfold update_counter_pipe in H.
  destruct (update_counter_stack_spec _ _ _ _ _ _ H) as (starts & Hs & ->).
  cbn [new_pipeline transaction explicit_transaction command_stack default app].
  split; [by exists starts|]. split; [done|]. split; [done|].
  set (cs := concat _). clearbody cs. clear H Hs. unfold connect, idle.
  rewrite serve_all_plain. cbn [fst snd]. rewrite plain_replies_map.
  split; [|split].
  - unfold wire_of. cbn [transaction explicit_transaction command_stack orb serve_all serve
                          sess queue db watched dirty history].
    rewrite serve_all_app, serve_all_queued. cbn.
    by destruct (run_cmds cs (db w)).
  - unfold wire_of. cbn [transaction explicit_transaction command_stack orb serve_all serve
                          sess queue db watched dirty history].
    rewrite serve_all_app, serve_all_queued. cbn.
    destruct (run_cmds cs (db w)). cbn. by rewrite app_comm_cons, last_snoc.
  - by rewrite execute_transaction.
Qed.

(** C4, as stated, fails: the batch of an [update_counter] call starts
    with MULTI and ends with EXEC; it is not the bare list of writes. *)
Lemma update_counter_batch_counterexample :
  exists p, update_counter_pipe "hits" 1 None 1603487207.5%float = Ret p
    /\ transaction p = true
    /\ head (wire_of p) = Some W_MULTI
    /\ last (wire_of p) = Some W_EXEC
    /\ wire_of p <> map W_CMD (command_stack p).
Proof.
  eexists. split; [vm_compute; reflexivity|]. repeat split; try reflexivity.
  vm_compute. discriminate.
Qed.

Lemma update_counter_batch_witness :
  exists p, update_counter_pipe "hits" 1 None 1603487207.5%float = Ret p
    /\ wire_of p = W_MULTI :: map W_CMD (command_stack p) ++ [W_EXEC].
Proof.
  eexists. split; [vm_compute; reflexivity|].
  eapply (update_counter_batch "hits" 1 None 1603487207.5%float _ (World ∅ idle [])).
  vm_compute; reflexivity.
Defined.

(** ** What a command leaves alone *)

Lemma foldr_delete_lookup (ks : list string) (st : store) (k : string) :
  foldr delete st ks !! k = if decide (k ∈ ks) then None else st !! k.
Proof.
  induction ks as [|k' ks IH]; cbn.
  - by destruct (decide (k ∈ [])) as [H|]; [inversion H|].
  - destruct (decide (k' = k)) as [->|Hne].
    + rewrite lookup_delete_eq. by rewrite decide_True by apply list_elem_of_here.
    + rewrite lookup_delete_ne by done. rewrite IH.
      destruct (decide (k ∈ ks)); [by rewrite decide_True by by apply list_elem_of_further|].
      rewrite decide_False; [done|]. rewrite elem_of_cons. intuition congruence.
Qed.

(** A command changes no key outside the ones it writes. *)
Lemma exec_cmd_frame (c : cmd) (st : store) (k : string) :
  k ∉ writes c -> (exec_cmd c st).2 !! k = st !! k.
Proof.
  intros Hk. destruct c; cbn [writes] in Hk; cbn [exec_cmd];
    repeat match goal with
    | |- context [match ?x with _ => _ end] => destruct x eqn:?; cbn [snd]
    end; try done;
    rewrite ?not_elem_of_cons in Hk;
    unfold put_zset, put_set, put_hash, put_list;
    repeat case_decide; repeat case_match; simplify_map_eq; try done.
  all: try (rewrite foldr_delete_lookup; by rewrite decide_False).
  all: repeat match goal with H : _ ∧ _ |- _ => destruct H end.
  all: rewrite ?lookup_insert_ne, ?lookup_delete_ne by congruence; done.
Qed.

Lemma run_cmds_frame (cs : list cmd) (st : store) (k : string) :
  Forall (fun c => k ∉ writes c) cs -> (run_cmds cs st).2 !! k = st !! k.
Proof.
  revert st. induction cs as [|c cs IH]; intros st H; [done|].
  inversion H as [|? ? Hc Hcs]; subst. cbn [run_cmds].
  pose proof (exec_cmd_frame c st k Hc) as Hf.
  destruct (exec_cmd c st) as [r st1]. specialize (IH st1 Hcs).
  destruct (run_cmds cs st1) as [rs st2]. cbn [snd] in *. congruence.
Qed.

Lemma others_db_frame (cs : list cmd) (st : store) (k : string) :
  Forall (fun c => k ∉ writes c) cs -> others_db cs st !! k = st !! k.
Proof.
  revert st. induction cs as [|c cs IH]; intros st H; [done|].
  inversion H as [|? ? Hc Hcs]; subst.
  change (others_db (c :: cs) st) with (others_db cs (exec_cmd c st).2).
  rewrite (IH _ Hcs). by apply exec_cmd_frame.
Qed.

Lemma others_run_db (cs : list cmd) (w : world) :
  db (others_run cs w) = others_db cs (db w).
Proof.
  revert w. induction cs as [|c cs IH]; intros w; [done|].
  change (others_run (c :: cs) w) with (others_run cs (other_client c w)).
  rewrite IH. reflexivity.
Qed.

Lemma run_cmds_step c cs st r st1 rs st2 :
  exec_cmd c st = (r, st1) -> run_cmds cs st1 = (rs, st2) ->
  run_cmds (c :: cs) st = (r :: rs, st2).
Proof. intros H1 H2. cbn [run_cmds]. by rewrite H1, H2. Qed.

Lemma run_cmds_app (cs1 cs2 : list cmd) (st : store) :
  run_cmds (cs1 ++ cs2) st
  = ((run_cmds cs1 st).1 ++ (run_cmds cs2 (run_cmds cs1 st).2).1,
     (run_cmds cs2 (run_cmds cs1 st).2).2).
Proof.
  revert st. induction cs1 as [|c cs1 IH]; intros st; cbn [app run_cmds fst snd].
  - by destruct (run_cmds cs2 st).
  - destruct (exec_cmd c st) as [r st1]. rewrite IH.
    destruct (run_cmds cs1 st1) as [rs1 st2]. cbn [fst snd].
    by destruct (run_cmds cs2 st2).
Qed.

(** ** Outcomes of listing and purchasing *)

(** A call that ends went through turns that all ended in a watch
    conflict, and then through one more: a turn taken after the deadline,
    which gives the fall-through value, or a turn taken before it whose
    attempt did not raise [WatchError], which gives the attempt's own
    outcome. *)
Lemma retry_decompose attempt fallthrough deadline sched w r w' :
  retry attempt fallthrough deadline sched w = Some (r, w') ->
  exists turns e rest w0,
    sched = turns ++ e :: rest
    /\ all_conflict attempt deadline turns w w0
    /\ ((PrimFloat.ltb (clock e) deadline = false /\ r = Ret fallthrough /\ w' = w0)
        \/ (PrimFloat.ltb (clock e) deadline = true
            /\ attempt e w0 = (r, w') /\ r <> Raise WatchError)).
Proof.
  revert w. induction sched as [|e rest IH]; intros w H; [done|].
  cbn [retry] in H. destruct (PrimFloat.ltb (clock e) deadline) eqn:Ht.
  - destruct (attempt e w) as [r1 w1] eqn:Ha.
    assert (Hcases : (r1 = Raise WatchError
                      /\ retry attempt fallthrough deadline rest w1 = Some (r, w'))
                     \/ (r1 <> Raise WatchError /\ r1 = r /\ w1 = w')).
    { destruct r1 as [v|[]]; try (right; split; [discriminate|]; by inversion H).
      left. done. }
    destruct Hcases as [[-> Hrec]|(Hne & -> & ->)].
    + destruct (IH _ Hrec) as (turns & e' & rest' & w0 & -> & Hall & Hend).
      exists (e :: turns), e', rest', w0. split; [done|]. split; [|done].
      by eapply all_conflict_cons.
    + exists [], e, rest, w. split; [done|]. split; [constructor|]. right. done.
  - inversion H; subst. exists [], e, rest, w'.
    split; [done|]. split; [constructor|]. left. done.
Qed.

(** After turns that all ended in a watch conflict the call goes on with
    the next turn. *)
Lemma retry_after_conflicts attempt fallthrough deadline turns e rest w w1 :
  all_conflict attempt deadline turns w w1 ->
  (PrimFloat.ltb (clock e) deadline = false ->
   retry attempt fallthrough deadline (turns ++ e :: rest) w = Some (Ret fallthrough, w1))
  /\ (PrimFloat.ltb (clock e) deadline = true ->
      forall r w', attempt e w1 = (r, w') -> r <> Raise WatchError ->
      retry attempt fallthrough deadline (turns ++ e :: rest) w = Some (r, w')).
Proof.
  intros Hall. rewrite (retry_all_conflict _ _ _ _ _ _ _ Hall). cbn [retry]. split.
  - by intros ->.
  - intros -> r w' -> Hne. by destruct r as [v|[]].
Qed.

Lemma list_item_attempt_ret itemid sellerid price e w v w' :
  list_item_attempt itemid sellerid price e w = (Ret v, w') ->
  (v = PyNone /\ db w' = others_db (others e) (db w)
   /\ sismember (db w) ("inventory:" +:+ sellerid) itemid = Ret false)
  \/ (v = PyTrue
      /\ sismember (db w) ("inventory:" +:+ sellerid) itemid = Ret true).
Proof.
  unfold list_item_attempt. cbn [watch serve snd db sess].
  destruct (sismember (db w) ("inventory:" +:+ sellerid) itemid) as [[]|x]; [| |done].
  - match goal with |- context [execute ?p ?w0] => destruct (execute p w0) as [[rs|x] w2] end;
      intros H; inversion H; subst. right. done.
  - intros H. inversion H; subst. left. split; [done|]. split; [|done].
    cbn [unwatch serve snd db]. by rewrite others_run_db.
Qed.

Lemma purchase_item_attempt_ret buyerid itemid sellerid lprice e w v w' :
  purchase_item_attempt buyerid itemid sellerid lprice e w = (Ret v, w') ->
  (v = PyNone /\ db w' = others_db (others e) (db w)
   /\ precondition_failed (db w) buyerid itemid sellerid lprice)
  \/ v = PyTrue.
Proof.
  unfold purchase_item_attempt, precondition_failed. cbn [watch serve snd db sess].
  destruct (zscore (db w) "market:" (itemid +:+ "." +:+ sellerid)) as [price|x]; [|done].
  destruct (hget (db w) ("users:" +:+ buyerid) "funds") as [[funds|]|x]; [| done | done].
  destruct price as [price|].
  - destruct (ne_num price lprice || Py.float_gt_Z price funds) eqn:Hc.
    + intros H. inversion H; subst. left. split; [done|].
      split; [cbn [unwatch serve snd db]; by rewrite others_run_db|].
      exists funds. split; [done|]. right. exists price. split; [done|].
      by apply orb_true_iff.
    + destruct (Py.int_of_float price) as [credit|x];
        destruct (Py.int_of_float (PrimFloat.opp price)) as [debit|y]; try done.
      match goal with |- context [execute ?p ?w0] => destruct (execute p w0) as [[rs|x] w2] end;
        intros H; inversion H; subst. by right.
  - intros H. inversion H; subst. left. split; [done|].
    split; [cbn [unwatch serve snd db]; by rewrite others_run_db|].
    exists funds. split; [done|]. by left.
Qed.

(** A turn whose read phase finds the item gone, or the sale's
    precondition failed, hands back [None]. *)
Lemma list_item_attempt_absent itemid sellerid price e w :
  sismember (db w) ("inventory:" +:+ sellerid) itemid = Ret false ->
  exists w', list_item_attempt itemid sellerid price e w = (Ret PyNone, w').
Proof.
  intros Hs. unfold list_item_attempt. cbn [watch serve snd db sess]. rewrite Hs. eauto.
Qed.

Lemma purchase_item_attempt_failed buyerid itemid sellerid lprice e w :
  precondition_failed (db w) buyerid itemid sellerid lprice ->
  exists w', purchase_item_attempt buyerid itemid sellerid lprice e w = (Ret PyNone, w').
Proof.
  intros (funds & Hf & Hp). unfold purchase_item_attempt.
  cbn [watch serve snd db sess]. rewrite Hf.
  destruct Hp as [->|(price & -> & Hc)]; [eauto|].
  replace (ne_num price lprice || Py.float_gt_Z price funds) with true
    by (symmetry; by apply orb_true_iff).
  eauto.
Qed.

(** C8: a call of [list_item] that ends went through turns that all ended
    in a watch conflict and then through one that decided: it hands back
    [None] only when that turn, taken before the deadline, read the item
    absent from the seller's inventory, and [False] only when that turn
    came after the deadline. Likewise [purchase_item] hands back [None]
    only when the deciding turn read the listing gone, its price other
    than the expected one, or above the buyer's funds, and [False] only
    after the deadline. The other way round, whatever number of turns
    ended in a watch conflict, the call goes on to the next turn and
    hands back what that turn decides: [False] after the deadline, [None]
    on a failed read, the turn's own outcome otherwise. No call ends in
    [WatchError], and [None] and [False] are different values. *)
Theorem outcomes_distinguishable :
  (forall itemid sellerid price t0 sched w,
      let deadline := PrimFloat.add t0 (Py.float_of_Z 5) in
      let attempt := list_item_attempt itemid sellerid price in
      let inventory := "inventory:" +:+ sellerid in
      (forall r w', list_item itemid sellerid price t0 sched w = Some (r, w') ->
         r <> Raise WatchError
         /\ exists turns e rest w0,
              sched = turns ++ e :: rest
              /\ all_conflict attempt deadline turns (connect w) w0
              /\ (r = Ret PyNone ->
                  PrimFloat.ltb (clock e) deadline = true
                  /\ sismember (db w0) inventory itemid = Ret false)
              /\ (r = Ret PyFalse ->
                  PrimFloat.ltb (clock e) deadline = false /\ w' = w0))
      /\ (forall turns e rest w1, sched = turns ++ e :: rest ->
            all_conflict attempt deadline turns (connect w) w1 ->
            (PrimFloat.ltb (clock e) deadline = false ->
             list_item itemid sellerid price t0 sched w = Some (Ret PyFalse, w1))
            /\ (PrimFloat.ltb (clock e) deadline = true ->
                sismember (db w1) inventory itemid = Ret false ->
                exists w', list_item itemid sellerid price t0 sched w
                           = Some (Ret PyNone, w'))
            /\ (PrimFloat.ltb (clock e) deadline = true ->
                forall r w', attempt e w1 = (r, w') -> r <> Raise WatchError ->
                list_item itemid sellerid price t0 sched w = Some (r, w'))))
  /\ (forall buyerid itemid sellerid lprice t0 sched w,
      let deadline := PrimFloat.add t0 (Py.float_of_Z 10) in
      let attempt := purchase_item_attempt buyerid itemid sellerid lprice in
      (forall r w', purchase_item buyerid itemid sellerid lprice t0 sched w = Some (r, w') ->
         r <> Raise WatchError
         /\ exists turns e rest w0,
              sched = turns ++ e :: rest
              /\ all_conflict attempt deadline turns (connect w) w0
              /\ (r = Ret PyNone ->
                  PrimFloat.ltb (clock e) deadline = true
                  /\ precondition_failed (db w0) buyerid itemid sellerid lprice)
              /\ (r = Ret PyFalse ->
                  PrimFloat.ltb (clock e) deadline = false /\ w' = w0))
      /\ (forall turns e rest w1, sched = turns ++ e :: rest ->
            all_conflict attempt deadline turns (connect w) w1 ->
            (PrimFloat.ltb (clock e) deadline = false ->
             purchase_item buyerid itemid sellerid lprice t0 sched w
             = Some (Ret PyFalse, w1))
            /\ (PrimFloat.ltb (clock e) deadline = true ->
                precondition_failed (db w1) buyerid itemid sellerid lprice ->
                exists w', purchase_item buyerid itemid sellerid lprice t0 sched w
                           = Some (Ret PyNone, w'))
            /\ (PrimFloat.ltb (clock e) deadline = true ->
                forall r w', attempt e w1 = (r, w') -> r <> Raise WatchError ->
                purchase_item buyerid itemid sellerid lprice t0 sched w = Some (r, w'))))
  /\ PyNone <> PyFalse.
Proof.
  split; [|split; [|discriminate]].
  - intros itemid sellerid price t0 sched w deadline attempt inventory. split.
    + intros r w' H. unfold list_item in H. fold deadline attempt in H.
      split; [by eapply retry_never_watch_error|].
      destruct (retry_decompose _ _ _ _ _ _ _ H)
        as (turns & e & rest & w0 & Hs & Hall & Hend).
      exists turns, e, rest, w0. split; [done|]. split; [done|].
      destruct Hend as [(Ht & -> & ->)|(Ht & Ha & Hne)].
      * split; [discriminate|done].
      * split; intros ->.
        -- by destruct (list_item_attempt_ret _ _ _ _ _ _ _ Ha) as [(_ & _ & ?)|[[=] _]].
        -- by destruct (list_item_attempt_ret _ _ _ _ _ _ _ Ha) as [([=] & _)|[[=] _]].
    + intros turns e rest w1 -> Hall. unfold list_item. fold deadline attempt.
      destruct (retry_after_conflicts attempt PyFalse deadline turns e rest _ _ Hall)
        as [Hlate Hgo].
      split; [exact Hlate|]. split; [|exact Hgo].
      intros Ht Hs.
      destruct (list_item_attempt_absent itemid sellerid price e w1 Hs) as [w' Ha].
      exists w'. by apply (Hgo Ht _ _ Ha).
  - intros buyerid itemid sellerid lprice t0 sched w deadline attempt. split.
    + intros r w' H. unfold purchase_item in H. fold deadline attempt in H.
      split; [by eapply retry_never_watch_error|].
      destruct (retry_decompose _ _ _ _ _ _ _ H)
        as (turns & e & rest & w0 & Hs & Hall & Hend).
      exists turns, e, rest, w0. split; [done|]. split; [done|].
      destruct Hend as [(Ht & -> & ->)|(Ht & Ha & Hne)].
      * split; [discriminate|done].
      * split; intros ->.
        -- by destruct (purchase_item_attempt_ret _ _ _ _ _ _ _ _ Ha) as [(_ & _ & ?)|[=]].
        -- by destruct (purchase_item_attempt_ret _ _ _ _ _ _ _ _ Ha) as [([=] & _)|[=]].
    + intros turns e rest w1 -> Hall. unfold purchase_item. fold deadline attempt.
      destruct (retry_after_conflicts attempt PyFalse deadline turns e rest _ _ Hall)
        as [Hlate Hgo].
      split; [exact Hlate|]. split; [|exact Hgo].
      intros Ht Hp.
      destruct (purchase_item_attempt_failed buyerid itemid sellerid lprice e w1 Hp)
        as [w' Ha].
      exists w'. by apply (Hgo Ht _ _ Ha).
Qed.

(** Two turns of a listing lose to another client who adds to the
    seller's inventory, and the third comes after the deadline; the first
    turn of a purchase loses to another client who raises the listing's
    price, and the second reads the price changed. *)
Lemma outcomes_distinguishable_witness :
  let busy := Tick 1%float "" "" "" "" [SADD "inventory:sellerA" "item2"] in
  let late := Tick 6%float "" "" "" "" [] in
  let reprice := Tick 1%float "" "" "" "" [ZADD "market:" "item1.sellerA" 110%float] in
  let calm := Tick 2%float "" "" "" "" [] in
  (exists w1, list_item "item1" "sellerA" (Py.Int 100) 0%float
                ([busy; busy] ++ late :: []) market_world
              = Some (Ret PyFalse, w1))
  /\ (exists w1, purchase_item "buyerB" "item1" "sellerA" (Py.Int 100) 0%float
                   ([reprice] ++ calm :: []) listed_world
                 = Some (Ret PyNone, w1)).
Proof.
  intros busy late reprice calm.
  destruct outcomes_distinguishable as (Hlist & Hbuy & _).
  split.
  - destruct (Hlist "item1" "sellerA" (Py.Int 100) 0%float
                ([busy; busy] ++ late :: []) market_world) as [_ Hgo].
    eexists.
    refine (proj1 (Hgo [busy; busy] late [] _ eq_refl _) eq_refl).
    eapply all_conflict_cons; [reflexivity|vm_compute; reflexivity|].
    eapply all_conflict_cons; [reflexivity|vm_compute; reflexivity|].
    apply all_conflict_nil.
  - destruct (Hbuy "buyerB" "item1" "sellerA" (Py.Int 100) 0%float
                ([reprice] ++ calm :: []) listed_world) as [_ Hgo].
    refine (proj1 (proj2 (Hgo [reprice] calm [] _ eq_refl _)) eq_refl _).
    + eapply all_conflict_cons; [reflexivity|vm_compute; reflexivity|].
      apply all_conflict_nil.
    + exists 125. split; [vm_compute; reflexivity|]. right. exists 110%float.
      split; [vm_compute; reflexivity|]. left. vm_compute. reflexivity.
Defined.

(** ** Keys *)

Lemma append_same_prefix (s t1 t2 : string) : s +:+ t1 = s +:+ t2 -> t1 = t2.
Proof.
  induction s as [|c s IH]; [done|]. cbn. intros H. injection H as H. auto.
Qed.

Lemma append_nonempty_ne (s t : string) : t <> "" -> s +:+ t <> s.
Proof.
  intros Ht H. apply Ht. apply (append_same_prefix s).
  rewrite H. clear. induction s as [|c s IH]; [done|].
  change (String c s = String c (s +:+ "")). by rewrite <- IH.
Qed.

Lemma compare_refl (s : string) : String.compare s s = Eq.
Proof.
  induction s as [|c s IH]; [done|]. cbn [String.compare].
  unfold Ascii.compare. by rewrite N.compare_refl.
Qed.

Lemma ltb_irrefl (s : string) : String.ltb s s = false.
Proof. unfold String.ltb. by rewrite compare_refl. Qed.

(** ** Attempts that rotate *)

Lemma stage_rotation_stack destination start_key existing hour_start pipe :
  stage_rotation destination start_key existing hour_start pipe
  = Pipeline (transaction pipe) (explicit_transaction pipe)
             (command_stack pipe
              ++ rotation_cmds destination start_key existing hour_start).
Proof.
  unfold rotation_cmds, stage_rotation.
  destruct (nonempty existing && String.ltb (default "" existing) hour_start).
  - unfold push. cbn [transaction explicit_transaction command_stack app].
    by rewrite <- !app_assoc.
  - destruct (negb (nonempty existing)); cbn; [done|].
    destruct pipe. cbn. by rewrite app_nil_r.
Qed.

Lemma update_stats_attempt_rotating context type value e w :
  update_stats_attempt context type value e w
  = rotating_attempt (stats_key context type) (stats_key context type +:+ ":start")
      (stats_writes (stats_key context type) (uuid1 e) (uuid2 e) value)
      (fun rs => PyReplies (last3 rs)) e w.
Proof.
  unfold update_stats_attempt, rotating_attempt.
  destruct (get _ _) as [existing|x]; [|done].
  rewrite stage_rotation_stack. unfold push, multi, new_pipeline, stats_writes.
  cbn [transaction explicit_transaction command_stack default app].
  rewrite <- !app_assoc. reflexivity.
Qed.

Lemma log_common_attempt_rotating name message severity e w :
  log_common_attempt name message severity e w
  = rotating_attempt ("common:" +:+ name +:+ ":" +:+ severity_name severity)
      (("common:" +:+ name +:+ ":" +:+ severity_name severity) +:+ ":start")
      (log_writes name message (severity_name severity) (asctime e))
      (fun _ => PyNone) e w.
Proof.
  unfold log_common_attempt, rotating_attempt.
  destruct (get _ _) as [existing|x]; [|done].
  rewrite stage_rotation_stack. unfold log_recent, pipe_or_new.
  cbn [push new_pipeline multi transaction explicit_transaction command_stack default app].
  destruct (rotation_cmds _ _ existing (utc_hour e)) as [|c cs] eqn:Hr.
  - cbn [app]. unfold log_writes, push.
    cbn [transaction explicit_transaction command_stack app].
    match goal with |- context [execute ?p ?w0] => destruct (execute p w0) as [[rs|x] w2] end;
      reflexivity.
  - cbn [app]. unfold log_writes, push.
    cbn [transaction explicit_transaction command_stack app].
    rewrite <- !app_assoc. cbn [app].
    match goal with |- context [execute ?p ?w0] => destruct (execute p w0) as [[rs|x] w2] end;
      reflexivity.
Qed.

(** An attempt started on a connection with nothing watched: a read
    error, a watch conflict when another client writes the marker, or
    the whole batch run on the keyspace the other clients left. *)
Lemma rotating_attempt_run destination start_key tail hand_back e st h :
  rotating_attempt destination start_key tail hand_back e (World st idle h)
  = match get st start_key with
    | Raise x => (Raise x, World st (Session [start_key] false None) h)
    | Ret existing =>
        let st' := others_db (others e) st in
        if interferes start_key e then (Raise WatchError, World st' idle h)
        else
          let cs := rotation_cmds destination start_key existing (utc_hour e) ++ tail in
          (match raise_on_error (run_cmds cs st').1 with
           | Ret rs => Ret (hand_back rs)
           | Raise x => Raise x
           end, World (run_cmds cs st').2 idle (h ++ cs))
    end.
Proof.
  unfold rotating_attempt.
  cbn [watch serve snd db sess idle watched dirty queue history app].
  destruct (get st start_key) as [existing|x]; [|done].
  set (w0 := World st (Session [start_key] false None) h).
  pose proof (others_run_queue (others e) w0) as (Hq & Hwk & Hh).
  pose proof (others_run_dirty (others e) w0) as Hd.
  pose proof (others_run_db (others e) w0) as Hdb.
  destruct (others_run (others e) w0) as [st1 [wk d q] h1].
  cbn in Hq, Hwk, Hh, Hd, Hdb. subst q h1 st1 wk.
  rewrite interferes_touches in Hd. cbn [orb] in Hd. subst d.
  rewrite execute_transaction by done. cbn [command_stack].
  destruct (interferes start_key e); [done|].
  by destruct (raise_on_error _).
Qed.

Lemma retry_ends_inv (I : world -> Prop) attempt fallthrough deadline sched w r w' :
  I w ->
  (forall e w0 w1, e ∈ sched -> I w0 -> attempt e w0 = (Raise WatchError, w1) -> I w1) ->
  retry attempt fallthrough deadline sched w = Some (r, w') ->
  (r = Ret fallthrough /\ I w')
  \/ (exists e w1, e ∈ sched /\ I w1 /\ attempt e w1 = (r, w') /\ r <> Raise WatchError).
Proof.
  revert w. induction sched as [|e rest IH]; intros w Hw Hstep H; [done|].
  cbn [retry] in H. destruct (PrimFloat.ltb (clock e) deadline) eqn:Ht.
  - destruct (attempt e w) as [r1 w1] eqn:Ha.
    assert (Hcases : (r1 = Raise WatchError
                      /\ retry attempt fallthrough deadline rest w1 = Some (r, w'))
                     \/ (r1 <> Raise WatchError /\ r1 = r /\ w1 = w')).
    { destruct r1 as [v|[]]; try (right; split; [discriminate|]; by inversion H).
      left. done. }
    destruct Hcases as [[-> Hrec]|(Hne & -> & ->)].
    + assert (Hw1 : I w1) by (eapply Hstep; [apply list_elem_of_here|done..]).
      destruct (IH w1 Hw1) as [?|(e' & w2 & Hin & Hrest)]; [|done|by left|].
      * intros e0 w0 w2 Hin. apply Hstep. by apply list_elem_of_further.
      * right. exists e', w2. split; [by apply list_elem_of_further|done].
    + right. exists e, w. split; [apply list_elem_of_here|done].
  - inversion H; subst. by left.
Qed.

Lemma rotation_cmds_cases destination start_key existing hour :
  (nonempty existing && String.ltb (default "" existing) hour = true
   /\ rotation_cmds destination start_key existing hour
      = [RENAME destination (destination +:+ ":last");
         RENAME start_key (destination +:+ ":pstart");
         SET start_key hour])
  \/ (nonempty existing = false
      /\ rotation_cmds destination start_key existing hour = [SET start_key hour])
  \/ (nonempty existing = true /\ String.ltb (default "" existing) hour = false
      /\ rotation_cmds destination start_key existing hour = []).
Proof.
  unfold rotation_cmds, stage_rotation.
  destruct (nonempty existing) eqn:Hn; cbn [andb negb].
  - destruct (String.ltb (default "" existing) hour) eqn:Hl.
    + left. done.
    + right. right. done.
  - right. left. done.
Qed.

Lemma renames_app (a b : list cmd) : renames (a ++ b) = (renames a + renames b)%nat.
Proof. unfold renames. by rewrite List.filter_app, length_app. Qed.

Lemma renames_rotation destination start_key existing hour :
  (renames (rotation_cmds destination start_key existing hour) <= 2)%nat.
Proof.
  destruct (rotation_cmds_cases destination start_key existing hour)
    as [[_ ->]|[[_ ->]|(_ & _ & ->)]]; cbn; lia.
Qed.

Lemma run_cmds_snoc_SET (cs : list cmd) (st : store) (k v : string) :
  (run_cmds (cs ++ [SET k v]) st).2 !! k = Some (VString v).
Proof.
  rewrite run_cmds_app. cbn [snd run_cmds exec_cmd]. apply lookup_insert_eq.
Qed.

Lemma nonempty_Some (existing : option string) :
  nonempty existing = true -> exists s, existing = Some s /\ s <> "".
Proof.
  destruct existing as [s|]; [|done]. cbn. intros H. exists s. split; [done|].
  intros ->. done.
Qed.

Lemma get_Some_lookup (st : store) (k s : string) :
  get st k = Ret (Some s) -> st !! k = Some (VString s).
Proof.
  unfold get. destruct (st !! k) as [[]|]; try done. by intros [= ->].
Qed.

(** After the rotation and writes that leave the marker alone, the
    marker holds the hour or something not before it. *)
Lemma rotation_marker destination start_key existing hour tail st :
  hour <> "" ->
  get st start_key = Ret existing ->
  Forall (fun c => start_key ∉ writes c) tail ->
  marker_at (run_cmds (rotation_cmds destination start_key existing hour ++ tail) st).2
            start_key hour.
Proof.
  intros Hh Hg Ht. rewrite run_cmds_app. cbn [snd].
  unfold marker_at. rewrite run_cmds_frame by done.
  destruct (rotation_cmds_cases destination start_key existing hour)
    as [[_ ->]|[[_ ->]|(Hn & Hl & ->)]].
  - exists hour. split; [|split; [done|apply ltb_irrefl]].
    apply (run_cmds_snoc_SET [_; _]).
  - exists hour. split; [|split; [done|apply ltb_irrefl]].
    apply (run_cmds_snoc_SET []).
  - destruct (nonempty_Some _ Hn) as (s & -> & Hs). exists s.
    split; [by apply get_Some_lookup|done].
Qed.

Lemma interferes_false (k : string) (e : tick) :
  interferes k e = false -> Forall (fun c => k ∉ writes c) (others e).
Proof.
  unfold interferes. induction (others e) as [|c cs IH]; [constructor|].
  cbn [existsb]. intros H. apply orb_false_iff in H as [Hc Hcs].
  constructor; [|by apply IH]. by apply bool_decide_eq_false in Hc.
Qed.

Lemma rotating_attempt_conflict destination start_key tail hand_back e st h w1 :
  rotating_attempt destination start_key tail hand_back e (World st idle h)
  = (Raise WatchError, w1) ->
  interferes start_key e = true /\ sess w1 = idle /\ history w1 = h.
Proof.
  rewrite rotating_attempt_run. unfold get.
  destruct (st !! start_key) as [[]|]; try (intros [= <-]; done);
    cbn zeta; destruct (interferes start_key e); try (by intros [= <-]);
    destruct (raise_on_error _) as [rs|x] eqn:Hr; try done;
    unfold raise_on_error in Hr; destruct (existsb is_error _); try done;
    by injection Hr as <-.
Qed.

(** An attempt that ends otherwise than in a conflict either failed at
    its read, or ran its whole batch: then nobody wrote the marker
    meanwhile, the history grew by the batch, and the marker is set. *)
Lemma rotating_attempt_commit destination start_key tail hand_back e st h r w1 :
  utc_hour e <> "" ->
  Forall (fun c => start_key ∉ writes c) tail ->
  rotating_attempt destination start_key tail hand_back e (World st idle h) = (r, w1) ->
  r <> Raise WatchError ->
  (r = Raise ResponseError /\ history w1 = h)
  \/ (exists existing,
        get st start_key = Ret existing
        /\ interferes start_key e = false
        /\ history w1
           = h ++ (rotation_cmds destination start_key existing (utc_hour e) ++ tail)
        /\ sess w1 = idle
        /\ marker_at (db w1) start_key (utc_hour e)
        /\ (forall v, r = Ret v -> exists rs, v = hand_back rs)).
Proof.
  intros Hh Ht. rewrite rotating_attempt_run.
  destruct (get st start_key) as [existing|x] eqn:Hg.
  - cbn zeta. destruct (interferes start_key e) eqn:Hi; [by intros [= <- <-]|].
    intros [= <- <-] _. right. exists existing. split; [done|]. split; [done|].
    split; [done|]. split; [done|]. split.
    + cbn [db]. apply rotation_marker; [done| |done].
      unfold get. rewrite others_db_frame by by apply interferes_false.
      exact Hg.
    + intros v. destruct (raise_on_error _) as [rs|]; [|done].
      intros [= <-]. by exists rs.
  - intros [= <- <-] _. left. split; [|done].
    unfold get in Hg. destruct (st !! start_key) as [[]|]; try done; by injection Hg as <-.
Qed.

Lemma marker_get (st : store) (start_key hour : string) (existing : option string) :
  marker_at st start_key hour -> get st start_key = Ret existing ->
  forall destination, rotation_cmds destination start_key existing hour = [].
Proof.
  intros (s & Hs & Hne & Hl) Hg destination. unfold get in Hg. rewrite Hs in Hg.
  injection Hg as <-.
  destruct (rotation_cmds_cases destination start_key (Some s) hour)
    as [[Hc _]|[[Hc _]|(_ & _ & ->)]]; [| |done].
  - change (default "" (Some s)) with s in Hc. rewrite Hl in Hc.
    by rewrite andb_false_r in Hc.
  - cbn in Hc. apply negb_false_iff, String.eqb_eq in Hc. done.
Qed.

Section RotatingCalls.
Variables (destination start_key hour : string).
Variable tail : tick -> list cmd.
Variable hand_back : list reply -> pyval.
Variables (fallthrough : pyval) (deadline : float).

Let attempt (e : tick) := rotating_attempt destination start_key (tail e) hand_back e.

Hypothesis hour_nonempty : hour <> "".

(** A call of the rotating shape that ends: it timed out or failed at
    a read, leaving the history as it was, or one batch ran. *)
Lemma rotating_call sched st h r w1 :
  (forall e, e ∈ sched ->
     utc_hour e = hour /\ Forall (fun c => start_key ∉ writes c) (tail e)) ->
  retry attempt fallthrough deadline sched (World st idle h) = Some (r, w1) ->
  ((r = Ret fallthrough \/ r = Raise ResponseError) /\ history w1 = h)
  \/ (exists e existing,
        e ∈ sched
        /\ history w1 = h ++ (rotation_cmds destination start_key existing hour ++ tail e)
        /\ sess w1 = idle
        /\ marker_at (db w1) start_key hour
        /\ (forall v, r = Ret v -> exists rs, v = hand_back rs)).
Proof.
  intros Hs H.
  assert (Hr : (r = Ret fallthrough /\ (sess w1 = idle /\ history w1 = h))
               \/ (exists e w0, e ∈ sched /\ (sess w0 = idle /\ history w0 = h)
                     /\ attempt e w0 = (r, w1) /\ r <> Raise WatchError)).
  { apply (retry_ends_inv (fun w => sess w = idle /\ history w = h)
             attempt fallthrough deadline sched (World st idle h)); [done| |exact H].
    intros e [st0 s0 h0] w2 _ [Hi Hh] Ha. cbn in Hi, Hh. subst s0 h0.
    by destruct (rotating_attempt_conflict _ _ _ _ _ _ _ _ Ha) as (_ & ? & ?). }
  destruct Hr as [[-> [_ Hh]]|(e & w0 & Hin & [Hi Hh] & Ha & Hne)].
  - left. split; [by left|done].
  - destruct w0 as [st0 s0 h0]. cbn in Hi, Hh. subst s0 h0.
    destruct (Hs e Hin) as [He Ht].
    destruct (rotating_attempt_commit _ _ _ _ _ _ _ _ _
                ltac:(by rewrite He) Ht Ha Hne)
      as [[-> Hh]|(existing & _ & _ & Hh & Hi & Hm & Hv)].
    + left. split; [by right|done].
    + right. exists e, existing. rewrite He in Hh, Hm. done.
Qed.

(** The same call made when the marker already holds the hour and
    nobody else writes it: if a batch runs, it holds no rotation. *)
Lemma rotating_call_again sched st h r w1 :
  marker_at st start_key hour ->
  (forall e, e ∈ sched ->
     utc_hour e = hour /\ Forall (fun c => start_key ∉ writes c) (tail e)
     /\ interferes start_key e = false) ->
  retry attempt fallthrough deadline sched (World st idle h) = Some (r, w1) ->
  ((r = Ret fallthrough \/ r = Raise ResponseError) /\ history w1 = h)
  \/ (exists e,
        e ∈ sched
        /\ history w1 = h ++ tail e
        /\ (forall v, r = Ret v -> exists rs, v = hand_back rs)).
Proof.
  intros Hm Hs H.
  assert (Hr : (r = Ret fallthrough
                /\ (sess w1 = idle /\ history w1 = h /\ marker_at (db w1) start_key hour))
               \/ (exists e w0, e ∈ sched
                     /\ (sess w0 = idle /\ history w0 = h
                         /\ marker_at (db w0) start_key hour)
                     /\ attempt e w0 = (r, w1) /\ r <> Raise WatchError)).
  { apply (retry_ends_inv
             (fun w => sess w = idle /\ history w = h /\ marker_at (db w) start_key hour)
             attempt fallthrough deadline sched (World st idle h)); [done| |exact H].
    intros e [st0 s0 h0] w2 Hin (Hi & Hh & _) Ha. cbn in Hi, Hh. subst s0 h0.
    destruct (rotating_attempt_conflict _ _ _ _ _ _ _ _ Ha) as (Hc & _).
    destruct (Hs e Hin) as (_ & _ & Hq). congruence. }
  destruct Hr as [[-> (_ & Hh & _)]|(e & w0 & Hin & (Hi & Hh & Hm0) & Ha & Hne)].
  - left. split; [by left|done].
  - destruct w0 as [st0 s0 h0]. cbn in Hi, Hh, Hm0. subst s0 h0.
    destruct (Hs e Hin) as (He & Ht & _).
    destruct (rotating_attempt_commit _ _ _ _ _ _ _ _ _
                ltac:(by rewrite He) Ht Ha Hne)
      as [[-> Hh]|(existing & Hg & _ & Hh & _ & _ & Hv)].
    + left. split; [by right|done].
    + right. exists e. rewrite He in Hh.
      rewrite (marker_get _ _ _ _ Hm0 Hg) in Hh. done.
Qed.
End RotatingCalls.

Lemma retry_ext a1 a2 fallthrough deadline sched w :
  (forall e w, a1 e w = a2 e w) ->
  retry a1 fallthrough deadline sched w = retry a2 fallthrough deadline sched w.
Proof.
  intros Hext. revert w. induction sched as [|e rest IH]; intros w; [done|].
  cbn [retry]. rewrite Hext. destruct (PrimFloat.ltb _ _); [|done].
  destruct (a2 e w) as [[v|[]] w']; auto.
Qed.

Lemma stats_writes_spare destination tkey1 tkey2 value start_key :
  start_key <> destination -> tkey1 <> start_key -> tkey2 <> start_key ->
  Forall (fun c => start_key ∉ writes c) (stats_writes destination tkey1 tkey2 value).
Proof.
  intros Hd H1 H2. unfold stats_writes.
  repeat (constructor; [cbn [writes]; rewrite ?not_elem_of_cons;
                        repeat split; try congruence; apply not_elem_of_nil|]).
  constructor.
Qed.

Lemma log_writes_spare name message severity stamp :
  Forall (fun c => ("common:" +:+ name +:+ ":" +:+ severity) +:+ ":start" ∉ writes c)
         (log_writes name message severity stamp).
Proof.
  unfold log_writes. cbn zeta.
  constructor; [|constructor; [|constructor; [|constructor]]];
    cbn [writes]; intros Hin; apply list_elem_of_singleton in Hin.
  - by apply append_nonempty_ne in Hin.
  - discriminate Hin.
  - discriminate Hin.
Qed.

(** C5: of two successive successful [update_stats] calls (or two
    successive [log_common] calls that committed) whose turns all read the
    same non-empty ISO hour, with nobody else writing the start marker
    from the second call on, only the first can rotate: what the second
    call runs is its plain writes, with no RENAME and no new marker, and
    the two calls together run at most the two RENAMEs of one rotation
    (the aggregate record and the start marker). *)
Theorem rotation_once (hour : string) (sched1 sched2 : list tick) (w0 w1 w2 : world) :
  hour <> "" ->
  (forall e, e ∈ sched1 ++ sched2 -> utc_hour e = hour) ->
  (forall context type value1 value2 timeout1 timeout2 t1 t2 rs1 rs2,
      let destination := stats_key context type in
      let start_key := destination +:+ ":start" in
      (forall e, e ∈ sched1 ++ sched2 -> uuid1 e <> start_key /\ uuid2 e <> start_key) ->
      (forall e, e ∈ sched2 -> interferes start_key e = false) ->
      update_stats context type value1 timeout1 t1 sched1 w0
      = Some (Ret (PyReplies rs1), w1) ->
      update_stats context type value2 timeout2 t2 sched2 w1
      = Some (Ret (PyReplies rs2), w2) ->
      exists existing e1 e2,
        let first := rotation_cmds destination start_key existing hour
                     ++ stats_writes destination (uuid1 e1) (uuid2 e1) value1 in
        let second := stats_writes destination (uuid1 e2) (uuid2 e2) value2 in
        history w1 = history w0 ++ first
        /\ history w2 = history w1 ++ second
        /\ renames second = 0%nat
        /\ (renames (first ++ second) <= 2)%nat)
  /\ (forall name message severity1 severity2 timeout1 timeout2 t1 t2,
      severity_name severity1 = severity_name severity2 ->
      let destination := "common:" +:+ name +:+ ":" +:+ severity_name severity1 in
      let start_key := destination +:+ ":start" in
      (forall e, e ∈ sched2 -> interferes start_key e = false) ->
      log_common name message severity1 timeout1 t1 sched1 w0 = Some (Ret PyNone, w1) ->
      history w1 <> history w0 ->
      log_common name message severity2 timeout2 t2 sched2 w1 = Some (Ret PyNone, w2) ->
      history w2 <> history w1 ->
      exists existing e1 e2,
        let first := rotation_cmds destination start_key existing hour
                     ++ log_writes name message (severity_name severity1) (asctime e1) in
        let second := log_writes name message (severity_name severity1) (asctime e2) in
        history w1 = history w0 ++ first
        /\ history w2 = history w1 ++ second
        /\ renames second = 0%nat
        /\ (renames (first ++ second) <= 2)%nat).
Proof.
  intros Hh Hhour. split.
  - intros context type value1 value2 timeout1 timeout2 t1 t2 rs1 rs2
           destination start_key Hfresh Hquiet H1 H2.
    assert (Hds : start_key <> destination) by (by apply append_nonempty_ne).
    unfold update_stats in H1, H2.
    destruct (Py.coerce timeout1) as [d1|]; [|done].
    destruct (Py.coerce timeout2) as [d2|]; [|done].
    rewrite (retry_ext _ _ _ _ _ _ (update_stats_attempt_rotating context type value1)) in H1.
    rewrite (retry_ext _ _ _ _ _ _ (update_stats_attempt_rotating context type value2)) in H2.
    fold destination start_key in H1, H2. unfold connect in H1, H2.
    apply (rotating_call destination start_key hour
             (fun e => stats_writes destination (uuid1 e) (uuid2 e) value1)) in H1;
      [|done|].
    2:{ intros e He. split; [apply Hhour; apply elem_of_app; by left|].
        destruct (Hfresh e) as [? ?]; [apply elem_of_app; by left|].
        by apply stats_writes_spare. }
    destruct H1 as [[[?|?] _]|(e1 & existing & _ & Hh1 & _ & Hm & _)]; [done|done|].
    apply (rotating_call_again destination start_key hour
             (fun e => stats_writes destination (uuid1 e) (uuid2 e) value2)) in H2;
      [|done|done|].
    2:{ intros e He. split; [apply Hhour; apply elem_of_app; by right|].
        split; [|by apply Hquiet].
        destruct (Hfresh e) as [? ?]; [apply elem_of_app; by right|].
        by apply stats_writes_spare. }
    destruct H2 as [[[?|?] _]|(e2 & _ & Hh2 & _)]; [done|done|].
    exists existing, e1, e2. cbn zeta. split; [done|]. split; [done|].
    split; [reflexivity|].
    rewrite !renames_app.
    pose proof (renames_rotation destination start_key existing hour).
    change (renames (stats_writes destination (uuid1 e1) (uuid2 e1) value1)) with 0%nat.
    change (renames (stats_writes destination (uuid1 e2) (uuid2 e2) value2)) with 0%nat.
    lia.
  - intros name message severity1 severity2 timeout1 timeout2 t1 t2 Hsev
           destination start_key Hquiet H1 Hn1 H2 Hn2.
    unfold log_common in H1, H2.
    destruct (Py.coerce timeout1) as [d1|]; [|done].
    destruct (Py.coerce timeout2) as [d2|]; [|done].
    rewrite (retry_ext _ _ _ _ _ _ (log_common_attempt_rotating name message severity1)) in H1.
    rewrite (retry_ext _ _ _ _ _ _ (log_common_attempt_rotating name message severity2)) in H2.
    rewrite <- Hsev in H2.
    fold destination start_key in H1, H2. unfold connect in H1, H2.
    apply (rotating_call destination start_key hour
             (fun e => log_writes name message (severity_name severity1) (asctime e))) in H1;
      [|done|].
    2:{ intros e He. split; [apply Hhour; apply elem_of_app; by left|].
        apply log_writes_spare. }
    destruct H1 as [[_ ?]|(e1 & existing & _ & Hh1 & _ & Hm & _)]; [done|].
    apply (rotating_call_again destination start_key hour
             (fun e => log_writes name message (severity_name severity1) (asctime e))) in H2;
      [|done|done|].
    2:{ intros e He. split; [apply Hhour; apply elem_of_app; by right|].
        split; [|by apply Hquiet]. apply log_writes_spare. }
    destruct H2 as [[_ ?]|(e2 & _ & Hh2 & _)]; [done|].
    exists existing, e1, e2. cbn zeta. split; [done|]. split; [done|].
    split; [reflexivity|].
    rewrite !renames_app.
    pose proof (renames_rotation destination start_key existing hour).
    change (renames (log_writes name message (severity_name severity1) (asctime e1)))
      with 0%nat.
    change (renames (log_writes name message (severity_name severity1) (asctime e2)))
      with 0%nat.
    lia.
Qed.

(** ** The writes of [update_stats] on the aggregate record *)

Lemma zset_at_source st k z : zset_at st k z -> zsource st k = Some z.
Proof. unfold zsource. by intros [[-> ->]| ->]. Qed.

Lemma exec_ZINCRBY st k m d z s z' :
  st !! k = Some (VZSet z) -> zincr m d z = Some (s, z') ->
  exec_cmd (ZINCRBY k m d) st = (RDouble s, <[k := VZSet z']> st).
Proof.
  intros Hk Hz. unfold zincr in Hz. cbn [exec_cmd]. rewrite Hk.
  destruct (is_nan d); [done|].
  destruct (is_nan _); [done|]. by injection Hz as <- <-.
Qed.

Lemma zunion_with_nonempty a z m v :
  size (zunion a [z; {[m := v]}] ∅) <> 0%nat.
Proof.
  cbn [zunion]. intros H. apply map_size_empty_iff in H.
  apply (f_equal (fun x => x !! m)) in H. rewrite lookup_empty in H.
  rewrite lookup_union_with in H. rewrite lookup_singleton_eq in H.
  destruct (union_with _ ∅ z !! m); done.
Qed.

Lemma exec_ZADD_new st k m s :
  st !! k = None -> is_nan s = false ->
  exec_cmd (ZADD k m s) st = (RInt 1, <[k := VZSet {[m := s]}]> st).
Proof. intros Hk Hs. cbn [exec_cmd]. by rewrite Hs, Hk. Qed.

Lemma exec_ZUNIONSTORE_with st d a b agg z m v :
  zsource st a = Some z -> zsource st b = Some {[m := v]} ->
  exec_cmd (ZUNIONSTORE d [a; b] agg) st
  = (RInt (Z.of_nat (size (zunion agg [z; {[m := v]}] ∅))),
     <[d := VZSet (zunion agg [z; {[m := v]}] ∅)]> st).
Proof.
  intros Ha Hb. cbn [exec_cmd mapM]. rewrite Ha, Hb. cbn [mbind option_bind mret option_ret].
  unfold put_zset. by rewrite decide_False by apply zunion_with_nonempty.
Qed.

(** On a keyspace where the two temporary keys are free, the writes of
    [update_stats] run without an error and leave [stats_merge] of the
    aggregate record; they change no other key. *)
Lemma stats_writes_run st destination tkey1 tkey2 value z z' rs3 :
  zset_at st destination z ->
  st !! tkey1 = None -> st !! tkey2 = None ->
  tkey1 <> tkey2 -> tkey1 <> destination -> tkey2 <> destination ->
  stats_merge z value = Some (z', rs3) ->
  exists pre st',
    run_cmds (stats_writes destination tkey1 tkey2 value) st = (pre ++ rs3, st')
    /\ existsb is_error (pre ++ rs3) = false /\ length rs3 = 3%nat
    /\ st' !! destination = Some (VZSet z')
    /\ (forall k, k <> destination -> st' !! k = st !! k).
Proof.
  intros Hz H1 H2 H12 H1d H2d Hm. unfold stats_merge in Hm. cbn zeta in Hm.
  set (v := Py.to_float value) in *.
  set (vv := Py.to_float (Py.mul value value)) in *.
  destruct (is_nan v) eqn:Hv; [done|].
  set (z1 := zunion AggMin [z; {["min" := v]}] ∅) in *.
  set (z2 := zunion AggMax [z1; {["max" := v]}] ∅) in *.
  destruct (zincr "count" 1%float z2) as [[c z3]|] eqn:Hc; cbn [mbind option_bind] in Hm; [|done].
  destruct (zincr "sum" v z3) as [[s z4]|] eqn:Hs; cbn [mbind option_bind] in Hm; [|done].
  destruct (zincr "sumsq" vv z4) as [[q z5]|] eqn:Hq; cbn [mbind option_bind] in Hm; [|done].
  injection Hm as <- <-.
  set (st1 := <[tkey1 := VZSet {["min" := v]}]> st).
  set (st2 := <[tkey2 := VZSet {["max" := v]}]> st1).
  set (st3 := <[destination := VZSet z1]> st2).
  set (st4 := <[destination := VZSet z2]> st3).
  set (st5 := delete tkey1 (delete tkey2 st4)).
  exists [RInt 1; RInt 1; RInt (Z.of_nat (size z1)); RInt (Z.of_nat (size z2));
          RInt (count_existing st4 (remove_dups [tkey1; tkey2]))].
  exists (<[destination := VZSet z5]>
            (<[destination := VZSet z4]> (<[destination := VZSet z3]> st5))).
  split; [|split; [done|split; [done|split]]].
  - unfold stats_writes. fold v vv.
    eapply run_cmds_step; [by apply exec_ZADD_new|]. fold st1.
    eapply run_cmds_step.
    { apply exec_ZADD_new; [|done]. unfold st1. by rewrite lookup_insert_ne by congruence. }
    fold st2.
    eapply run_cmds_step.
    { apply exec_ZUNIONSTORE_with.
      - unfold zsource, st2, st1. rewrite !lookup_insert_ne by congruence.
        by apply zset_at_source.
      - unfold zsource, st2, st1. rewrite lookup_insert_ne by congruence.
        by rewrite lookup_insert_eq. }
    fold z1 st3.
    eapply run_cmds_step.
    { apply exec_ZUNIONSTORE_with.
      - unfold zsource, st3. by rewrite lookup_insert_eq.
      - unfold zsource, st3, st2. rewrite lookup_insert_ne by congruence.
        by rewrite lookup_insert_eq. }
    fold z2 st4.
    eapply run_cmds_step; [reflexivity|]. cbn [foldr]. fold st5.
    eapply run_cmds_step.
    { eapply exec_ZINCRBY; [|exact Hc]. unfold st5, st4.
      rewrite !lookup_delete_ne by congruence. by rewrite lookup_insert_eq. }
    eapply run_cmds_step.
    { eapply exec_ZINCRBY; [|exact Hs]. by rewrite lookup_insert_eq. }
    eapply run_cmds_step.
    { eapply exec_ZINCRBY; [|exact Hq]. by rewrite lookup_insert_eq. }
    reflexivity.
  - by rewrite lookup_insert_eq.
  - intros k Hk. rewrite !lookup_insert_ne by congruence. unfold st5, st4, st3, st2, st1.
    destruct (decide (k = tkey1)) as [->|Hk1].
    { by rewrite lookup_delete_eq. }
    rewrite lookup_delete_ne by congruence.
    destruct (decide (k = tkey2)) as [->|Hk2].
    { by rewrite lookup_delete_eq. }
    rewrite lookup_delete_ne by congruence. by rewrite !lookup_insert_ne by congruence.
Qed.

Lemma last3_app {A} (l1 l2 : list A) : length l2 = 3%nat -> last3 (l1 ++ l2) = l2.
Proof.
  intros H. unfold last3. rewrite length_app, H.
  replace (length l1 + 3 - 3)%nat with (length l1) by lia.
  by rewrite drop_app_length.
Qed.

(** One call of [update_stats] whose first turn is calm and in time, on
    a keyspace whose marker is absent or holds the hour. *)
Lemma update_stats_calm context type value timeout d t0 e rest w hour z z' rs3 :
  let destination := stats_key context type in
  let start_key := destination +:+ ":start" in
  Py.coerce timeout = Ret d ->
  PrimFloat.ltb (clock e) (PrimFloat.add t0 d) = true ->
  hour <> "" ->
  calm_turn (db w) destination hour e ->
  zset_at (db w) destination z ->
  (db w !! start_key = None \/ db w !! start_key = Some (VString hour)) ->
  stats_merge z value = Some (z', rs3) ->
  exists w',
    update_stats context type value timeout t0 (e :: rest) w
    = Some (Ret (PyReplies rs3), w')
    /\ db w' !! destination = Some (VZSet z')
    /\ db w' !! start_key = Some (VString hour)
    /\ (forall k, k <> destination -> k <> start_key -> db w' !! k = db w !! k).
Proof.
  intros destination start_key Hc Ht Hh (Ho & Hu & H12 & H1d & H2d & H1s & H2s & H1 & H2) Hz Hs Hm.
  assert (Hds : start_key <> destination) by (by apply append_nonempty_ne).
  unfold update_stats. rewrite Hc. cbn [retry]. rewrite Ht.
  rewrite update_stats_attempt_rotating. fold destination. fold start_key.
  fold start_key in H1s, H2s. clearbody start_key. clearbody destination.
  unfold connect. rewrite rotating_attempt_run.
  unfold interferes. rewrite Ho, Hu. cbn [existsb others_db foldl].
  destruct Hs as [Hs|Hs].
  - (* no marker yet: SET, then the writes *)
    unfold get. rewrite Hs. cbn zeta.
    destruct (rotation_cmds_cases destination start_key None hour)
      as [[Hx _]|[[_ ->]|(Hx & _)]]; [done| |done].
    destruct (stats_writes_run (<[start_key := VString hour]> (db w)) destination
                (uuid1 e) (uuid2 e) value z z' rs3)
      as (pre & st' & Hrun & Herr & Hlen & Hd & Hframe); try done.
    { destruct Hz as [[Hz ->]|Hz]; [left|right]; by rewrite lookup_insert_ne by done. }
    { by rewrite lookup_insert_ne by congruence. }
    { by rewrite lookup_insert_ne by congruence. }
    cbn [app run_cmds exec_cmd]. rewrite Hrun. cbn [fst snd].
    unfold raise_on_error. cbn [existsb is_error orb]. rewrite Herr.
    change (ROk :: pre ++ rs3) with ((ROk :: pre) ++ rs3).
    rewrite (last3_app (ROk :: pre)) by done.
    eexists. split; [reflexivity|]. cbn [db]. split; [done|]. split.
    + rewrite Hframe by done. apply lookup_insert_eq.
    + intros k Hkd Hks. rewrite Hframe by done. by rewrite lookup_insert_ne by congruence.
  - (* the marker holds the hour: the writes alone *)
    unfold get. rewrite Hs. cbn zeta.
    destruct (rotation_cmds_cases destination start_key (Some hour) hour)
      as [[Hx _]|[[Hx _]|(_ & _ & ->)]].
    { change (default "" (Some hour)) with hour in Hx.
      rewrite ltb_irrefl in Hx. by rewrite andb_false_r in Hx. }
    { cbn in Hx. apply negb_false_iff, String.eqb_eq in Hx. done. }
    destruct (stats_writes_run (db w) destination
                (uuid1 e) (uuid2 e) value z z' rs3)
      as (pre & st' & Hrun & Herr & Hlen & Hd & Hframe); try done.
    cbn [app]. rewrite Hrun. cbn [fst snd].
    unfold raise_on_error. rewrite Herr.
    rewrite (last3_app pre) by done.
    eexists. split; [reflexivity|]. cbn [db]. split; [done|]. split.
    + by rewrite Hframe by done.
    + intros k Hkd Hks. by rewrite Hframe by done.
Qed.

Lemma calm_turn_frame (st st' : store) (destination hour : string) (e : tick) :
  (forall k, k <> destination -> k <> destination +:+ ":start" -> st' !! k = st !! k) ->
  calm_turn st destination hour e -> calm_turn st' destination hour e.
Proof.
  intros Hf (Ho & Hu & H12 & H1d & H2d & H1s & H2s & H1 & H2).
  repeat split; try done; by rewrite Hf.
Qed.

(** Closes an equation between closed terms by evaluating its two sides,
    without writing their normal forms into the proof. *)
Ltac by_evaluation :=
  lazymatch goal with |- ?a = _ => vm_cast_no_check (@eq_refl _ a) end.

(** C3: starting from an empty aggregate, feeding 8, 10, 12, 6, 9 in
    that order through [update_stats], every call in the same hour with
    no other client at work, and then calling [get_stats] gives count 5,
    sum 45, min 6, max 12, average 9.0 and the standard deviation
    sqrt(5), which lies within 0.0005 of 2.236. *)
Theorem stats_of_five_values (context type hour : string) (timeout : Py.num) (d : float)
    (turns : list (float * tick * list tick)) (w0 : world) :
  let destination := stats_key context type in
  Py.coerce timeout = Ret d ->
  hour <> "" ->
  db w0 !! destination = None ->
  db w0 !! (destination +:+ ":start") = None ->
  length turns = 5%nat ->
  Forall (fun '(t0, e, _) => PrimFloat.ltb (clock e) (PrimFloat.add t0 d) = true
                             /\ calm_turn (db w0) destination hour e) turns ->
  let calls := zip_with (fun v '(t0, e, rest) => (Py.Int v, t0, e :: rest))
                        [8; 10; 12; 6; 9] turns in
  exists w5 data stddev,
    update_stats_each context type timeout calls w0 = Some w5
    /\ get_stats context type w5 = Ret data
    /\ data !! "count" = Some 5%float
    /\ data !! "sum" = Some 45%float
    /\ data !! "min" = Some 6%float
    /\ data !! "max" = Some 12%float
    /\ data !! "average" = Some 9%float
    /\ data !! "stddev" = Some stddev
    /\ stddev = PrimFloat.sqrt 5%float
    /\ PrimFloat.ltb 2.2355%float stddev = true
    /\ PrimFloat.ltb stddev 2.2365%float = true.
Proof.
  intros destination Hc Hh Hd Hs Hlen Hturns calls.
  destruct turns as [|[[t1 e1] r1] [|[[t2 e2] r2] [|[[t3 e3] r3] [|[[t4 e4] r4]
    [|[[t5 e5] r5] [|]]]]]]; try discriminate Hlen.
  repeat match goal with H : Forall _ (_ :: _) |- _ =>
    let Ha := fresh "Ha" in let Hb := fresh "Hb" in
    apply Forall_cons in H as [[Ha Hb] H] end.
  subst calls. cbn [zip_with update_stats_each].
  (* the record after each value, kept as the expression that computes it *)
  pose (m1 := default (∅, []) (stats_merge ∅ (Py.Int 8))).
  pose (m2 := default (∅, []) (stats_merge m1.1 (Py.Int 10))).
  pose (m3 := default (∅, []) (stats_merge m2.1 (Py.Int 12))).
  pose (m4 := default (∅, []) (stats_merge m3.1 (Py.Int 6))).
  pose (m5 := default (∅, []) (stats_merge m4.1 (Py.Int 9))).
  assert (Hm1 : stats_merge ∅ (Py.Int 8) = Some (m1.1, m1.2)) by by_evaluation.
  assert (Hm2 : stats_merge m1.1 (Py.Int 10) = Some (m2.1, m2.2)) by by_evaluation.
  assert (Hm3 : stats_merge m2.1 (Py.Int 12) = Some (m3.1, m3.2)) by by_evaluation.
  assert (Hm4 : stats_merge m3.1 (Py.Int 6) = Some (m4.1, m4.2)) by by_evaluation.
  assert (Hm5 : stats_merge m4.1 (Py.Int 9) = Some (m5.1, m5.2)) by by_evaluation.
  destruct (update_stats_calm context type (Py.Int 8) timeout d t1 e1 r1 w0 hour ∅ _ _
              Hc Ha Hh Hb (or_introl (conj Hd eq_refl)) (or_introl Hs) Hm1)
    as (w1 & -> & Hd1 & Hs1 & Hf1).
  fold destination in Hd1, Hs1, Hf1.
  apply (calm_turn_frame _ _ _ _ _ Hf1) in Hb0, Hb1, Hb2, Hb3.
  destruct (update_stats_calm context type (Py.Int 10) timeout d t2 e2 r2 w1 hour _ _ _
              Hc Ha0 Hh Hb0 (or_intror Hd1) (or_intror Hs1) Hm2)
    as (w2 & -> & Hd2 & Hs2 & Hf2).
  fold destination in Hd2, Hs2, Hf2.
  apply (calm_turn_frame _ _ _ _ _ Hf2) in Hb1, Hb2, Hb3.
  destruct (update_stats_calm context type (Py.Int 12) timeout d t3 e3 r3 w2 hour _ _ _
              Hc Ha1 Hh Hb1 (or_intror Hd2) (or_intror Hs2) Hm3)
    as (w3 & -> & Hd3 & Hs3 & Hf3).
  fold destination in Hd3, Hs3, Hf3.
  apply (calm_turn_frame _ _ _ _ _ Hf3) in Hb2, Hb3.
  destruct (update_stats_calm context type (Py.Int 6) timeout d t4 e4 r4 w3 hour _ _ _
              Hc Ha2 Hh Hb2 (or_intror Hd3) (or_intror Hs3) Hm4)
    as (w4 & -> & Hd4 & Hs4 & Hf4).
  fold destination in Hd4, Hs4, Hf4.
  apply (calm_turn_frame _ _ _ _ _ Hf4) in Hb3.
  destruct (update_stats_calm context type (Py.Int 9) timeout d t5 e5 r5 w4 hour _ _ _
              Hc Ha3 Hh Hb3 (or_intror Hd4) (or_intror Hs4) Hm5)
    as (w5 & -> & Hd5 & Hs5 & Hf5).
  exists w5, (match stats_of m5.1 with Ret data => data | Raise _ => ∅ end),
    (PrimFloat.sqrt 5%float).
  rewrite (get_stats_zset _ _ _ _ Hd5).
  split; [reflexivity|].
  do 9 (split; [by_evaluation|]). by_evaluation.
Qed.

Lemma stats_of_five_values_witness :
  exists w5 data stddev,
    update_stats_each "temp" "example" (Py.Int 5)
      (zip_with (fun v '(t0, e, rest) => (Py.Int v, t0, e :: rest))
                [8; 10; 12; 6; 9] five_turns)
      (World ∅ idle []) = Some w5
    /\ get_stats "temp" "example" w5 = Ret data
    /\ data !! "count" = Some 5%float
    /\ data !! "sum" = Some 45%float
    /\ data !! "min" = Some 6%float
    /\ data !! "max" = Some 12%float
    /\ data !! "average" = Some 9%float
    /\ data !! "stddev" = Some stddev
    /\ stddev = PrimFloat.sqrt 5%float
    /\ PrimFloat.ltb 2.2355%float stddev = true
    /\ PrimFloat.ltb stddev 2.2365%float = true.
Proof.
  apply (stats_of_five_values "temp" "example" "2020-10-29T21:00:00" (Py.Int 5) 5%float
           five_turns (World ∅ idle [])); try reflexivity; try discriminate.
  repeat constructor; try reflexivity; discriminate.
Defined.

Lemma rotation_once_witness :
  let w0 := stale_world in
  let w1 := after (update_stats "temp" "example" (Py.Int 8) (Py.Int 5) 0%float
                     [calm 1%float "a1" "a2"] w0) w0 in
  let w2 := after (update_stats "temp" "example" (Py.Int 10) (Py.Int 5) 2%float
                     [calm 3%float "b1" "b2"] w1) w1 in
  exists existing e1 e2,
    let destination := stats_key "temp" "example" in
    let start_key := destination +:+ ":start" in
    let first := rotation_cmds destination start_key existing "2020-10-29T21:00:00"
                 ++ stats_writes destination (uuid1 e1) (uuid2 e1) (Py.Int 8) in
    let second := stats_writes destination (uuid1 e2) (uuid2 e2) (Py.Int 10) in
    history w1 = history w0 ++ first
    /\ history w2 = history w1 ++ second
    /\ renames second = 0%nat
    /\ (renames (first ++ second) <= 2)%nat.
Proof.
  intros w0 w1 w2.
  assert (Hhour : forall e, e ∈ [calm 1%float "a1" "a2"] ++ [calm 3%float "b1" "b2"] ->
                            utc_hour e = "2020-10-29T21:00:00").
  { intros e He. cbn [app] in He.
    repeat (apply elem_of_cons in He as [->|He]; [reflexivity|]). by inversion He. }
  destruct (rotation_once "2020-10-29T21:00:00" [calm 1%float "a1" "a2"]
              [calm 3%float "b1" "b2"] w0 w1 w2 ltac:(discriminate) Hhour) as [Hstats _].
  refine (Hstats "temp" "example" (Py.Int 8) (Py.Int 10) (Py.Int 5) (Py.Int 5)
            0%float 2%float _ _ _ _ _ _).
  - intros e He. cbn [app] in He.
    repeat (apply elem_of_cons in He as [->|He]; [split; discriminate|]). by inversion He.
  - intros e He.
    repeat (apply elem_of_cons in He as [->|He]; [reflexivity|]). by inversion He.
  - vm_compute. reflexivity.
  - vm_compute. reflexivity.
Defined.

(** ** Listing and purchasing with no other client at work *)

Lemma raise_on_error_Ret (rs rs' : list reply) :
  raise_on_error rs = Ret rs' -> existsb is_error rs = false.
Proof. unfold raise_on_error. by destruct (existsb is_error rs). Qed.

Lemma list_item_attempt_quiet itemid sellerid price e st h r w1 :
  others e = [] ->
  list_item_attempt itemid sellerid price e (World st idle h) = (r, w1) ->
  r <> Raise WatchError
  /\ (r = Ret PyTrue ->
      existsb is_error (run_cmds (list_item_cmds itemid sellerid price) st).1 = false
      /\ w1 = World (run_cmds (list_item_cmds itemid sellerid price) st).2 idle
                    (h ++ list_item_cmds itemid sellerid price)).
Proof.
  intros Ho. unfold list_item_attempt. rewrite Ho.
  cbn [watch serve snd db sess idle watched dirty queue history app others_run foldl].
  destruct (sismember st _ itemid) as [[]|x] eqn:Hs.
  - rewrite execute_transaction by done.
    cbn [multi push new_pipeline command_stack transaction explicit_transaction default app].
    fold (list_item_cmds itemid sellerid price).
    destruct (raise_on_error _) as [rs|x] eqn:Hr; intros [= <- <-].
    + split; [done|]. intros _. split; [|done]. by eapply raise_on_error_Ret.
    + unfold raise_on_error in Hr. destruct (existsb _ _); [|done].
      injection Hr as <-. split; [done|]. done.
  - intros [= <- <-]. split; done.
  - intros [= <- <-]. split; [|done]. unfold sismember in Hs.
    destruct (st !! _) as [[]|]; try discriminate Hs; by injection Hs as <-.
Qed.

Lemma purchase_item_attempt_quiet buyerid itemid sellerid lprice e st h r w1 :
  others e = [] ->
  purchase_item_attempt buyerid itemid sellerid lprice e (World st idle h) = (r, w1) ->
  r <> Raise WatchError
  /\ (r = Ret PyTrue ->
      exists price funds credit debit,
        zscore st "market:" (itemid +:+ "." +:+ sellerid) = Ret (Some price)
        /\ hget st ("users:" +:+ buyerid) "funds" = Ret (Some funds)
        /\ ne_num price lprice = false /\ Py.float_gt_Z price funds = false
        /\ Py.int_of_float price = Ret credit
        /\ Py.int_of_float (PrimFloat.opp price) = Ret debit
        /\ existsb is_error
             (run_cmds (purchase_item_cmds buyerid itemid sellerid credit debit) st).1 = false
        /\ w1 = World (run_cmds (purchase_item_cmds buyerid itemid sellerid credit debit) st).2
                      idle (h ++ purchase_item_cmds buyerid itemid sellerid credit debit)).
Proof.
  intros Ho. unfold purchase_item_attempt. rewrite Ho.
  cbn [watch serve snd db sess idle watched dirty queue history app others_run foldl].
  destruct (zscore st "market:" _) as [price|x] eqn:Hz.
  2:{ intros [= <- <-]. split; [|done]. unfold zscore in Hz.
      destruct (st !! "market:") as [[]|]; try discriminate Hz; by injection Hz as <-. }
  destruct (hget st _ "funds") as [[funds|]|x] eqn:Hf.
  3:{ intros [= <- <-]. split; [|done]. unfold hget in Hf.
      destruct (st !! _) as [[]|]; try discriminate Hf; by injection Hf as <-. }
  2:{ intros [= <- <-]. split; done. }
  destruct price as [price|]; [|intros [= <- <-]; split; done].
  destruct (ne_num price lprice) eqn:Hne; [intros [= <- <-]; split; done|].
  destruct (Py.float_gt_Z price funds) eqn:Hgt; [intros [= <- <-]; split; done|].
  cbn [orb].
  destruct (Py.int_of_float price) as [credit|x] eqn:Hc.
  2:{ unfold Py.int_of_float in Hc. destruct (Prim2SF price); try discriminate Hc;
        injection Hc as <-;
        destruct (Py.int_of_float (PrimFloat.opp price)); intros [= <- <-]; split; done. }
  destruct (Py.int_of_float (PrimFloat.opp price)) as [debit|x] eqn:Hd.
  2:{ unfold Py.int_of_float in Hd. destruct (Prim2SF (PrimFloat.opp price));
        try discriminate Hd; injection Hd as <-; intros [= <- <-]; split; done. }
  rewrite execute_transaction by done.
  cbn [multi push new_pipeline command_stack transaction explicit_transaction default app].
  fold (purchase_item_cmds buyerid itemid sellerid credit debit).
  destruct (raise_on_error _) as [rs|x] eqn:Hr; intros [= <- <-].
  - split; [done|]. intros _. exists price, funds, credit, debit.
    repeat split; try done. by eapply raise_on_error_Ret.
  - unfold raise_on_error in Hr. destruct (existsb _ _); [|done].
    injection Hr as <-. split; done.
Qed.

(** A call on a quiet schedule ends on its first turn. *)
Lemma retry_quiet attempt fallthrough deadline sched w r w' :
  (forall e w0, e ∈ sched -> w0 = w -> (attempt e w0).1 <> Raise WatchError) ->
  retry attempt fallthrough deadline sched w = Some (r, w') ->
  (r = Ret fallthrough /\ w' = w)
  \/ (exists e, e ∈ sched /\ attempt e w = (r, w')).
Proof.
  intros Hq H.
  destruct (retry_ends_inv (fun w0 => w0 = w) attempt fallthrough deadline sched w r w')
    as [[-> ->]|(e & w1 & Hin & -> & Ha & _)]; [done| |done|by left|right; by exists e].
  intros e w0 w1 Hin -> Ha. specialize (Hq e w Hin eq_refl). by rewrite Ha in Hq.
Qed.

Lemma list_item_quiet itemid sellerid price t0 sched w w1 :
  quiet sched ->
  list_item itemid sellerid price t0 sched w = Some (Ret PyTrue, w1) ->
  existsb is_error (run_cmds (list_item_cmds itemid sellerid price) (db w)).1 = false
  /\ db w1 = (run_cmds (list_item_cmds itemid sellerid price) (db w)).2.
Proof.
  intros Hq H. unfold quiet in Hq. rewrite Forall_forall in Hq.
  unfold list_item, connect in H.
  apply retry_quiet in H as [[[=] _]|(e & Hin & Ha)].
  - destruct (list_item_attempt_quiet _ _ _ _ _ _ _ _ (Hq e Hin) Ha) as [_ Hs].
    destruct (Hs eq_refl) as [He ->]. done.
  - intros e w0 Hin ->.
    destruct (list_item_attempt _ _ _ e _) as [r0 w2] eqn:Ha.
    by destruct (list_item_attempt_quiet _ _ _ _ _ _ _ _ (Hq e Hin) Ha).
Qed.

Lemma purchase_item_quiet buyerid itemid sellerid lprice t0 sched w w1 :
  quiet sched ->
  purchase_item buyerid itemid sellerid lprice t0 sched w = Some (Ret PyTrue, w1) ->
  exists price funds credit debit,
    zscore (db w) "market:" (itemid +:+ "." +:+ sellerid) = Ret (Some price)
    /\ hget (db w) ("users:" +:+ buyerid) "funds" = Ret (Some funds)
    /\ ne_num price lprice = false /\ Py.float_gt_Z price funds = false
    /\ Py.int_of_float price = Ret credit
    /\ Py.int_of_float (PrimFloat.opp price) = Ret debit
    /\ existsb is_error
         (run_cmds (purchase_item_cmds buyerid itemid sellerid credit debit) (db w)).1 = false
    /\ db w1 = (run_cmds (purchase_item_cmds buyerid itemid sellerid credit debit) (db w)).2.
Proof.
  intros Hq H. unfold quiet in Hq. rewrite Forall_forall in Hq.
  unfold purchase_item, connect in H.
  apply retry_quiet in H as [[[=] _]|(e & Hin & Ha)].
  - destruct (purchase_item_attempt_quiet _ _ _ _ _ _ _ _ _ (Hq e Hin) Ha) as [_ Hs].
    destruct (Hs eq_refl) as (price & funds & credit & debit & ? & ? & ? & ? & ? & ? & ? & ->).
    exists price, funds, credit, debit. done.
  - intros e w0 Hin ->.
    destruct (purchase_item_attempt _ _ _ _ e _) as [r0 w2] eqn:Ha.
    by destruct (purchase_item_attempt_quiet _ _ _ _ _ _ _ _ _ (Hq e Hin) Ha).
Qed.

Lemma run_cmds_cons (c : cmd) (cs : list cmd) (st : store) :
  run_cmds (c :: cs) st
  = ((exec_cmd c st).1 :: (run_cmds cs (exec_cmd c st).2).1,
     (run_cmds cs (exec_cmd c st).2).2).
Proof.
  destruct (exec_cmd c st) as [r st1] eqn:H1. cbn [fst snd].
  destruct (run_cmds cs st1) as [rs st2] eqn:H2. cbn [fst snd].
  by apply (run_cmds_step _ _ _ _ st1).
Qed.

Lemma exec_ZADD_ok st k m s :
  is_error (exec_cmd (ZADD k m s) st).1 = false ->
  exists z', (exec_cmd (ZADD k m s) st).2 !! k = Some (VZSet z') /\ z' !! m = Some s.
Proof.
  cbn [exec_cmd]. destruct (is_nan s); [done|].
  destruct (st !! k) as [[| | | |z]|]; try done; intros _; cbn [snd];
    eexists; (split; [apply lookup_insert_eq|]).
  - apply lookup_insert_eq.
  - apply lookup_singleton_eq.
Qed.

Lemma exec_HINCRBY_ok st k f d :
  is_error (exec_cmd (HINCRBY k f d) st).1 = false ->
  exists h', (exec_cmd (HINCRBY k f d) st).2 !! k = Some (VHash h')
             /\ h' !! f = Some (hfield st k f + d).
Proof.
  cbn [exec_cmd]. unfold hfield. destruct (negb (int64 d)); [done|].
  destruct (st !! k) as [[| | |h|]|]; try done.
  - destruct (int64 _); [|done]. intros _. cbn [snd]. eexists.
    split; [apply lookup_insert_eq|]. apply lookup_insert_eq.
  - intros _. cbn [snd]. eexists. split; [apply lookup_insert_eq|].
    rewrite lookup_singleton_eq. f_equal; lia.
Qed.

Lemma exec_SADD_ok st k m :
  is_error (exec_cmd (SADD k m) st).1 = false ->
  sismember (exec_cmd (SADD k m) st).2 k m = Ret true.
Proof.
  cbn [exec_cmd]. unfold sismember.
  destruct (st !! k) as [[| |s| |]|]; try done; intros _; cbn [snd];
    rewrite lookup_insert_eq; f_equal; apply bool_decide_eq_true_2; set_solver.
Qed.

Lemma exec_ZREM_gone st k m :
  is_error (exec_cmd (ZREM k m) st).1 = false ->
  zscore (exec_cmd (ZREM k m) st).2 k m = Ret None.
Proof.
  cbn [exec_cmd]. unfold zscore.
  destruct (st !! k) as [[| | | |z]|] eqn:Hk; try done; intros _; cbn [snd].
  - destruct (z !! m) eqn:Hm; cbn [snd].
    + unfold put_zset. case_decide.
      * by rewrite lookup_delete_eq.
      * rewrite lookup_insert_eq. by rewrite lookup_delete_eq.
    + by rewrite Hk, Hm.
  - by rewrite Hk.
Qed.

Lemma hfield_lookup st k f h v :
  st !! k = Some (VHash h) -> h !! f = Some v -> hfield st k f = v.
Proof. intros Hk Hf. unfold hfield. by rewrite Hk, Hf. Qed.

(** The key is not among those a command writes. *)
Ltac other_key :=
  cbn [writes]; repeat (apply not_elem_of_cons; split; [discriminate|]);
  apply not_elem_of_nil.

(** C2: from a keyspace where sellerA holds item1 and buyerB has funds of
    at least 100, a successful [list_item("item1","sellerA",100)]
    followed by a successful [purchase_item("buyerB","item1","sellerA",100)],
    with no other client at work, leaves the seller's funds 100 higher,
    the buyer's 100 lower, item1 in the buyer's inventory and no
    item1.sellerA in the market. *)
Theorem list_then_purchase (inv : gset string) (account : gmap string Z) (funds : Z)
    (t1 t2 : float) (sched1 sched2 : list tick) (w0 w1 w2 : world) :
  db w0 !! "inventory:sellerA" = Some (VSet inv) -> "item1" ∈ inv ->
  db w0 !! "users:buyerB" = Some (VHash account) ->
  account !! "funds" = Some funds -> 100 <= funds ->
  quiet sched1 -> quiet sched2 ->
  list_item "item1" "sellerA" (Py.Int 100) t1 sched1 w0 = Some (Ret PyTrue, w1) ->
  purchase_item "buyerB" "item1" "sellerA" (Py.Int 100) t2 sched2 w1
  = Some (Ret PyTrue, w2) ->
  funds_of (db w2) "sellerA" = funds_of (db w0) "sellerA" + 100
  /\ funds_of (db w2) "buyerB" = funds - 100
  /\ sismember (db w2) "inventory:buyerB" "item1" = Ret true
  /\ zscore (db w2) "market:" "item1.sellerA" = Ret None.
Proof.
  intros Hinv Hin Hacc Hfunds Hge Hq1 Hq2 H1 H2.
  destruct (list_item_quiet _ _ _ _ _ _ _ Hq1 H1) as [He1 Hdb1].
  destruct (purchase_item_quiet _ _ _ _ _ _ _ _ Hq2 H2)
    as (price & funds' & credit & debit & Hz & Hg & Hne & Hgt & Hc & Hd & He2 & Hdb2).
  unfold list_item_cmds in He1, Hdb1. unfold purchase_item_cmds in He2, Hdb2.
  change ("item1" +:+ "." +:+ "sellerA") with "item1.sellerA" in *.
  change ("inventory:" +:+ "sellerA") with "inventory:sellerA" in *.
  change ("inventory:" +:+ "buyerB") with "inventory:buyerB" in *.
  change ("users:" +:+ "sellerA") with "users:sellerA" in *.
  change ("users:" +:+ "buyerB") with "users:buyerB" in *.
  change (Py.to_float (Py.Int 100)) with 100%float in *.
  rewrite !run_cmds_cons in He1, Hdb1. cbn [run_cmds fst snd existsb] in He1, Hdb1.
  apply orb_false_iff in He1 as [Hzadd _].
  destruct (exec_ZADD_ok _ _ _ _ Hzadd) as (z' & Hm & Hitem).
  set (sa := (exec_cmd (ZADD "market:" "item1.sellerA" 100) (db w0)).2) in *.
  (* what the purchase read *)
  assert (Hm1 : db w1 !! "market:" = Some (VZSet z')).
  { rewrite Hdb1. by rewrite exec_cmd_frame by other_key. }
  assert (Hb1 : db w1 !! "users:buyerB" = Some (VHash account)).
  { rewrite Hdb1. rewrite exec_cmd_frame by other_key.
    unfold sa. by rewrite exec_cmd_frame by other_key. }
  assert (Hs1 : hfield (db w1) "users:sellerA" "funds" = funds_of (db w0) "sellerA").
  { unfold funds_of, hfield. rewrite Hdb1.
    rewrite exec_cmd_frame by other_key.
    unfold sa. by rewrite exec_cmd_frame by other_key. }
  unfold zscore in Hz. rewrite Hm1, Hitem in Hz. injection Hz as <-.
  unfold hget in Hg. rewrite Hb1, Hfunds in Hg. injection Hg as <-.
  assert (credit = 100) as -> by (vm_compute in Hc; by injection Hc).
  assert (debit = -100) as -> by (vm_compute in Hd; by injection Hd).
  (* what the purchase wrote *)
  rewrite !run_cmds_cons in He2, Hdb2. cbn [run_cmds fst snd existsb] in He2, Hdb2.
  apply orb_false_iff in He2 as [Hcredit He2].
  apply orb_false_iff in He2 as [Hdebit He2].
  apply orb_false_iff in He2 as [Hsadd He2].
  apply orb_false_iff in He2 as [Hzrem _].
  set (p1 := (exec_cmd (HINCRBY "users:sellerA" "funds" 100) (db w1)).2) in *.
  set (p2 := (exec_cmd (HINCRBY "users:buyerB" "funds" (-100)) p1).2) in *.
  set (p3 := (exec_cmd (SADD "inventory:buyerB" "item1") p2).2) in *.
  destruct (exec_HINCRBY_ok _ _ _ _ Hcredit) as (hs & Hks & Hfs).
  destruct (exec_HINCRBY_ok _ _ _ _ Hdebit) as (hb & Hkb & Hfb).
  fold p1 in Hks. fold p2 in Hkb.
  split; [|split; [|split]].
  - rewrite <- Hs1. unfold funds_of. change ("users:" +:+ "sellerA") with "users:sellerA".
    apply (hfield_lookup _ _ _ hs); [|done].
    rewrite Hdb2. rewrite exec_cmd_frame by other_key.
    unfold p3. rewrite exec_cmd_frame by other_key.
    unfold p2. by rewrite exec_cmd_frame by other_key.
  - unfold funds_of. change ("users:" +:+ "buyerB") with "users:buyerB".
    apply (hfield_lookup _ _ _ hb).
    + rewrite Hdb2. rewrite exec_cmd_frame by other_key.
      unfold p3. by rewrite exec_cmd_frame by other_key.
    + rewrite Hfb. f_equal.
      assert (hfield p1 "users:buyerB" "funds" = funds) as ->; [|lia].
      apply (hfield_lookup _ _ _ account); [|done].
      unfold p1. by rewrite exec_cmd_frame by other_key.
  - pose proof (exec_SADD_ok _ _ _ Hsadd) as Hmem. fold p3 in Hmem.
    unfold sismember in *. rewrite Hdb2.
    by rewrite exec_cmd_frame by other_key.
  - rewrite Hdb2. by apply exec_ZREM_gone.
Qed.

Lemma list_then_purchase_witness :
  let w0 := market_world in
  let w1 := after (list_item "item1" "sellerA" (Py.Int 100) 0%float
                     [calm 1%float "" ""] w0) w0 in
  let w2 := after (purchase_item "buyerB" "item1" "sellerA" (Py.Int 100) 2%float
                     [calm 3%float "" ""] w1) w1 in
  funds_of (db w2) "sellerA" = funds_of (db w0) "sellerA" + 100
  /\ funds_of (db w2) "buyerB" = 125 - 100
  /\ sismember (db w2) "inventory:buyerB" "item1" = Ret true
  /\ zscore (db w2) "market:" "item1.sellerA" = Ret None.
Proof.
  intros w0 w1 w2.
  refine (list_then_purchase {["item1"]} {["funds" := 125]} 125 0%float 2%float
            [calm 1%float "" ""] [calm 3%float "" ""] w0 w1 w2 _ _ _ _ _ _ _ _ _).
  - reflexivity.
  - set_solver.
  - reflexivity.
  - reflexivity.
  - lia.
  - repeat constructor.
  - repeat constructor.
  - vm_compute. reflexivity.
  - vm_compute. reflexivity.
Defined.

(** ** Decimal strings *)

Lemma all_chars_impl (p q : ascii -> bool) (s : string) :
  (forall c, p c = true -> q c = true) -> all_chars p s = true -> all_chars q s = true.
Proof.
  intros Hpq. induction s as [|c r IH]; cbn [all_chars]; [done|].
  intros [Hc Hr]%andb_true_iff. by rewrite (Hpq c Hc), IH.
Qed.

Lemma is_digit_char (c : ascii) :
  is_digit c = true -> Py.is_space c = false /\ Ascii.eqb c "+" = false
                       /\ Ascii.eqb c "." = false /\ Ascii.eqb c "-" = false.
Proof.
  unfold is_digit, Py.is_space. intros H.
  assert (Hn : (48 <= nat_of_ascii c <= 57)%nat).
  { apply andb_true_iff in H as [H1 H2]. apply Nat.leb_le in H1, H2. lia. }
  repeat split.
  - apply orb_false_iff. split; [apply Nat.eqb_neq; lia|].
    apply andb_false_iff. right. apply Nat.leb_gt. lia.
  - apply Ascii.eqb_neq. intros ->. vm_compute in Hn. lia.
  - apply Ascii.eqb_neq. intros ->. vm_compute in Hn. lia.
  - apply Ascii.eqb_neq. intros ->. vm_compute in Hn. lia.
Qed.

Lemma digits_of_uint (d : Decimal.uint) :
  all_chars is_digit (NilEmpty.string_of_uint d) = true.
Proof. induction d; cbn [NilEmpty.string_of_uint all_chars]; by rewrite ?IHd. Qed.

Lemma lstrip_plain (s : string) :
  all_chars (fun c => negb (Py.is_space c)) s = true -> Py.lstrip s = s.
Proof. destruct s as [|c r]; cbn; [done|]. by destruct (Py.is_space c). Qed.

Lemma rstrip_plain (s : string) :
  all_chars (fun c => negb (Py.is_space c)) s = true -> Py.rstrip s = s.
Proof.
  induction s as [|c r IH]; cbn [all_chars Py.rstrip]; [done|].
  intros [Hc Hr]%andb_true_iff. rewrite IH by done.
  destruct r; [|done]. by destruct (Py.is_space c).
Qed.

(** The shape of [str(z)]: digits, after a minus sign for a negative. *)
Lemma str_shape (z : Z) :
  exists c r, Py.str z = String c r
    /\ (is_digit c = true \/ c = "-"%char)
    /\ all_chars is_digit r = true.
Proof.
  assert (Huint : forall p, exists c r,
             NilZero.string_of_uint (Pos.to_uint p) = String c r
             /\ is_digit c = true /\ all_chars is_digit r = true).
  { intros p. pose proof (DecimalPos.Unsigned.to_uint_nonnil p) as Hnil.
    pose proof (digits_of_uint (Pos.to_uint p)) as Hd.
    destruct (Pos.to_uint p) as [|d|d|d|d|d|d|d|d|d|d]; [done|..];
      cbn [NilZero.string_of_uint NilEmpty.string_of_uint all_chars] in *;
      apply andb_true_iff in Hd as [Hc Hr]; eexists _, _; (split; [reflexivity|done]). }
  unfold Py.str. destruct z as [|p|p]; cbn [Z.to_int NilZero.string_of_int].
  - exists "0"%char, "". split; [done|]. split; [by left|done].
  - destruct (Huint p) as (c & r & -> & Hc & Hr). exists c, r. auto.
  - destruct (Huint p) as (c & r & -> & Hc & Hr). exists "-"%char, (String c r).
    split; [done|]. split; [by right|]. cbn [all_chars]. by rewrite Hc, Hr.
Qed.

Lemma str_no_blank (z : Z) : all_chars (fun c => negb (Py.is_space c)) (Py.str z) = true.
Proof.
  destruct (str_shape z) as (c & r & -> & Hc & Hr). cbn [all_chars].
  apply andb_true_iff. split.
  - destruct Hc as [Hc| ->]; [|done]. by destruct (is_digit_char c Hc) as (-> & _).
  - apply (all_chars_impl is_digit); [|done].
    intros c0 H0. by destruct (is_digit_char c0 H0) as (-> & _).
Qed.

(** [int(str(z))] is [z]. *)
Lemma int_of_str_str (z : Z) : Py.int_of_str (Py.str z) = Ret z.
Proof.
  assert (Hz : NilZero.int_of_string (Py.str z) = Some (Z.to_int z)).
  { unfold Py.str. apply NilZero.isi.
    - destruct z; cbn; try discriminate. intros [= H].
      by apply DecimalPos.Unsigned.to_uint_nonnil in H.
    - destruct z; cbn; try discriminate. intros [= H].
      by apply DecimalPos.Unsigned.to_uint_nonnil in H. }
  unfold Py.int_of_str. rewrite lstrip_plain, rstrip_plain by apply str_no_blank.
  destruct (str_shape z) as (c & r & Heq & Hc & _). rewrite Heq in *.
  replace (Ascii.eqb c "+") with false.
  - by rewrite Hz, DecimalZ.of_to.
  - destruct Hc as [Hc| ->]; [|done]. by destruct (is_digit_char c Hc) as (_ & -> & _).
Qed.

(** [int] raises nothing but [ValueError]. *)
Lemma int_of_str_cases (s : string) :
  (exists z, Py.int_of_str s = Ret z) \/ Py.int_of_str s = Raise ValueError.
Proof.
  unfold Py.int_of_str. destruct (Py.rstrip (Py.lstrip s)) as [|c r]; [by right|].
  destruct (if Ascii.eqb c "+" then _ else _); [left; by eexists|by right].
Qed.

Lemma int_literal_str (z : Z) : int_literal (Py.str z) = Ret z.
Proof. apply int_of_str_str. Qed.

Lemma int_literal_cases (s : string) :
  (exists z, int_literal s = Ret z) \/ int_literal s = Raise ValueError.
Proof. apply int_of_str_cases. Qed.

Lemma str_inj (z1 z2 : Z) : Py.str z1 = Py.str z2 -> z1 = z2.
Proof.
  intros H. apply (f_equal Py.int_of_str) in H.
  rewrite !int_of_str_str in H. by injection H.
Qed.

(** ** Comparing a float with ints *)

(** [x < z] stays true when [z] grows. *)
Lemma float_lt_Z_mono (x : float) (z z' : Z) :
  z <= z' -> Py.float_lt_Z x z = true -> Py.float_lt_Z x z' = true.
Proof.
  unfold Py.float_lt_Z, Py.cmp_float_Z. intros Hle.
  destruct (Prim2SF x) as [s|s| |s m e]; try done.
  - destruct (Z.compare_spec 0 z); try done. intros _.
    destruct (Z.compare_spec 0 z'); try done; lia.
  - destruct (0 <=? e).
    + set (v := (if s then Z.neg m else Z.pos m) * 2 ^ e).
      destruct (Z.compare_spec v z); try done. intros _.
      destruct (Z.compare_spec v z'); try done; lia.
    + set (v := if s then Z.neg m else Z.pos m).
      assert (0 <= 2 ^ (- e)) by (apply Z.pow_nonneg; lia).
      destruct (Z.compare_spec v (z * 2 ^ (- e))); try done. intros _.
      destruct (Z.compare_spec v (z' * 2 ^ (- e))); try done; nia.
Qed.

(** For a float that is a number, [z <= x] is the negation of [x < z]. *)
Lemma Z_le_float_not_lt (x : float) (z : Z) :
  Prim2SF x <> S754_nan -> Py.Z_le_float z x = negb (Py.float_lt_Z x z).
Proof.
  unfold Py.Z_le_float, Py.float_lt_Z, Py.cmp_float_Z. intros Hx.
  destruct (Prim2SF x) as [s|s| |s m e]; try done.
  - by destruct (0 ?= z).
  - by destruct s.
  - by destruct (if 0 <=? e then _ else _).
Qed.

(** ** Bisection *)

Lemma sorted_lookup_le (a : list Z) (i j : nat) (y z : Z) :
  StronglySorted Z.le a -> (i <= j)%nat ->
  a !! i = Some y -> a !! j = Some z -> y <= z.
Proof.
  intros Hs. revert i j. induction Hs as [|x l Hs IH Hall]; intros i j Hij Hi Hj; [done|].
  destruct i as [|i], j as [|j]; cbn in Hi, Hj.
  - injection Hi as <-. injection Hj as <-. lia.
  - injection Hi as <-. rewrite Forall_forall in Hall. apply Hall.
    by eapply list_elem_of_lookup_2.
  - lia.
  - apply (IH i j); [lia|done..].
Qed.

(** The loop of [bisect_right] keeps every element before [lo] not above
    [x] and every element from [hi] on above [x]. *)
Lemma bisect_loop_spec (a : list Z) (x : float) (fuel lo hi : nat) :
  StronglySorted Z.le a ->
  (lo <= hi <= length a)%nat -> (hi - lo <= fuel)%nat ->
  (forall i z, (i < lo)%nat -> a !! i = Some z -> Py.float_lt_Z x z = false) ->
  (forall i z, (hi <= i)%nat -> a !! i = Some z -> Py.float_lt_Z x z = true) ->
  let n := bisect_loop fuel a x lo hi in
  (forall i z, (i < n)%nat -> a !! i = Some z -> Py.float_lt_Z x z = false)
  /\ (forall i z, (n <= i)%nat -> a !! i = Some z -> Py.float_lt_Z x z = true).
Proof.
  intros Hs. revert lo hi. induction fuel as [|fuel IH]; intros lo hi Hb Hf Hlo Hhi.
  - cbn. assert (lo = hi) as -> by lia. done.
  - cbn [bisect_loop]. destruct (lo <? hi)%nat eqn:Hlt.
    + apply Nat.ltb_lt in Hlt.
      assert (Hmid : (lo <= (lo + hi) / 2 < hi)%nat).
      { split; [apply Nat.div_le_lower_bound; lia|apply Nat.Div0.div_lt_upper_bound; lia]. }
      set (mid := ((lo + hi) / 2)%nat) in *.
      destruct (a !! mid) as [y|] eqn:Hy.
      2:{ apply lookup_ge_None in Hy. lia. }
      destruct (Py.float_lt_Z x y) eqn:Hxy.
      * apply IH; [lia|lia|done|].
        intros i z Hi Hz. apply (float_lt_Z_mono x y z); [|done].
        by apply (sorted_lookup_le a mid i).
      * apply IH; [lia|lia| |done].
        intros i z Hi Hz. destruct (Py.float_lt_Z x z) eqn:Hxz; [|done].
        rewrite <- Hxy. symmetry. apply (float_lt_Z_mono x z y); [|done].
        apply (sorted_lookup_le a i mid); [done|lia|done..].
    + apply Nat.ltb_ge in Hlt. assert (lo = hi) as -> by lia. done.
Qed.

(** On a sorted list [bisect_right] counts the elements not above [x]:
    the first so many are they. *)
Lemma bisect_right_spec (a : list Z) (x : float) (z : Z) :
  StronglySorted Z.le a ->
  z ∈ take (bisect_right a x) a <-> z ∈ a /\ Py.float_lt_Z x z = false.
Proof.
  intros Hs. unfold bisect_right.
  destruct (bisect_loop_spec a x (length a) 0 (length a) Hs) as [Hlow Hhigh];
    [lia|lia|intros; lia| |].
  { intros i y Hi Hy. apply lookup_lt_Some in Hy. lia. }
  set (n := bisect_loop (length a) a x 0 (length a)) in *.
  split.
  - intros Hin. apply list_elem_of_lookup in Hin as [i Hi].
    rewrite lookup_take_Some in Hi. destruct Hi as [Hi Hlt].
    split; [by eapply list_elem_of_lookup_2|by eapply Hlow].
  - intros [Hin Hz]. apply list_elem_of_lookup in Hin as [i Hi].
    apply list_elem_of_lookup. exists i. rewrite lookup_take_Some. split; [done|].
    destruct (decide (i < n)%nat); [done|].
    rewrite (Hhigh i z) in Hz by (done || lia). done.
Qed.

(** ** The sweep of one counter *)

Lemma foldr_delete_lookup_gen {A} (ks : list string) (m : gmap string A) (k : string) :
  foldr delete m ks !! k = if decide (k ∈ ks) then None else m !! k.
Proof.
  induction ks as [|k' ks IH]; cbn.
  - by destruct (decide (k ∈ [])) as [H|]; [inversion H|].
  - destruct (decide (k' = k)) as [->|Hne].
    + rewrite lookup_delete_eq. by rewrite decide_True by apply list_elem_of_here.
    + rewrite lookup_delete_ne by done. rewrite IH.
      destruct (decide (k ∈ ks)); [by rewrite decide_True by by apply list_elem_of_further|].
      rewrite decide_False; [done|]. rewrite elem_of_cons. intuition congruence.
Qed.

Lemma mapM_int_of_str (fields : list string) :
  (forall f, f ∈ fields -> exists z, f = Py.str z) ->
  exists zs, mapM Py.int_of_str fields = Ret zs /\ fields = map Py.str zs.
Proof.
  induction fields as [|f fields IH]; intros H.
  - by exists [].
  - destruct (H f) as [z ->]; [apply list_elem_of_here|].
    destruct IH as (zs & Hm & ->).
    { intros f Hf. apply H. by apply list_elem_of_further. }
    exists (z :: zs). split; [|done].
    cbn [mapM]. rewrite int_of_str_str. cbn [mbind res_bind]. by rewrite Hm.
Qed.

Lemma hash_at_put_hash (k : string) (h : gmap string Z) (st : store) :
  hash_at (put_hash k h st) k = h.
Proof.
  unfold hash_at, put_hash. case_decide as Hs.
  - rewrite lookup_delete_eq. symmetry. by apply map_size_empty_iff.
  - by rewrite lookup_insert_eq.
Qed.

Lemma hash_at_frame (st st' : store) (k : string) :
  st' !! k = st !! k -> hash_at st' k = hash_at st k.
Proof. unfold hash_at. by intros ->. Qed.

Lemma is_number_nan (f : float) : is_number f = true -> Prim2SF f <> S754_nan.
Proof. unfold is_number. by destruct (Prim2SF f). Qed.

(** What HDEL of the first [bisect_right] sorted samples leaves of a
    bucket hash: the expired fields are gone, the others are as before. *)
Lemma sweep_fields (h : gmap string Z) (cutoff : float) (zs : list Z) :
  bucket_hash h ->
  map fst (map_to_list h) = map Py.str zs ->
  is_number cutoff = true ->
  let samples := merge_sort Z.le zs in
  let removed := take (bisect_right samples cutoff) samples in
  forall f, foldr delete h (map Py.str removed) !! f
            = if expired cutoff f then None else h !! f.
Proof.
  intros Hb Hf Hn samples removed f.
  assert (Hs : StronglySorted Z.le samples) by (apply StronglySorted_merge_sort; apply _).
  assert (Hrem : forall z, z ∈ removed <-> z ∈ zs /\ Py.Z_le_float z cutoff = true).
  { intros z. unfold removed. rewrite (bisect_right_spec samples cutoff z Hs).
    unfold samples. rewrite merge_sort_Permutation.
    rewrite (Z_le_float_not_lt cutoff z) by by apply is_number_nan.
    by rewrite negb_true_iff. }
  rewrite foldr_delete_lookup_gen.
  destruct (decide (f ∈ map Py.str removed)) as [Hin|Hnin].
  - apply list_elem_of_fmap in Hin as (z & -> & Hz).
    apply Hrem in Hz as [_ Hz]. unfold expired. by rewrite int_of_str_str, Hz.
  - destruct (expired cutoff f) eqn:He; [|done].
    destruct (h !! f) as [v|] eqn:Hv; [|done]. exfalso. apply Hnin.
    destruct (Hb f v Hv) as [z ->].
    unfold expired in He. rewrite int_of_str_str in He.
    apply list_elem_of_fmap. exists z. split; [done|]. apply Hrem. split; [|done].
    assert (Hfield : Py.str z ∈ map fst (map_to_list h)).
    { apply list_elem_of_fmap. exists (Py.str z, v). split; [done|].
      by apply elem_of_map_to_list. }
    rewrite Hf in Hfield. apply list_elem_of_fmap in Hfield as (z' & Heq & Hz').
    by rewrite (str_inj _ _ Heq).
Qed.

Lemma zrem_known_frame (hash : string) (st : store) :
  (run_cmds [ZREM "known:" hash] st).2 !! ("count:" +:+ hash) = st !! ("count:" +:+ hash).
Proof.
  apply run_cmds_frame. constructor; [|constructor].
  cbn [writes]. intros H. apply list_elem_of_singleton in H. discriminate H.
Qed.

(** X1: a counter that the sweep processes, whose bucket hash holds only
    fields written as ints, with a cutoff [now - SAMPLE_COUNT * prec]
    that is a number and nobody else writing the hash meanwhile, loses
    exactly the fields whose bucket start is at or below the cutoff;
    every other field keeps its count and no field is added. *)
Theorem sweep_deletes_expired (sample_count prec index : Z) (hash : string)
    (e : sweep_env) (w w' : world) (r : res Z) (h : gmap string Z) (cutoff : float) :
  let hkey := "count:" +:+ hash in
  queue (sess w) = None ->
  db w !! hkey = Some (VHash h) ->
  bucket_hash h ->
  cutoff_of sample_count prec (sweep_clock e) = Ret cutoff ->
  is_number cutoff = true ->
  Forall (fun c => hkey ∉ writes c) (refill e ++ racing e) ->
  trim_counter sample_count hash prec index e w = (r, w') ->
  forall f, hash_at (db w') hkey !! f = if expired cutoff f then None else h !! f.
Proof.
  intros hkey Hq Hh Hb Hc Hn Hquiet Ht f.
  apply Forall_app in Hquiet as [Hrefill Hracing].
  unfold trim_counter in Ht. fold hkey in Ht. rewrite Hc in Ht.
  unfold hkeys in Ht. rewrite Hh in Ht. cbn [mbind res_bind] in Ht.
  destruct (mapM_int_of_str (map fst (map_to_list h))) as (zs & Hm & Hf).
  { intros f0 Hf0. apply list_elem_of_fmap in Hf0 as ([f1 v] & -> & Hin).
    apply elem_of_map_to_list in Hin. by eapply Hb. }
  rewrite Hm in Ht. cbn [mbind res_bind] in Ht.
  pose proof (sweep_fields h cutoff zs Hb Hf Hn) as Hsweep. cbn zeta in Hsweep.
  set (samples := merge_sort Z.le zs) in *.
  set (n := bisect_right samples cutoff) in *.
  destruct (n =? 0)%nat eqn:Hn0.
  - (* nothing to remove *)
    injection Ht as <- <-. apply Nat.eqb_eq in Hn0.
    rewrite <- Hsweep. rewrite Hn0. cbn [take map foldr].
    unfold hash_at. by rewrite Hh.
  - (* HDEL, then the registry entry *)
    unfold call in Ht. cbn [exec_cmd] in Ht. rewrite Hh in Ht. cbn [is_error] in Ht.
    set (h' := foldr delete h (map Py.str (take n samples))) in *.
    set (wa := World (put_hash hkey h' (db w)) _ _) in Ht.
    assert (Hwa : hash_at (db wa) hkey = h') by apply hash_at_put_hash.
    assert (Hgoal : forall w1, db w1 !! hkey = db wa !! hkey ->
              hash_at (db w1) hkey !! f = (if expired cutoff f then None else h !! f)).
    { intros w1 Hw1. rewrite (hash_at_frame _ _ _ Hw1), Hwa. apply Hsweep. }
    destruct (n =? length samples)%nat; [|injection Ht as <- <-; by apply Hgoal].
    set (wb := others_run (refill e) wa) in Ht.
    assert (Hwb : db wb !! hkey = db wa !! hkey).
    { unfold wb. rewrite others_run_db. by apply others_db_frame. }
    pose proof (others_run_queue (refill e) wa) as (Hqb & _ & _). fold wb in Hqb.
    cbn [watch serve snd] in Ht.
    destruct (hlen _ hkey) as [len|x]; [|injection Ht as <- <-; by apply Hgoal].
    destruct (len =? 0).
    + set (wc := others_run (racing e) _) in Ht.
      assert (Hwc : db wc !! hkey = db wa !! hkey).
      { unfold wc. rewrite others_run_db. cbn [db]. rewrite others_db_frame by done. done. }
      pose proof (others_run_queue (racing e)
                    (World (db wb) (Session ([hkey] ++ watched (sess wb)) (dirty (sess wb))
                                            (queue (sess wb))) (history wb)))
        as (Hqc & _ & _).
      fold wc in Hqc. cbn [sess queue] in Hqc. rewrite Hqb in Hqc.
      destruct wc as [stc [wkc dc qc] hc] eqn:Hwceq. cbn in Hqc, Hwc.
      assert (qc = None) as -> by (rewrite Hqc; unfold wa; cbn; exact Hq).
      rewrite execute_transaction in Ht by done.
      destruct dc.
      * injection Ht as <- <-. apply Hgoal. exact Hwc.
      * cbn [multi push new_pipeline command_stack app] in Ht.
        assert (Hfin : (run_cmds [ZREM "known:" hash] stc).2 !! hkey = db wa !! hkey).
        { unfold hkey. rewrite zrem_known_frame. exact Hwc. }
        destruct (raise_on_error _) as [rs|x].
        -- injection Ht as <- <-. apply Hgoal. exact Hfin.
        -- destruct x; injection Ht as <- <-; apply Hgoal; exact Hfin.
    + injection Ht as <- <-. apply Hgoal. cbn [unwatch serve snd db].
      rewrite others_run_db. cbn [db]. by rewrite others_db_frame.
Qed.

Lemma sweep_deletes_expired_witness :
  let e := SweepEnv 100%float [] [] in
  let w' := (trim_counter 2 "5:hits" 5 1 e sweep_world).2 in
  hash_at (db w') "count:5:hits" !! "85" = None
  /\ hash_at (db w') "count:5:hits" !! "90" = None
  /\ hash_at (db w') "count:5:hits" !! "95" = Some 2.
Proof.
  intros e w'.
  assert (Hb : bucket_hash {["85" := 3; "90" := 1; "95" := 2]}).
  { intros f v H.
    apply lookup_insert_Some in H as [[<- _]|[_ H]]; [by exists 85|].
    apply lookup_insert_Some in H as [[<- _]|[_ H]]; [by exists 90|].
    apply lookup_singleton_Some in H as [<- _]. by exists 95. }
  pose proof (sweep_deletes_expired 2 5 1 "5:hits" e sweep_world w'
                (trim_counter 2 "5:hits" 5 1 e sweep_world).1
                {["85" := 3; "90" := 1; "95" := 2]} 90%float
                eq_refl eq_refl Hb eq_refl eq_refl (List.Forall_nil _)
                (surjective_pairing _)) as H.
  split; [exact (H "85")|split; [exact (H "90")|exact (H "95")]].
Defined.

(** ** The recent log *)

Lemma range_of_head {A} (l : list A) (n : Z) :
  0 <= n -> range_of l 0 n = take (Z.to_nat (n + 1)) l.
Proof.
  intros Hn. unfold range_of. cbn zeta.
  replace (0 <? 0) with false by done.
  replace (n <? 0) with false by (symmetry; apply Z.ltb_ge; lia).
  destruct l as [|x l].
  { destruct (_ || _); [by rewrite take_nil|]. by rewrite drop_nil, !take_nil. }
  set (len := Z.of_nat (length (x :: l))).
  assert (Hlen : 1 <= len) by (unfold len; cbn [length]; lia).
  replace (Z.min n (len - 1) <? 0) with false by (symmetry; apply Z.ltb_ge; lia).
  replace (len <=? 0) with false by (symmetry; apply Z.leb_gt; lia).
  cbn [orb]. change (Z.to_nat 0) with 0%nat. cbn [drop]. rewrite Z.sub_0_r.
  destruct (Z.le_gt_cases n (len - 1)) as [Hle|Hgt].
  - by rewrite Z.min_l by lia.
  - rewrite Z.min_r by lia. rewrite !take_ge; [done|unfold len in *; lia..].
Qed.

(** X2: [log_recent] called without a pipeline, on a key that is absent
    or holds a list, returns [None], puts the stamped message at the head
    of the list and keeps the first 100 entries of the result; no other
    key changes. *)
Theorem log_recent_keeps_latest (name message : string) (severity : level) (e : tick)
    (st : store) (h : list cmd) (l : list string) :
  let destination := "recent:" +:+ name +:+ ":" +:+ severity_name severity in
  let line := asctime e +:+ " " +:+ message in
  (st !! destination = None /\ l = []) \/ st !! destination = Some (VList l) ->
  exists w',
    log_recent name message severity None e (World st idle h) = (Ret PyNone, w')
    /\ db w' !! destination = Some (VList (take 100 (line :: l)))
    /\ (forall k, k <> destination -> db w' !! k = st !! k).
Proof.
  intros destination line Hl. unfold log_recent. fold destination. fold line.
  cbn [pipe_or_new]. unfold idle. rewrite execute_transaction by done.
  cbn [push new_pipeline command_stack app].
  assert (Hrun : run_cmds [LPUSH destination line; LTRIM destination 0 99] st
                 = ((run_cmds [LPUSH destination line; LTRIM destination 0 99] st).1,
                    <[destination := VList (take 100 (line :: l))]> st)
                 /\ existsb is_error
                      (run_cmds [LPUSH destination line; LTRIM destination 0 99] st).1
                    = false).
  { cbn [run_cmds exec_cmd].
    assert (Hpush : exists n, (match st !! destination with
                     | Some (VList l0) =>
                         (RInt (Z.of_nat (S (length l0))),
                          <[destination := VList (line :: l0)]> st)
                     | Some _ => (RError, st)
                     | None => (RInt 1, <[destination := VList [line]]> st)
                     end) = (RInt n, <[destination := VList (line :: l)]> st)).
    { destruct Hl as [[-> ->]| ->]; eexists; reflexivity. }
    destruct Hpush as [n ->]. rewrite lookup_insert_eq.
    rewrite range_of_head by lia. change (Z.to_nat (99 + 1)) with 100%nat.
    cbn [put_list take]. rewrite insert_insert_eq. done. }
  destruct Hrun as [Hrun Herr]. unfold raise_on_error. rewrite Herr.
  eexists. split; [reflexivity|]. rewrite Hrun. cbn [snd db]. split.
  - apply lookup_insert_eq.
  - intros k Hk. by rewrite lookup_insert_ne.
Qed.

(** X3: on a key that holds something other than a list, [log_recent]
    raises the server's error after its batch has run, and the keyspace
    is as before. *)
Theorem log_recent_wrong_type (name message : string) (severity : level) (e : tick)
    (st : store) (h : list cmd) (v : rvalue) :
  let destination := "recent:" +:+ name +:+ ":" +:+ severity_name severity in
  st !! destination = Some v -> (forall l, v <> VList l) ->
  exists w',
    log_recent name message severity None e (World st idle h) = (Raise ResponseError, w')
    /\ db w' = st.
Proof.
  intros destination Hv Hl. unfold log_recent. fold destination.
  cbn [pipe_or_new]. unfold idle. rewrite execute_transaction by done.
  cbn [push new_pipeline command_stack app run_cmds exec_cmd]. rewrite Hv.
  destruct v as [s|l|s|hh|z]; try (by destruct (Hl l)); cbn [fst snd]; rewrite Hv;
    eexists; split; reflexivity.
Qed.

Lemma log_recent_keeps_latest_witness :
  exists w',
    log_recent "test" "this is message 1" (Level 20) None (calm 1%float "" "")
               (World ∅ idle []) = (Ret PyNone, w')
    /\ db w' !! "recent:test:info"
       = Some (VList (take 100 ["Thu Oct 29 21:27:18 2020 this is message 1"]))
    /\ (forall k, k <> "recent:test:info" -> db w' !! k = (∅ : store) !! k).
Proof.
  exact (log_recent_keeps_latest "test" "this is message 1" (Level 20)
           (calm 1%float "" "") ∅ [] [] (or_introl (conj eq_refl eq_refl))).
Defined.

Lemma log_recent_wrong_type_witness :
  exists w',
    log_recent "test" "this is message 1" (Level 20) None (calm 1%float "" "")
               (World {["recent:test:info" := VString "x"]} idle [])
    = (Raise ResponseError, w')
    /\ db w' = {["recent:test:info" := VString "x"]}.
Proof.
  refine (log_recent_wrong_type "test" "this is message 1" (Level 20)
            (calm 1%float "" "") {["recent:test:info" := VString "x"]} [] (VString "x")
            eq_refl _).
  intros l. discriminate.
Defined.

(** ** The running totals of [update_stats] *)

Lemma zunion_pair_lookup (a : aggregate) (z : gmap string float) (m : string) (v : float)
    (i : string) :
  zunion a [z; {[m := v]}] ∅ !! i
  = if decide (i = m) then Some (merged a z m v) else z !! i.
Proof.
  cbn [zunion]. rewrite !lookup_union_with, lookup_empty. unfold merged.
  destruct (decide (i = m)) as [->|Hne].
  - rewrite lookup_singleton_eq. by destruct (z !! m).
  - rewrite lookup_singleton_ne by done. by destruct (z !! i).
Qed.

Lemma stats_merge_totals (z : gmap string float) (value : Py.num) :
  let v := Py.to_float value in
  let v2 := Py.to_float (Py.mul value value) in
  is_nan v = false -> is_nan v2 = false ->
  is_nan (bumped z "count" 1) = false ->
  is_nan (bumped z "sum" v) = false ->
  is_nan (bumped z "sumsq" v2) = false ->
  exists z',
    stats_merge z value
    = Some (z', [RDouble (bumped z "count" 1); RDouble (bumped z "sum" v);
                 RDouble (bumped z "sumsq" v2)])
    /\ z' !! "count" = Some (bumped z "count" 1)
    /\ z' !! "sum" = Some (bumped z "sum" v)
    /\ z' !! "sumsq" = Some (bumped z "sumsq" v2)
    /\ z' !! "min" = Some (merged AggMin z "min" v)
    /\ z' !! "max" = Some (merged AggMax z "max" v).
Proof.
  intros v v2 Hv Hv2 Hc Hs Hq. unfold stats_merge. fold v. fold v2. rewrite Hv.
  set (z1 := zunion AggMin [z; {["min" := v]}] ∅).
  set (z2 := zunion AggMax [z1; {["max" := v]}] ∅).
  assert (H2 : forall i, z2 !! i
                = if decide (i = "max") then Some (merged AggMax z1 "max" v)
                  else if decide (i = "min") then Some (merged AggMin z "min" v)
                  else z !! i).
  { intros i. unfold z2. rewrite zunion_pair_lookup. destruct (decide (i = "max")); [done|].
    unfold z1. by rewrite zunion_pair_lookup. }
  assert (Hmax : merged AggMax z1 "max" v = merged AggMax z "max" v).
  { unfold merged, z1. by rewrite zunion_pair_lookup. }
  unfold zincr.
  assert (Ec : match z2 !! "count" with Some old => PrimFloat.add old 1 | None => 1%float end
               = bumped z "count" 1) by (by rewrite H2).
  replace (is_nan 1) with false by done. rewrite Ec, Hc. cbn [mbind option_bind].
  assert (Es : match <["count" := bumped z "count" 1]> z2 !! "sum" with
               | Some old => PrimFloat.add old v | None => v end
               = bumped z "sum" v).
  { rewrite lookup_insert_ne by done. by rewrite H2. }
  rewrite Hv, Es, Hs. cbn [mbind option_bind].
  assert (Eq : match <["sum" := bumped z "sum" v]>
                       (<["count" := bumped z "count" 1]> z2) !! "sumsq" with
               | Some old => PrimFloat.add old v2 | None => v2 end
               = bumped z "sumsq" v2).
  { rewrite !lookup_insert_ne by done. by rewrite H2. }
  rewrite Hv2, Eq, Hq. cbn [mbind option_bind].
  eexists. split; [reflexivity|].
  rewrite lookup_insert_eq.
  rewrite !(lookup_insert_ne _ "sumsq") by done. rewrite lookup_insert_eq.
  rewrite !(lookup_insert_ne _ "sum") by done. rewrite lookup_insert_eq.
  rewrite !(lookup_insert_ne _ "count") by done.
  rewrite !H2, Hmax. done.
Qed.

(** X4: on a turn taken before the deadline with no other client at
    work, for a value that Redis takes as a score and whose square it
    takes too, [update_stats] returns the new count, sum and sum of
    squares, each the old score plus 1, the value and its square (the
    addend alone where the member was absent), and leaves them in the
    aggregate with the lower of the old minimum and the value as [min]
    and the higher as [max], each up to the sign of a zero. *)
Theorem update_stats_running_totals (context type hour : string) (value timeout : Py.num)
    (d t0 : float) (e : tick) (rest : list tick) (w : world) (z : gmap string float) :
  let destination := stats_key context type in
  let v := Py.to_float value in
  let v2 := Py.to_float (Py.mul value value) in
  Py.coerce timeout = Ret d ->
  PrimFloat.ltb (clock e) (PrimFloat.add t0 d) = true ->
  hour <> "" ->
  calm_turn (db w) destination hour e ->
  zset_at (db w) destination z ->
  (db w !! (destination +:+ ":start") = None
   \/ db w !! (destination +:+ ":start") = Some (VString hour)) ->
  is_nan v = false -> is_nan v2 = false ->
  is_nan (bumped z "count" 1) = false ->
  is_nan (bumped z "sum" v) = false ->
  is_nan (bumped z "sumsq" v2) = false ->
  exists w' z' lo hi,
    update_stats context type value timeout t0 (e :: rest) w
    = Some (Ret (PyReplies [RDouble (bumped z "count" 1); RDouble (bumped z "sum" v);
                            RDouble (bumped z "sumsq" v2)]), w')
    /\ db w' !! destination = Some (VZSet z')
    /\ z' !! "count" = Some (bumped z "count" 1)
    /\ z' !! "sum" = Some (bumped z "sum" v)
    /\ z' !! "sumsq" = Some (bumped z "sumsq" v2)
    /\ z' !! "min" = Some lo /\ same_score lo (merged AggMin z "min" v)
    /\ z' !! "max" = Some hi /\ same_score hi (merged AggMax z "max" v).
Proof.
  intros destination v v2 Hd Ht Hh Hcalm Hz Hs Hv Hv2 Hc Hsum Hq.
  destruct (stats_merge_totals z value Hv Hv2 Hc Hsum Hq)
    as (z' & Hm & Hzc & Hzs & Hzq & Hzmin & Hzmax).
  destruct (update_stats_calm context type value timeout d t0 e rest w hour z z' _
              Hd Ht Hh Hcalm Hz Hs Hm) as (w' & Hu & Hdb & _).
  exists w', z', (merged AggMin z "min" v), (merged AggMax z "max" v).
  do 5 (split; [done|]). split; [done|]. split; [by left|]. split; [done|by left].
Qed.

Lemma update_stats_running_totals_witness :
  exists w' z' lo hi,
    update_stats "temp" "example" (Py.Int 8) (Py.Int 5) 0%float
                 [calm 1%float "a1" "a2"] (World ∅ idle [])
    = Some (Ret (PyReplies [RDouble 1; RDouble 8; RDouble 64]), w')
    /\ db w' !! "stats:temp:example" = Some (VZSet z')
    /\ z' !! "count" = Some 1%float
    /\ z' !! "sum" = Some 8%float
    /\ z' !! "sumsq" = Some 64%float
    /\ z' !! "min" = Some lo /\ same_score lo 8%float
    /\ z' !! "max" = Some hi /\ same_score hi 8%float.
Proof.
  refine (update_stats_running_totals "temp" "example" "2020-10-29T21:00:00"
            (Py.Int 8) (Py.Int 5) 5%float 0%float (calm 1%float "a1" "a2") []
            (World ∅ idle []) ∅ eq_refl eq_refl _ _ (or_introl (conj eq_refl eq_refl))
            (or_introl eq_refl) eq_refl eq_refl eq_refl eq_refl eq_refl).
  - discriminate.
  - repeat split; try reflexivity; discriminate.
Defined.

(** ** Addresses as scores *)

Lemma split_on_cons (sep : ascii) (s : string) :
  exists p ps, split_on sep s = p :: ps.
Proof.
  induction s as [|c r (p & ps & IH)]; cbn [split_on]; [by eexists _, _|].
  destruct (Ascii.eqb c sep); [by eexists _, _|]. rewrite IH. by eexists _, _.
Qed.

Lemma split_on_plain (sep : ascii) (p : string) :
  all_chars (fun c => negb (Ascii.eqb c sep)) p = true -> split_on sep p = [p].
Proof.
  induction p as [|c r IH]; cbn [all_chars split_on]; [done|].
  intros [Hc Hr]%andb_true_iff. apply negb_true_iff in Hc. by rewrite Hc, IH.
Qed.

Lemma split_on_app (sep : ascii) (p rest : string) :
  all_chars (fun c => negb (Ascii.eqb c sep)) p = true ->
  split_on sep (p +:+ String sep rest) = p :: split_on sep rest.
Proof.
  induction p as [|c r IH]; cbn [all_chars].
  - intros _. change ("" +:+ String sep rest) with (String sep rest).
    cbn [split_on]. by rewrite Ascii.eqb_refl.
  - intros [Hc Hr]%andb_true_iff. apply negb_true_iff in Hc.
    change (String c r +:+ String sep rest) with (String c (r +:+ String sep rest)).
    cbn [split_on]. by rewrite Hc, IH.
Qed.

Lemma str_no_dot (z : Z) :
  all_chars (fun c => negb (Ascii.eqb c ".")) (Py.str z) = true.
Proof.
  destruct (str_shape z) as (c & r & -> & Hc & Hr). cbn [all_chars].
  apply andb_true_iff. split.
  - destruct Hc as [Hc| ->]; [|done]. by destruct (is_digit_char c Hc) as (_ & _ & -> & _).
  - apply (all_chars_impl is_digit); [|done].
    intros c0 H0. by destruct (is_digit_char c0 H0) as (_ & _ & -> & _).
Qed.

Lemma split_on_dotted (a b c d : Z) :
  split_on "." (dotted a b c d) = [Py.str a; Py.str b; Py.str c; Py.str d].
Proof.
  unfold dotted. cbn [join_dots].
  assert (Hdot : forall s, "." +:+ s = String "." s) by done.
  rewrite !Hdot. rewrite !split_on_app by apply str_no_dot.
  by rewrite split_on_plain by apply str_no_dot.
Qed.

Lemma ip_score_of_dotted (a b c d : Z) :
  ip_to_score (dotted a b c d) = Ret (((a * 256 + b) * 256 + c) * 256 + d).
Proof.
  unfold ip_to_score. rewrite split_on_dotted. cbn [ip_score_loop].
  rewrite !int_literal_str. cbn [mbind res_bind]. do 2 f_equal.
Qed.

(** X5: for the address written as four decimal numbers between dots,
    [ip_to_score] returns ((a*256 + b)*256 + c)*256 + d, whatever the
    four numbers are. *)
Theorem ip_to_score_dotted (a b c d : Z) :
  ip_to_score (dotted a b c d) = Ret (((a * 256 + b) * 256 + c) * 256 + d).
Proof. apply ip_score_of_dotted. Qed.

(** X6: on addresses of four octets the score lies below 2^32 and
    orders the addresses as their octets do, read from the left; two
    addresses have the same score only when they are the same. *)
Theorem ip_to_score_order (a1 b1 c1 d1 a2 b2 c2 d2 : Z) :
  octet a1 -> octet b1 -> octet c1 -> octet d1 ->
  octet a2 -> octet b2 -> octet c2 -> octet d2 ->
  exists s1 s2,
    ip_to_score (dotted a1 b1 c1 d1) = Ret s1
    /\ ip_to_score (dotted a2 b2 c2 d2) = Ret s2
    /\ 0 <= s1 < 2 ^ 32
    /\ (s1 < s2 <->
        a1 < a2 \/ (a1 = a2 /\ (b1 < b2 \/ (b1 = b2 /\ (c1 < c2 \/ (c1 = c2 /\ d1 < d2))))))
    /\ (s1 = s2 <-> a1 = a2 /\ b1 = b2 /\ c1 = c2 /\ d1 = d2).
Proof.
  unfold octet. intros. eexists _, _.
  split; [apply ip_score_of_dotted|]. split; [apply ip_score_of_dotted|].
  change (2 ^ 32) with 4294967296. lia.
Qed.

Lemma ip_to_score_order_witness :
  exists s1 s2,
    ip_to_score (dotted 10 0 0 1) = Ret s1
    /\ ip_to_score (dotted 10 0 1 0) = Ret s2
    /\ 0 <= s1 < 2 ^ 32
    /\ (s1 < s2 <->
        10 < 10 \/ (10 = 10 /\ (0 < 0 \/ (0 = 0 /\ (0 < 1 \/ (0 = 1 /\ 1 < 0))))))
    /\ (s1 = s2 <-> 10 = 10 /\ 0 = 0 /\ 0 = 1 /\ 1 = 0).
Proof.
  apply (ip_to_score_order 10 0 0 1 10 0 1 0); unfold octet; lia.
Defined.

Lemma ip_score_loop_cases (parts : list string) (score : Z) :
  (Forall (fun p => exists n, int_literal p = Ret n) parts
   /\ exists s, ip_score_loop score parts = Ret s)
  \/ (Exists (fun p => int_literal p = Raise ValueError) parts
      /\ ip_score_loop score parts = Raise ValueError).
Proof.
  revert score. induction parts as [|p parts IH]; intros score; cbn [ip_score_loop].
  - left. split; [constructor|by eexists].
  - destruct (int_literal_cases p) as [[n Hn]|Hp].
    + rewrite Hn. cbn [mbind res_bind].
      destruct (IH (score * 256 + n)) as [[Hall Hs]|[Hex Hs]].
      * left. split; [constructor; [by exists n|done]|done].
      * right. split; [by apply Exists_cons_tl|done].
    + rewrite Hp. right. split; [by apply Exists_cons_hd|done].
Qed.

(** X7: [ip_to_score] returns a score when every piece between the dots
    is an integer literal, and raises [ValueError] when one is not;
    it raises nothing else. An address with an empty piece, such as the
    empty string, raises. *)
Theorem ip_to_score_value_error (ip_address : string) :
  let parts := split_on "." ip_address in
  ((exists s, ip_to_score ip_address = Ret s)
   <-> Forall (fun p => exists n, int_literal p = Ret n) parts)
  /\ (ip_to_score ip_address = Raise ValueError
      <-> Exists (fun p => int_literal p = Raise ValueError) parts)
  /\ (forall x, ip_to_score ip_address = Raise x -> x = ValueError)
  /\ ("" ∈ parts -> ip_to_score ip_address = Raise ValueError).
Proof.
  intros parts. unfold ip_to_score. fold parts.
  destruct (ip_score_loop_cases parts 0) as [[Hall [s Hs]]|[Hex Hs]]; rewrite Hs.
  - split; [split; [done|by eexists]|]. split.
    + split; [done|]. intros Hex. apply Exists_exists in Hex as (p & Hin & Hp).
      rewrite Forall_forall in Hall. destruct (Hall p Hin) as [n Hn]. congruence.
    + split; [done|]. intros Hin. rewrite Forall_forall in Hall.
      by destruct (Hall "" Hin) as [n Hn].
  - split.
    + split; [by intros [s [=]]|]. intros Hall.
      apply Exists_exists in Hex as (p & Hin & Hp).
      rewrite Forall_forall in Hall. destruct (Hall p Hin) as [n Hn]. congruence.
    + split; [done|]. split; [by intros x [= <-]|done].
Qed.

(** ** Reading a counter *)

#[local] Instance pair_le_trans : Transitive pair_le.
Proof.
  intros [a1 a2] [b1 b2] [c1 c2]. unfold pair_le, pair_leb. cbn [fst snd]. lia.
Qed.

#[local] Instance pair_le_total : Total pair_le.
Proof.
  intros [a1 a2] [b1 b2]. unfold pair_le, pair_leb. cbn [fst snd]. lia.
Qed.

Lemma mapM_bucket_pairs (l : list (string * Z)) :
  (forall f v, (f, v) ∈ l -> exists z, f = Py.str z) ->
  exists ps,
    mapM (fun kv : string * Z => key ← int_literal kv.1; Ret (key, kv.2)) l = Ret ps
    /\ l = map (fun p : Z * Z => (Py.str p.1, p.2)) ps.
Proof.
  induction l as [|[f v] l IH]; intros H.
  - by exists [].
  - destruct (H f v) as [z ->]; [apply list_elem_of_here|].
    destruct IH as (ps & Hm & ->).
    { intros f0 v0 Hin. apply (H f0 v0). by apply list_elem_of_further. }
    exists ((z, v) :: ps). split; [|done].
    cbn [mapM fst snd]. rewrite int_literal_str. cbn [mbind res_bind]. by rewrite Hm.
Qed.

(** X8: [get_counter] on a counter whose hash holds the fields
    [update_counter] writes returns one pair for every field, the bucket
    start and its count, in strictly increasing order of the bucket
    starts; on a counter that does not exist it returns the empty list. *)
Theorem get_counter_sorted_buckets (name : string) (precision : Z) (w : world)
    (h : gmap string Z) :
  let hkey := "count:" +:+ Py.str precision +:+ ":" +:+ name in
  (db w !! hkey = None -> get_counter name precision w = Ret [])
  /\ (db w !! hkey = Some (VHash h) -> bucket_hash h ->
      exists l,
        get_counter name precision w = Ret l
        /\ StronglySorted (fun a b : Z * Z => a.1 < b.1) l
        /\ (forall t v, (t, v) ∈ l <-> h !! Py.str t = Some v)).
Proof.
  intros hkey. unfold get_counter, hgetall. fold hkey. split.
  - by intros ->.
  - intros -> Hb. cbn [mbind res_bind].
    destruct (mapM_bucket_pairs (map_to_list h)) as (ps & -> & Hps).
    { intros f v Hin. apply elem_of_map_to_list in Hin. by eapply Hb. }
    cbn [mbind res_bind]. eexists. split; [reflexivity|].
    assert (Hin : forall t v, (t, v) ∈ ps <-> h !! Py.str t = Some v).
    { intros t v. rewrite <- elem_of_map_to_list. rewrite Hps. split.
      - intros Hp. apply list_elem_of_fmap. by exists (t, v).
      - intros Hp. apply list_elem_of_fmap in Hp as ([t' v'] & [= Ht <-] & Hp).
        by rewrite (str_inj _ _ Ht). }
    assert (Hkeys : forall a b, a ∈ ps -> b ∈ ps -> a.1 = b.1 -> a = b).
    { intros [t v] [t' v'] Ha Hb' Heq. cbn in Heq. subst t'.
      apply Hin in Ha, Hb'. congruence. }
    assert (Hnd : NoDup ps).
    { apply (NoDup_fmap_1 (fun p : Z * Z => (Py.str p.1, p.2))).
      change (NoDup (map (fun p : Z * Z => (Py.str p.1, p.2)) ps)). rewrite <- Hps.
      apply NoDup_map_to_list. }
    split.
    + assert (Hs : StronglySorted pair_le (merge_sort pair_le ps))
        by (apply StronglySorted_merge_sort; apply _).
      assert (Hnd' : NoDup (merge_sort pair_le ps)) by by rewrite merge_sort_Permutation.
      assert (Hsub : forall a, a ∈ merge_sort pair_le ps -> a ∈ ps).
      { intros a. by rewrite merge_sort_Permutation. }
      induction Hs as [|a l Hs IH Hall]; [constructor|].
      apply NoDup_cons in Hnd' as [Hnotin Hnd'].
      constructor.
      * apply IH; [done|]. intros b Hb'. apply Hsub. by apply list_elem_of_further.
      * rewrite Forall_forall in Hall |- *. intros b Hb'.
        specialize (Hall b Hb'). unfold pair_le, pair_leb in Hall.
        destruct (decide (a.1 = b.1)) as [Heq|Hne]; [|lia].
        exfalso. apply Hnotin.
        rewrite (Hkeys a b); [done| |by apply Hsub, list_elem_of_further|done].
        apply Hsub, list_elem_of_here.
    + intros t v. by rewrite merge_sort_Permutation.
Qed.

(** ** Writing a counter *)

Lemma exec_HINCRBY_lookup (st : store) (k f : string) (d : Z) (h : gmap string Z) :
  (st !! k = None /\ h = ∅) \/ st !! k = Some (VHash h) ->
  int64 d = true -> int64 (default 0 (h !! f) + d) = true ->
  (exec_cmd (HINCRBY k f d) st).2 !! k
  = Some (VHash (<[f := default 0 (h !! f) + d]> h)).
Proof.
  intros Hk Hd Hv. cbn [exec_cmd]. rewrite Hd. cbn [negb].
  destruct Hk as [[-> ->]| ->].
  - cbn [snd]. rewrite lookup_insert_eq. rewrite lookup_empty. cbn [default].
    by rewrite Z.add_0_l, insert_empty.
  - rewrite Hv. cbn [snd]. by rewrite lookup_insert_eq.
Qed.

Lemma run_cmds_cons_db (c : cmd) (cs : list cmd) (st : store) :
  (run_cmds (c :: cs) st).2 = (run_cmds cs (exec_cmd c st).2).2.
Proof. by rewrite run_cmds_cons. Qed.

(** Two keys that differ in their literal parts. *)
Ltac keys_differ :=
  cbn [writes]; repeat (apply not_elem_of_cons; split; [|try apply not_elem_of_nil]);
  let H := fresh in intros H; cbv [String.append] in H; discriminate H.

Lemma mapM_res_length {A B} (f : A -> res B) (l : list A) (l' : list B) :
  mapM f l = Ret l' -> length l' = length l.
Proof.
  revert l'. induction l as [|a l IH]; intros l' H; cbn [mapM] in H.
  - by injection H as <-.
  - destruct (f a) as [b|x]; [|done]. cbn [mbind res_bind] in H.
    destruct (mapM f l) as [bs|x]; [|done]. injection H as <-.
    cbn [length]. by rewrite (IH bs).
Qed.

(** When every bucket start can be computed, the call runs the batch of
    its writes, whatever the replies are. *)
Lemma update_counter_db (name : string) (count : Z) (now : option Py.num) (clock : float)
    (w : world) (starts : list Z) :
  mapM (bucket_start (now_or now clock)) PRECISION = Ret starts ->
  db (update_counter name count now clock w).2
  = (run_cmds (concat (zip_with (counter_writes name count) PRECISION starts)) (db w)).2.
Proof.
  intros Hs. unfold update_counter, update_counter_pipe.
  destruct (update_counter_stack _ _ _ _ _) as [p|x] eqn:Hp.
  - destruct (update_counter_stack_spec _ _ _ _ _ _ Hp) as (starts' & Hs' & ->).
    rewrite Hs in Hs'. injection Hs' as <-.
    unfold connect, idle. rewrite execute_transaction by done.
    cbn [new_pipeline command_stack app]. by destruct (raise_on_error _).
  - exfalso. revert Hp. generalize (new_pipeline None). revert starts Hs.
    induction PRECISION as [|prec precs IH]; intros starts Hs pipe Hp; [done|].
    cbn [update_counter_stack mapM] in Hp, Hs.
    destruct (bucket_start _ prec) as [pnow|y]; [|done].
    cbn [mbind res_bind] in Hp, Hs.
    destruct (mapM _ precs) as [ss|y] eqn:Hm; [|done].
    by apply (IH ss eq_refl _ Hp).
Qed.

(** X9: whatever else its batch meets, [update_counter] adds [count] to
    the field named by the bucket start, in the hash of every precision,
    creating hash and field as needed; the other fields of that hash
    stay as they are. The bucket starts are those of the time given, or
    of the clock when none or zero is given. *)
Theorem update_counter_adds (name : string) (count prec pnow : Z) (now : option Py.num)
    (clock : float) (starts : list Z) (w : world) (h : gmap string Z) :
  let hkey := "count:" +:+ Py.str prec +:+ ":" +:+ name in
  let field := Py.str pnow in
  let total := default 0 (h !! field) + count in
  mapM (bucket_start (now_or now clock)) PRECISION = Ret starts ->
  (prec, pnow) ∈ zip PRECISION starts ->
  (db w !! hkey = None /\ h = ∅) \/ db w !! hkey = Some (VHash h) ->
  int64 count = true -> int64 total = true ->
  let w' := (update_counter name count now clock w).2 in
  db w' !! hkey = Some (VHash (<[field := total]> h)).
Proof.
  intros hkey field total Hs Hprec Hh Hc Htot w'.
  unfold w'. rewrite (update_counter_db _ _ _ _ _ _ Hs). clear w'.
  pose proof (mapM_res_length _ _ _ Hs) as Hlen. clear Hs.
  unfold PRECISION in Hprec, Hlen |- *.
  destruct starts as [|s1 [|s2 [|s3 [|s4 [|s5 [|s6 [|s7 [|]]]]]]]]; try discriminate Hlen.
  cbn [zip zip_with concat counter_writes app] in Hprec |- *.
  assert (Hstr : Py.str 1 = "1" /\ Py.str 5 = "5" /\ Py.str 60 = "60"
                 /\ Py.str 300 = "300" /\ Py.str 3600 = "3600"
                 /\ Py.str 18000 = "18000" /\ Py.str 86400 = "86400") by done.
  destruct Hstr as (S1 & S2 & S3 & S4 & S5 & S6 & S7).
  rewrite !run_cmds_cons_db. cbn [run_cmds snd].
  repeat (apply elem_of_cons in Hprec as [[= -> ->]|Hprec]);
    [..|by apply not_elem_of_nil in Hprec];
    subst hkey field; rewrite ?S1, ?S2, ?S3, ?S4, ?S5, ?S6, ?S7 in *;
    repeat (rewrite exec_cmd_frame by keys_differ);
    rewrite (exec_HINCRBY_lookup _ _ _ _ h); try done;
    repeat (rewrite exec_cmd_frame by keys_differ); done.
Qed.

(** ** The maintenance flag *)

(** X10: the first call of [is_under_maintenance] asks Redis whatever
    the clock reads, and answers whether the key holds a non-empty
    string; a later call whose clock is not more than a second past the
    time of that check gives the same answer without asking, whatever
    the key holds by then. *)
Theorem is_under_maintenance_cached (t1 t2 t3 t4 : float) (w w' : world)
    (v : option string) :
  get (db w) "is-under-maintenance" = Ret v ->
  PrimFloat.ltb t2 (PrimFloat.sub t3 1%float) = false ->
  let first := is_under_maintenance t1 t2 w maintenance_start in
  first.1 = Ret (nonempty v)
  /\ LAST_CHECKED first.2 = Some t2
  /\ is_under_maintenance t3 t4 w' first.2 = (Ret (nonempty v), first.2).
Proof.
  intros Hv Hlt first.
  assert (Hf : first = (Ret (nonempty v), Maintenance (Some t2) (nonempty v))).
  { unfold first, is_under_maintenance.
    cbn [maintenance_start LAST_CHECKED none_ltb]. by rewrite Hv. }
  rewrite Hf. cbn [fst snd LAST_CHECKED]. split; [done|]. split; [done|].
  unfold is_under_maintenance. cbn [LAST_CHECKED IS_UNDER_MAINTENANCE none_ltb].
  by rewrite Hlt.
Qed.

Lemma is_under_maintenance_cached_witness :
  let w := World {["is-under-maintenance" := VString "yes"]} idle [] in
  let first := is_under_maintenance 10%float 10%float (World ∅ idle []) maintenance_start in
  first.1 = Ret (nonempty None)
  /\ LAST_CHECKED first.2 = Some 10%float
  /\ is_under_maintenance 10.5%float 10.5%float w first.2 = (Ret (nonempty None), first.2).
Proof.
  intros w.
  exact (is_under_maintenance_cached 10%float 10%float 10.5%float 10.5%float
           (World ∅ idle []) w None eq_refl eq_refl).
Defined.

(** ** What the sweep leaves alone *)

Lemma put_hash_frame (k k' : string) (h : gmap string Z) (st : store) :
  k <> k' -> put_hash k' h st !! k = st !! k.
Proof.
  intros Hk. unfold put_hash. case_decide.
  - by rewrite lookup_delete_ne.
  - by rewrite lookup_insert_ne.
Qed.

(** One turn of the walk writes the counter's hash and the registry and
    nothing else, and leaves the connection outside MULTI. *)
Lemma trim_counter_frame (sample_count prec index : Z) (hash k : string) (e : sweep_env)
    (w w' : world) (r : res Z) :
  k <> "known:" -> k <> "count:" +:+ hash ->
  Forall (fun c => k ∉ writes c) (refill e ++ racing e) ->
  queue (sess w) = None ->
  trim_counter sample_count hash prec index e w = (r, w') ->
  db w' !! k = db w !! k /\ queue (sess w') = None.
Proof.
  intros Hk1 Hk2 Hquiet Hq Ht. apply Forall_app in Hquiet as [Hrefill Hracing].
  unfold trim_counter in Ht.
  destruct (_ ≫= _) as [[cutoff samples]|x]; [|by injection Ht as <- <-].
  destruct (_ =? 0)%nat; [by injection Ht as <- <-|].
  unfold call in Ht.
  destruct (exec_cmd (HDEL _ _) (db w)) as [r0 st0] eqn:He.
  assert (Hst0 : st0 !! k = db w !! k).
  { replace st0 with (exec_cmd (HDEL ("count:" +:+ hash)
                                  (map Py.str (take (bisect_right (merge_sort Z.le samples) cutoff)
                                                    (merge_sort Z.le samples)))) (db w)).2
      by by rewrite He.
    apply exec_cmd_frame. cbn [writes]. by apply not_elem_of_cons; split;
      [|apply not_elem_of_nil]. }
  destruct (is_error r0); [injection Ht as <- <-; by split|].
  set (wa := World st0 _ _) in Ht.
  assert (Hwa : db wa !! k = db w !! k /\ queue (sess wa) = None) by (by split).
  clearbody wa. destruct Hwa as [Hwa Hqa].
  destruct (_ =? length _)%nat; [|injection Ht as <- <-; by split].
  set (wb := others_run (refill e) wa) in Ht.
  assert (Hwb : db wb !! k = db w !! k).
  { unfold wb. rewrite others_run_db. by rewrite others_db_frame. }
  pose proof (others_run_queue (refill e) wa) as (Hqb & _ & _). fold wb in Hqb.
  rewrite Hqa in Hqb. clearbody wb.
  cbn [watch serve snd] in Ht.
  destruct (hlen _ _) as [len|x]; [|injection Ht as <- <-; by split].
  destruct (len =? 0).
  - set (wc := others_run (racing e) _) in Ht.
    assert (Hwc : db wc !! k = db w !! k).
    { unfold wc. rewrite others_run_db. cbn [db]. by rewrite others_db_frame. }
    pose proof (others_run_queue (racing e)
                  (World (db wb) (Session (["count:" +:+ hash] ++ watched (sess wb))
                                          (dirty (sess wb)) (queue (sess wb))) (history wb)))
      as (Hqc & _ & _).
    fold wc in Hqc. cbn [sess queue] in Hqc. rewrite Hqb in Hqc. clearbody wc.
    destruct wc as [stc [wkc dc qc] hc]. cbn in Hqc, Hwc. subst qc.
    rewrite execute_transaction in Ht by done.
    destruct dc.
    + injection Ht as <- <-. by split.
    + cbn [multi push new_pipeline command_stack app] in Ht.
      assert (Hfin : (run_cmds [ZREM "known:" hash] stc).2 !! k = db w !! k).
      { rewrite run_cmds_frame; [done|]. constructor; [|constructor].
        cbn [writes]. by apply not_elem_of_cons; split; [|apply not_elem_of_nil]. }
      destruct (raise_on_error _) as [rs|x].
      * injection Ht as <- <-. by split.
      * destruct x; injection Ht as <- <-; by split.
  - injection Ht as <- <-. cbn [unwatch serve snd db sess queue].
    pose proof (others_run_queue (racing e)
                  (World (db wb) (Session (["count:" +:+ hash] ++ watched (sess wb))
                                          (dirty (sess wb)) (queue (sess wb))) (history wb)))
      as (Hqc & _ & _).
    split.
    + rewrite others_run_db. cbn [db]. by rewrite others_db_frame.
    + exact (eq_trans Hqc Hqb).
Qed.

Lemma registry_pass_frame (sample_count passes : Z) (k : string) (envs : list sweep_env) :
  k <> "known:" -> (forall hash, k <> "count:" +:+ hash) ->
  Forall (fun e => Forall (fun c => k ∉ writes c) (refill e ++ racing e)) envs ->
  forall index w r w',
    queue (sess w) = None ->
    registry_pass sample_count passes envs index w = Some (r, w') ->
    db w' !! k = db w !! k /\ queue (sess w') = None.
Proof.
  intros Hk1 Hk2 Hquiet. induction Hquiet as [|e envs He Hquiet IH];
    intros index w r w' Hq Hp.
  - cbn [registry_pass] in Hp.
    destruct (zcard _ _) as [n|x]; [|by injection Hp as <- <-].
    destruct (index <? n); [done|by injection Hp as <- <-].
  - cbn [registry_pass] in Hp.
    destruct (zcard _ _) as [n|x]; [|by injection Hp as <- <-].
    destruct (index <? n); [|by injection Hp as <- <-].
    destruct (zrange _ _ _ _) as [[|hash l]|x]; try (by injection Hp as <- <-).
    destruct (Py.int_of_str _) as [prec|x]; [|by injection Hp as <- <-].
    destruct (negb _); [by apply (IH _ _ _ _ Hq Hp)|].
    destruct (trim_counter _ _ _ _ _ _) as [[index'|x] w1] eqn:Ht.
    + destruct (trim_counter_frame _ _ _ _ _ _ _ _ _ Hk1 (Hk2 hash) He Hq Ht) as [Hw1 Hq1].
      destruct (IH _ _ _ _ Hq1 Hp) as [Hw' Hq']. split; [congruence|done].
    + injection Hp as <- <-.
      by apply (trim_counter_frame _ _ _ _ _ _ _ _ _ Hk1 (Hk2 hash) He Hq Ht).
Qed.

(** X11: [clean_counters] writes no key but the registry [known:] and
    the hashes [count:...]: a key other than those, which no other client
    writes while the daemon runs, holds at the end what it held at the
    start. *)
Theorem clean_counters_frame (sample_count : Z) (k : string) (sched : list pass_env)
    (w w' : world) (r : res (list Z)) :
  k <> "known:" -> (forall hash, k <> "count:" +:+ hash) ->
  Forall (fun p => Forall (fun e => Forall (fun c => k ∉ writes c) (refill e ++ racing e))
                          (steps p)) sched ->
  clean_counters sample_count sched w = Some (r, w') ->
  db w' !! k = db w !! k.
Proof.
  intros Hk1 Hk2 Hquiet. unfold clean_counters.
  change (db w !! k) with (db (connect w) !! k).
  assert (Hq : queue (sess (connect w)) = None) by done.
  generalize dependent (connect w). clear w.
  generalize (@nil Z). generalize 0.
  induction Hquiet as [|p sched Hp Hquiet IH]; intros passes slept w Hq Hc; [done|].
  cbn [clean_counters_from] in Hc.
  destruct (quit p); [by injection Hc as <- <-|].
  destruct (registry_pass _ _ _ _ _) as [[[[]|x] w1]|] eqn:Hr; [| |done].
  - destruct (registry_pass_frame _ _ _ _ Hk1 Hk2 Hp _ _ _ _ Hq Hr) as [Hw1 Hq1].
    destruct (sleep_time _ _) as [s|x]; [|injection Hc as <- <-; done].
    rewrite <- Hw1. by apply (IH _ _ _ Hq1 Hc).
  - injection Hc as <- <-.
    by apply (registry_pass_frame _ _ _ _ Hk1 Hk2 Hp _ _ _ _ Hq Hr).
Qed.

(** ** Listing and buying, for every item and price *)

(** A float that compares equal to an int is that int. *)
Lemma cmp_float_Z_eq (f : float) (z z' : Z) :
  Py.cmp_float_Z f z = Some Eq -> Py.cmp_float_Z f z' = Some (z ?= z').
Proof.
  unfold Py.cmp_float_Z. destruct (Prim2SF f) as [s|s| |s m e]; try done.
  - by destruct z.
  - by destruct s.
  - destruct (0 <=? e) eqn:He; intros H;
      (assert (H0 : forall a b : Z, Some (a ?= b) = Some Eq -> a = b)
         by (intros a b Hab; apply Z.compare_eq; congruence));
      apply H0 in H; clear H0.
    + by rewrite H.
    + rewrite H. f_equal. symmetry. apply Zmult_compare_compat_r.
      apply Z.leb_gt in He. apply Z.lt_gt, Z.pow_pos_nonneg; lia.
Qed.

Lemma int_of_float_eq (f : float) (z : Z) :
  Py.cmp_float_Z f z = Some Eq ->
  Py.int_of_float f = Ret z /\ Py.int_of_float (PrimFloat.opp f) = Ret (- z).
Proof.
  unfold Py.cmp_float_Z, Py.int_of_float. rewrite FloatAxioms.opp_spec.
  destruct (Prim2SF f) as [s|s| |s m e]; cbn [SFopp]; try done.
  - by destruct z.
  - by destruct s.
  - destruct (0 <=? e) eqn:He; intros H;
      (assert (H0 : forall a b : Z, Some (a ?= b) = Some Eq -> a = b)
         by (intros a b Hab; apply Z.compare_eq; congruence));
      apply H0 in H; clear H0.
    + subst z. destruct s; cbn [negb]; split; f_equal; lia.
    + apply Z.leb_gt in He.
      assert (Hp : 0 < 2 ^ (- e)) by (apply Z.pow_pos_nonneg; lia).
      assert (Hm : Z.pos m / 2 ^ (- e) = if s then - z else z).
      { destruct s.
        - replace (Z.pos m) with ((- z) * 2 ^ (- e)) by lia. apply Z.div_mul. lia.
        - rewrite H. apply Z.div_mul. lia. }
      rewrite Hm. destruct s; cbn [negb]; split; f_equal; lia.
Qed.

Lemma exec_SREM_gone (st : store) (k m : string) :
  is_error (exec_cmd (SREM k m) st).1 = false ->
  sismember (exec_cmd (SREM k m) st).2 k m = Ret false.
Proof.
  cbn [exec_cmd]. unfold sismember.
  destruct (st !! k) as [[| |s| |]|] eqn:Hk; try done; intros _; cbn [snd].
  - destruct (bool_decide (m ∈ s)) eqn:Hm; cbn [snd].
    + unfold put_set. destruct (decide (size (s ∖ {[m]}) = 0%nat)).
      * by rewrite lookup_delete_eq.
      * rewrite lookup_insert_eq. f_equal. apply bool_decide_eq_false_2.
        intros Hin. apply elem_of_difference in Hin as [_ Hn]. apply Hn.
        by apply elem_of_singleton.
    + by rewrite Hk, Hm.
  - by rewrite Hk.
Qed.

(** X12: a listing that succeeds with no other client at work found the
    item in the seller's inventory, leaves it out of the inventory and in
    the market at the price given, and changes no other key. *)
Theorem list_item_moves_to_market (itemid sellerid : string) (price : Py.num)
    (t0 : float) (sched : list tick) (w w1 : world) :
  let inventory := "inventory:" +:+ sellerid in
  let item := itemid +:+ "." +:+ sellerid in
  quiet sched ->
  list_item itemid sellerid price t0 sched w = Some (Ret PyTrue, w1) ->
  sismember (db w) inventory itemid = Ret true
  /\ sismember (db w1) inventory itemid = Ret false
  /\ zscore (db w1) "market:" item = Ret (Some (Py.to_float price))
  /\ (forall k, k <> "market:" -> k <> inventory -> db w1 !! k = db w !! k).
Proof.
  intros inventory item Hq H.
  destruct (list_item_quiet _ _ _ _ _ _ _ Hq H) as [He Hdb].
  unfold list_item_cmds in He, Hdb. fold inventory item in He, Hdb.
  rewrite !run_cmds_cons in He, Hdb. cbn [run_cmds fst snd existsb] in He, Hdb.
  apply orb_false_iff in He as [Hzadd He]. apply orb_false_iff in He as [Hsrem _].
  split; [|split; [|split]].
  - unfold list_item, connect in H.
    apply retry_quiet in H as [[[=] _]|(e & Hin & Ha)].
    + by destruct (list_item_attempt_ret _ _ _ _ _ _ _ Ha) as [[[=] _]|[_ Hmem]].
    + intros e w0 Hin ->. unfold quiet in Hq. rewrite Forall_forall in Hq.
      destruct (list_item_attempt _ _ _ e _) as [r0 w2] eqn:Ha.
      by destruct (list_item_attempt_quiet _ _ _ _ _ _ _ _ (Hq e Hin) Ha).
  - rewrite Hdb. by apply exec_SREM_gone.
  - destruct (exec_ZADD_ok _ _ _ _ Hzadd) as (z' & Hm & Hitem).
    unfold zscore. rewrite Hdb. rewrite exec_cmd_frame by keys_differ.
    by rewrite Hm, Hitem.
  - intros k Hk1 Hk2. rewrite Hdb.
    rewrite !exec_cmd_frame; [done|..]; cbn [writes];
      by apply not_elem_of_cons; split; [|apply not_elem_of_nil].
Qed.

(** X13: a purchase at an int price that succeeds with no other client
    at work, the buyer being another user than the seller, found funds of
    at least the price, adds the price to the seller's funds, takes it
    from the buyer's, puts the item in the buyer's inventory and leaves
    no listing of it in the market. *)
Theorem purchase_item_transfers (buyerid itemid sellerid : string) (price : Z)
    (t0 : float) (sched : list tick) (w w1 : world) :
  buyerid <> sellerid ->
  quiet sched ->
  purchase_item buyerid itemid sellerid (Py.Int price) t0 sched w = Some (Ret PyTrue, w1) ->
  price <= funds_of (db w) buyerid
  /\ funds_of (db w1) sellerid = funds_of (db w) sellerid + price
  /\ funds_of (db w1) buyerid = funds_of (db w) buyerid - price
  /\ sismember (db w1) ("inventory:" +:+ buyerid) itemid = Ret true
  /\ zscore (db w1) "market:" (itemid +:+ "." +:+ sellerid) = Ret None.
Proof.
  intros Hne Hq H.
  destruct (purchase_item_quiet _ _ _ _ _ _ _ _ Hq H)
    as (listed & funds & credit & debit & Hz & Hg & Hprice & Hgt & Hc & Hd & He & Hdb).
  assert (Hkeys : "users:" +:+ buyerid <> "users:" +:+ sellerid).
  { intros Heq. by apply append_same_prefix in Heq. }
  (* the listed price is the int given *)
  assert (Heq : Py.cmp_float_Z listed price = Some Eq).
  { unfold ne_num, Py.float_ne_Z in Hprice.
    by destruct (Py.cmp_float_Z listed price) as [[]|]. }
  destruct (int_of_float_eq _ _ Heq) as [Hc' Hd'].
  rewrite Hc' in Hc. rewrite Hd' in Hd. injection Hc as <-. injection Hd as <-.
  assert (Hfunds : funds_of (db w) buyerid = funds).
  { unfold funds_of, hfield. unfold hget in Hg.
    destruct (db w !! ("users:" +:+ buyerid)) as [[| | |hb|]|]; try done.
    injection Hg as Hg. by rewrite Hg. }
  assert (Hle : price <= funds).
  { unfold Py.float_gt_Z in Hgt. rewrite (cmp_float_Z_eq _ _ funds Heq) in Hgt.
    destruct (Z.compare_spec price funds); try done; lia. }
  unfold purchase_item_cmds in He, Hdb.
  rewrite !run_cmds_cons in He, Hdb. cbn [run_cmds fst snd existsb] in He, Hdb.
  apply orb_false_iff in He as [Hcredit He].
  apply orb_false_iff in He as [Hdebit He].
  apply orb_false_iff in He as [Hsadd He].
  apply orb_false_iff in He as [Hzrem _].
  set (p1 := (exec_cmd (HINCRBY ("users:" +:+ sellerid) "funds" price) (db w)).2) in *.
  set (p2 := (exec_cmd (HINCRBY ("users:" +:+ buyerid) "funds" (- price)) p1).2) in *.
  set (p3 := (exec_cmd (SADD ("inventory:" +:+ buyerid) itemid) p2).2) in *.
  destruct (exec_HINCRBY_ok _ _ _ _ Hcredit) as (hs & Hks & Hfs).
  destruct (exec_HINCRBY_ok _ _ _ _ Hdebit) as (hb & Hkb & Hfb).
  fold p1 in Hks. fold p2 in Hkb.
  split; [by rewrite Hfunds|]. split; [|split; [|split]].
  - unfold funds_of at 1. apply (hfield_lookup _ _ _ hs); [|done].
    rewrite Hdb. rewrite exec_cmd_frame by keys_differ.
    unfold p3. rewrite exec_cmd_frame by keys_differ.
    unfold p2. rewrite exec_cmd_frame; [done|].
    cbn [writes]. apply not_elem_of_cons. split; [congruence|apply not_elem_of_nil].
  - unfold funds_of at 1. apply (hfield_lookup _ _ _ hb).
    + rewrite Hdb. rewrite exec_cmd_frame by keys_differ.
      unfold p3. by rewrite exec_cmd_frame by keys_differ.
    + rewrite Hfb. f_equal.
      assert (hfield p1 ("users:" +:+ buyerid) "funds" = funds_of (db w) buyerid) as ->; [|lia].
      unfold funds_of, hfield, p1. rewrite exec_cmd_frame; [done|].
      cbn [writes]. apply not_elem_of_cons. split; [done|apply not_elem_of_nil].
  - pose proof (exec_SADD_ok _ _ _ Hsadd) as Hmem. fold p3 in Hmem.
    unfold sismember in *. rewrite Hdb.
    by rewrite exec_cmd_frame by keys_differ.
  - rewrite Hdb. by apply exec_ZREM_gone.
Qed.

(** ** A sale that does not happen writes nothing *)

Lemma others_run_shape (cs : list cmd) (st : store) wk d h :
  exists st' d', others_run cs (World st (Session wk d None) h)
                 = World st' (Session wk d' None) h.
Proof.
  destruct (others_run cs _) as [st' [wk' d' q'] h'] eqn:Ho.
  pose proof (others_run_queue cs (World st (Session wk d None) h)) as (Hq & Hw & Hh).
  rewrite Ho in Hq, Hw, Hh. cbn in Hq, Hw, Hh. subst. by eexists _, _.
Qed.

Lemma list_item_attempt_history itemid sellerid price e st wk d h r w1 :
  list_item_attempt itemid sellerid price e (World st (Session wk d None) h) = (r, w1) ->
  queue (sess w1) = None
  /\ (r = Raise WatchError \/ r = Ret PyNone \/ r = Ret PyFalse -> history w1 = h).
Proof.
  unfold list_item_attempt.
  cbn [watch serve snd db sess watched dirty queue history].
  destruct (others_run_shape (others e) st (["inventory:" +:+ sellerid] ++ wk) d h)
    as (st' & d' & ->).
  destruct (sismember st _ itemid) as [[]|x].
  - rewrite execute_transaction by done. destruct d'.
    + intros [= <- <-]. by split.
    + unfold raise_on_error. destruct (existsb _ _); intros [= <- <-];
        (split; [done|]); by intros [|[|]].
  - intros [= <- <-]. by split.
  - intros [= <- <-]. by split.
Qed.

Lemma purchase_item_attempt_history buyerid itemid sellerid lprice e st wk d h r w1 :
  purchase_item_attempt buyerid itemid sellerid lprice e (World st (Session wk d None) h)
  = (r, w1) ->
  queue (sess w1) = None
  /\ (r = Raise WatchError \/ r = Ret PyNone \/ r = Ret PyFalse -> history w1 = h).
Proof.
  unfold purchase_item_attempt.
  cbn [watch serve snd db sess watched dirty queue history].
  destruct (others_run_shape (others e) st
              (["market:"; "users:" +:+ buyerid] ++ wk) d h) as (st' & d' & ->).
  destruct (zscore st "market:" _) as [price|x]; [|intros [= <- <-]; by split].
  destruct (hget st _ "funds") as [[funds|]|x]; try (intros [= <- <-]; by split).
  destruct price as [price|]; [|intros [= <- <-]; by split].
  destruct (_ || _); [intros [= <- <-]; by split|].
  destruct (Py.int_of_float price) as [credit|x];
    [|destruct (Py.int_of_float (PrimFloat.opp price)); intros [= <- <-]; by split].
  destruct (Py.int_of_float (PrimFloat.opp price)) as [debit|x];
    [|intros [= <- <-]; by split].
  rewrite execute_transaction by done. destruct d'.
  - intros [= <- <-]. by split.
  - unfold raise_on_error. destruct (existsb _ _); intros [= <- <-];
      (split; [done|]); by intros [|[|]].
Qed.

Lemma retry_no_write attempt deadline sched w r w1 :
  (forall e st wk d h r0 w0,
      attempt e (World st (Session wk d None) h) = (r0, w0) ->
      queue (sess w0) = None
      /\ (r0 = Raise WatchError \/ r0 = Ret PyNone \/ r0 = Ret PyFalse -> history w0 = h)) ->
  retry attempt PyFalse deadline sched (connect w) = Some (r, w1) ->
  r = Ret PyNone \/ r = Ret PyFalse -> history w1 = history w.
Proof.
  intros Hattempt H Hr.
  destruct (retry_ends_inv (fun w0 => queue (sess w0) = None /\ history w0 = history w)
              attempt PyFalse deadline sched (connect w) r w1)
    as [[_ [_ Hh]]|(e & w0 & _ & [Hq Hh] & Ha & Hne)]; [done| |done|done|].
  - intros e [st [wk d q] h] w0 _ [Hq Hh] Ha. cbn in Hq, Hh. subst q h.
    destruct (Hattempt _ _ _ _ _ _ _ Ha) as [Hq' Hh']. split; [done|]. apply Hh'. by left.
  - destruct w0 as [st [wk d q] h]. cbn in Hq, Hh. subst q h.
    destruct (Hattempt _ _ _ _ _ _ _ Ha) as [_ Hh']. apply Hh'. by right.
Qed.

(** X14: a call of [list_item] or [purchase_item] that returns [None] or
    [False] has had the server run no write command for it, whatever
    other clients did meanwhile; with no other client at work the
    keyspace is then as it was. *)
Theorem no_sale_no_write :
  (forall itemid sellerid price t0 sched w r w1,
      list_item itemid sellerid price t0 sched w = Some (r, w1) ->
      r = Ret PyNone \/ r = Ret PyFalse ->
      history w1 = history w /\ (quiet sched -> db w1 = db w))
  /\ (forall buyerid itemid sellerid lprice t0 sched w r w1,
      purchase_item buyerid itemid sellerid lprice t0 sched w = Some (r, w1) ->
      r = Ret PyNone \/ r = Ret PyFalse ->
      history w1 = history w /\ (quiet sched -> db w1 = db w)).
Proof.
  split.
  - intros itemid sellerid price t0 sched w r w1 H Hr. split.
    + apply (retry_no_write _ _ _ _ _ _ (list_item_attempt_history itemid sellerid price) H Hr).
    + intros Hq. unfold quiet in Hq. rewrite Forall_forall in Hq.
      unfold list_item in H. apply retry_quiet in H as [[_ ->]|(e & Hin & Ha)]; [done| |].
      * destruct Hr as [->| ->].
        -- destruct (list_item_attempt_ret _ _ _ _ _ _ _ Ha) as [(_ & -> & _)|[[=] _]].
           by rewrite (Hq e Hin).
        -- by destruct (list_item_attempt_ret _ _ _ _ _ _ _ Ha) as [([=] & _)|[[=] _]].
      * intros e w0 Hin ->. unfold connect.
        destruct (list_item_attempt _ _ _ e _) as [r0 w2] eqn:Ha.
        by destruct (list_item_attempt_quiet _ _ _ _ _ _ _ _ (Hq e Hin) Ha).
  - intros buyerid itemid sellerid lprice t0 sched w r w1 H Hr. split.
    + apply (retry_no_write _ _ _ _ _ _
               (purchase_item_attempt_history buyerid itemid sellerid lprice) H Hr).
    + intros Hq. unfold quiet in Hq. rewrite Forall_forall in Hq.
      unfold purchase_item in H. apply retry_quiet in H as [[_ ->]|(e & Hin & Ha)]; [done| |].
      * destruct Hr as [->| ->].
        -- destruct (purchase_item_attempt_ret _ _ _ _ _ _ _ _ Ha) as [(_ & -> & _)|[=]].
           by rewrite (Hq e Hin).
        -- by destruct (purchase_item_attempt_ret _ _ _ _ _ _ _ _ Ha) as [([=] & _)|[=]].
      * intros e w0 Hin ->. unfold connect.
        destruct (purchase_item_attempt _ _ _ _ e _) as [r0 w2] eqn:Ha.
        by destruct (purchase_item_attempt_quiet _ _ _ _ _ _ _ _ _ (Hq e Hin) Ha).
Qed.

(** ** The common log *)

Lemma lower_ascii_idem (c : ascii) : lower_ascii (lower_ascii c) = lower_ascii c.
Proof.
  unfold lower_ascii.
  destruct ((65 <=? nat_of_ascii c) && (nat_of_ascii c <=? 90))%nat eqn:Hc; [|by rewrite Hc].
  apply andb_true_iff in Hc as [H1 H2]. apply Nat.leb_le in H1, H2.
  rewrite nat_ascii_embedding by lia.
  replace ((65 <=? nat_of_ascii c + 32) && (nat_of_ascii c + 32 <=? 90))%nat with false; [done|].
  symmetry. apply andb_false_iff. right. apply Nat.leb_gt. lia.
Qed.

Lemma lower_idem (s : string) : lower (lower s) = lower s.
Proof. induction s as [|c r IH]; cbn [lower]; [done|]. by rewrite lower_ascii_idem, IH. Qed.

Lemma severity_name_idem_lemma (l : level) :
  severity_name (Named (severity_name l)) = severity_name l.
Proof.
  assert (Hn : forall s, severity_name (Named s) = lower s).
  { intros s. unfold severity_name. cbn [SEVERITY]. by case_bool_decide. }
  rewrite Hn. unfold severity_name.
  destruct (SEVERITY l) as [s|]; [apply lower_idem|].
  destruct l as [n|s]; apply lower_idem.
Qed.

Lemma recent_writes_run (st : store) (destination line : string) (l : list string) :
  (st !! destination = None /\ l = []) \/ st !! destination = Some (VList l) ->
  exists n,
    run_cmds [LPUSH destination line; LTRIM destination 0 99] st
    = ([RInt n; ROk], <[destination := VList (take 100 (line :: l))]> st).
Proof.
  intros Hl. cbn [run_cmds exec_cmd].
  assert (Hpush : exists n, (match st !! destination with
                   | Some (VList l0) =>
                       (RInt (Z.of_nat (S (length l0))),
                        <[destination := VList (line :: l0)]> st)
                   | Some _ => (RError, st)
                   | None => (RInt 1, <[destination := VList [line]]> st)
                   end) = (RInt n, <[destination := VList (line :: l)]> st)).
  { destruct Hl as [[-> ->]| ->]; eexists; reflexivity. }
  destruct Hpush as [n ->]. exists n. rewrite lookup_insert_eq.
  rewrite range_of_head by lia. change (Z.to_nat (99 + 1)) with 100%nat.
  cbn [put_list take]. by rewrite insert_insert_eq.
Qed.

Lemma exec_ZINCRBY_at (st : store) (k m : string) (d : float) (z : gmap string float) :
  zset_at st k z -> is_nan d = false -> is_nan (bumped z m d) = false ->
  exec_cmd (ZINCRBY k m d) st
  = (RDouble (bumped z m d), <[k := VZSet (<[m := bumped z m d]> z)]> st).
Proof.
  intros Hz Hd Hb. cbn [exec_cmd]. rewrite Hd. unfold bumped in *.
  destruct Hz as [[-> ->]| ->].
  - rewrite lookup_empty in *. by rewrite insert_empty.
  - by rewrite Hb.
Qed.

(** X16: within the hour its marker holds, with no other client at
    work, [log_common] returns [None], adds 1 to the message's score in
    the common set of its name and severity (a new message starts at 1),
    and puts the stamped message at the head of the recent list of the
    same name and severity, which keeps its first 100 entries. *)
Theorem log_common_counts (name message hour : string) (severity : level)
    (timeout : Py.num) (d t0 : float) (e : tick) (rest : list tick) (w : world)
    (z : gmap string float) (l : list string) :
  let sev := severity_name severity in
  let destination := "common:" +:+ name +:+ ":" +:+ sev in
  let start_key := destination +:+ ":start" in
  let recent := "recent:" +:+ name +:+ ":" +:+ sev in
  Py.coerce timeout = Ret d ->
  PrimFloat.ltb (clock e) (PrimFloat.add t0 d) = true ->
  others e = [] -> utc_hour e = hour -> hour <> "" ->
  db w !! start_key = Some (VString hour) ->
  zset_at (db w) destination z ->
  (db w !! recent = None /\ l = []) \/ db w !! recent = Some (VList l) ->
  is_nan (bumped z message 1) = false ->
  exists w',
    log_common name message severity timeout t0 (e :: rest) w = Some (Ret PyNone, w')
    /\ db w' !! destination = Some (VZSet (<[message := bumped z message 1]> z))
    /\ db w' !! recent = Some (VList (take 100 ((asctime e +:+ " " +:+ message) :: l)))
    /\ db w' !! start_key = Some (VString hour).
Proof.
  intros sev destination start_key recent Hc Ht Ho Hu Hh Hs Hz Hl Hn.
  assert (Hrd : recent <> destination) by (intros H; cbv [String.append] in H; discriminate H).
  assert (Hsd : start_key <> destination) by (by apply append_nonempty_ne).
  assert (Hrs : recent <> start_key) by (intros H; cbv [String.append] in H; discriminate H).
  unfold log_common. rewrite Hc. cbn [retry]. rewrite Ht.
  rewrite log_common_attempt_rotating. fold sev. fold destination. fold start_key.
  unfold connect. rewrite rotating_attempt_run.
  assert (Hg : get (db w) start_key = Ret (Some hour)) by (unfold get; by rewrite Hs).
  rewrite Hg, Hu. unfold interferes. rewrite Ho. cbn [existsb others_db foldl].
  assert (Hm : marker_at (db w) start_key hour).
  { exists hour. split; [done|]. split; [done|apply ltb_irrefl]. }
  rewrite (marker_get _ _ _ _ Hm Hg destination).
  cbn [app]. unfold log_writes.
  change (severity_name (Named sev)) with (severity_name (Named (severity_name severity))).
  rewrite severity_name_idem_lemma. fold sev. fold destination. fold recent.
  set (line := asctime e +:+ " " +:+ message).
  rewrite run_cmds_cons.
  rewrite (exec_ZINCRBY_at _ _ _ _ z Hz) by done. cbn [fst snd].
  destruct (recent_writes_run (<[destination := VZSet (<[message := bumped z message 1]> z)]> (db w))
              recent line l) as [n ->].
  { by rewrite lookup_insert_ne. }
  cbn [fst snd raise_on_error existsb is_error orb].
  eexists. split; [reflexivity|]. cbn [db]. split; [|split].
  - rewrite lookup_insert_ne by done. apply lookup_insert_eq.
  - apply lookup_insert_eq.
  - rewrite !lookup_insert_ne by done. done.
Qed.

Lemma exec_RENAME_at (st : store) (s d : string) (v : rvalue) :
  st !! s = Some v -> exec_cmd (RENAME s d) st = (ROk, <[d := v]> (delete s st)).
Proof. intros Hs. cbn [exec_cmd]. by rewrite Hs. Qed.

(** X17: when the marker holds an earlier hour, [log_common] archives
    the common set under [:last] and the old marker under [:pstart],
    sets the marker to the new hour and starts a new common set that
    holds the message at score 1; the recent list takes the message as
    in any other call. *)
Theorem log_common_rotates (name message hour old : string) (severity : level)
    (timeout : Py.num) (d t0 : float) (e : tick) (rest : list tick) (w : world)
    (z : gmap string float) (l : list string) :
  let sev := severity_name severity in
  let destination := "common:" +:+ name +:+ ":" +:+ sev in
  let start_key := destination +:+ ":start" in
  let recent := "recent:" +:+ name +:+ ":" +:+ sev in
  Py.coerce timeout = Ret d ->
  PrimFloat.ltb (clock e) (PrimFloat.add t0 d) = true ->
  others e = [] -> utc_hour e = hour ->
  db w !! start_key = Some (VString old) -> old <> "" -> String.ltb old hour = true ->
  db w !! destination = Some (VZSet z) ->
  (db w !! recent = None /\ l = []) \/ db w !! recent = Some (VList l) ->
  exists w',
    log_common name message severity timeout t0 (e :: rest) w = Some (Ret PyNone, w')
    /\ db w' !! (destination +:+ ":last") = Some (VZSet z)
    /\ db w' !! (destination +:+ ":pstart") = Some (VString old)
    /\ db w' !! start_key = Some (VString hour)
    /\ db w' !! destination = Some (VZSet {[message := 1%float]})
    /\ db w' !! recent = Some (VList (take 100 ((asctime e +:+ " " +:+ message) :: l))).
Proof.
  intros sev destination start_key recent Hc Ht Ho Hu Hs Hold Hlt Hz Hl.
  set (last := destination +:+ ":last"). set (pstart := destination +:+ ":pstart").
  assert (Hrd : recent <> destination) by (intros H; cbv [String.append] in H; discriminate H).
  assert (Hrs : recent <> start_key) by (intros H; cbv [String.append] in H; discriminate H).
  assert (Hrl : recent <> last) by (intros H; cbv [String.append] in H; discriminate H).
  assert (Hrp : recent <> pstart) by (intros H; cbv [String.append] in H; discriminate H).
  assert (Hsd : start_key <> destination) by (by apply append_nonempty_ne).
  assert (Hld : last <> destination) by (by apply append_nonempty_ne).
  assert (Hpd : pstart <> destination) by (by apply append_nonempty_ne).
  assert (Hsl : start_key <> last) by (intros H; by apply append_same_prefix in H).
  assert (Hsp : start_key <> pstart) by (intros H; by apply append_same_prefix in H).
  assert (Hlp : last <> pstart) by (intros H; by apply append_same_prefix in H).
  unfold log_common. rewrite Hc. cbn [retry]. rewrite Ht.
  rewrite log_common_attempt_rotating. fold sev. fold destination. fold start_key.
  unfold connect. rewrite rotating_attempt_run.
  assert (Hg : get (db w) start_key = Ret (Some old)) by (unfold get; by rewrite Hs).
  rewrite Hg, Hu. unfold interferes. rewrite Ho. cbn [existsb others_db foldl].
  destruct (rotation_cmds_cases destination start_key (Some old) hour)
    as [[_ ->]|[[Hne _]|(_ & Hl' & _)]].
  2:{ cbn in Hne. apply negb_false_iff, String.eqb_eq in Hne. done. }
  2:{ cbn in Hl'. congruence. }
  fold last. fold pstart. cbn [app]. unfold log_writes.
  change (severity_name (Named sev)) with (severity_name (Named (severity_name severity))).
  rewrite severity_name_idem_lemma. fold sev. fold destination. fold recent.
  set (line := asctime e +:+ " " +:+ message).
  rewrite run_cmds_cons. rewrite (exec_RENAME_at _ _ _ _ Hz). cbn [fst snd].
  set (st1 := <[last := VZSet z]> (delete destination (db w))).
  assert (H1 : st1 !! start_key = Some (VString old)).
  { unfold st1. rewrite lookup_insert_ne by done. by rewrite lookup_delete_ne. }
  rewrite run_cmds_cons. rewrite (exec_RENAME_at _ _ _ _ H1). cbn [fst snd].
  set (st2 := <[pstart := VString old]> (delete start_key st1)).
  rewrite run_cmds_cons. cbn [exec_cmd fst snd].
  set (st3 := <[start_key := VString hour]> st2).
  assert (H3 : zset_at st3 destination ∅).
  { left. split; [|done]. unfold st3, st2, st1.
    rewrite lookup_insert_ne by done. rewrite lookup_insert_ne by done.
    rewrite lookup_delete_ne by done. rewrite lookup_insert_ne by done.
    apply lookup_delete_eq. }
  rewrite run_cmds_cons. rewrite (exec_ZINCRBY_at _ _ _ _ ∅ H3) by done. cbn [fst snd].
  change (bumped ∅ message 1) with 1%float. rewrite insert_empty.
  set (st4 := <[destination := VZSet {[message := 1%float]}]> st3).
  destruct (recent_writes_run st4 recent line l) as [n ->].
  { unfold st4, st3, st2, st1. rewrite !lookup_insert_ne by done.
    rewrite lookup_delete_ne by done. rewrite lookup_insert_ne by done.
    by rewrite lookup_delete_ne. }
  cbn [fst snd raise_on_error existsb is_error orb].
  eexists. split; [reflexivity|]. cbn [db]. unfold st4, st3, st2, st1.
  split; [|split; [|split; [|split]]].
  - rewrite !lookup_insert_ne by done. rewrite lookup_delete_ne by done.
    apply lookup_insert_eq.
  - rewrite !lookup_insert_ne by done. apply lookup_insert_eq.
  - rewrite !lookup_insert_ne by done. apply lookup_insert_eq.
  - rewrite lookup_insert_ne by done. apply lookup_insert_eq.
  - apply lookup_insert_eq.
Qed.

(** X15: the name [severity_name] gives is one it gives back unchanged,
    so [log_common], which hands the name it computed to [log_recent],
    files a message under one severity in both logs; and a level's name,
    in any letter case, gives what the level's number gives. *)
Theorem severity_name_stable :
  (forall l, severity_name (Named (severity_name l)) = severity_name l)
  /\ (forall n s s', SEVERITY (Level n) = Some s -> lower s' = s ->
        severity_name (Named s') = severity_name (Level n) /\ severity_name (Level n) = s).
Proof.
  split; [apply severity_name_idem_lemma|].
  intros n s s' Hs Hl.
  assert (Hn : severity_name (Named s') = lower s').
  { unfold severity_name. cbn [SEVERITY]. by case_bool_decide. }
  rewrite Hn, Hl. unfold severity_name. rewrite Hs.
  assert (Hlow : lower s = s).
  { cbn [SEVERITY] in Hs.
    repeat (match type of Hs with
            | match ?x with _ => _ end = _ => destruct x; try discriminate Hs
            end); by injection Hs as <-. }
  by rewrite Hlow.
Qed.

Lemma severity_name_stable_witness :
  severity_name (Named "INFO") = severity_name (Level 20)
  /\ severity_name (Level 20) = "info".
Proof.
  exact (proj2 severity_name_stable 20 "info" "INFO" eq_refl eq_refl).
Defined.

(** ** The registry of counters *)

Lemma exec_ZADD_at (st : store) (k m : string) (s : float) (z : gmap string float) :
  zset_at st k z -> is_nan s = false ->
  (exec_cmd (ZADD k m s) st).2 !! k = Some (VZSet (<[m := s]> z)).
Proof.
  intros Hz Hs. cbn [exec_cmd]. rewrite Hs. destruct Hz as [[-> ->]| ->]; cbn [snd].
  - by rewrite lookup_insert_eq, insert_empty.
  - by rewrite lookup_insert_eq.
Qed.

Lemma counter_writes_known (name : string) (count : Z) (precs starts : list Z) :
  length starts = length precs ->
  forall st z,
    zset_at st "known:" z ->
    zset_at (run_cmds (concat (zip_with (counter_writes name count) precs starts)) st).2
            "known:"
            (foldl (fun z p => <[Py.str p +:+ ":" +:+ name := 0%float]> z) z precs).
Proof.
  revert starts. induction precs as [|p precs IH]; intros [|s starts] Hlen st z Hz;
    try discriminate Hlen; [done|].
  cbn [zip_with concat counter_writes app foldl].
  rewrite !run_cmds_cons_db. apply IH; [by injection Hlen|].
  right. rewrite exec_cmd_frame by keys_differ. by apply exec_ZADD_at.
Qed.

Lemma foldl_insert_in {A} (g : Z -> string) (v : A) (ps : list Z) (p : Z) :
  forall z : gmap string A,
    p ∈ ps \/ z !! g p = Some v ->
    foldl (fun z p => <[g p := v]> z) z ps !! g p = Some v.
Proof.
  induction ps as [|q ps IH]; intros z H; cbn [foldl].
  - destruct H as [H|H]; [by apply elem_of_nil in H|done].
  - apply IH. destruct H as [H|H].
    + apply elem_of_cons in H as [->|H]; [right; apply lookup_insert_eq|by left].
    + right. rewrite lookup_insert. by case_decide.
Qed.

Lemma foldl_insert_out {A} (g : Z -> string) (v : A) (ps : list Z) (m : string) :
  (forall p, p ∈ ps -> m <> g p) ->
  forall z : gmap string A, foldl (fun z p => <[g p := v]> z) z ps !! m = z !! m.
Proof.
  induction ps as [|q ps IH]; intros H z; cbn [foldl]; [done|].
  rewrite IH by (intros p Hp; apply H; by apply list_elem_of_further).
  rewrite lookup_insert_ne; [done|]. intros Heq. by apply (H q); [apply list_elem_of_here|].
Qed.

(** X19: whatever else its batch meets, [update_counter] enters the
    counter of every precision in the registry [known:] at score 0, and
    leaves every other member of the registry at the score it had. *)
Theorem update_counter_registers (name : string) (count : Z) (now : option Py.num)
    (clock : float) (starts : list Z) (w : world) (z : gmap string float) :
  mapM (bucket_start (now_or now clock)) PRECISION = Ret starts ->
  zset_at (db w) "known:" z ->
  let w' := (update_counter name count now clock w).2 in
  (forall prec, prec ∈ PRECISION ->
     zscore (db w') "known:" (Py.str prec +:+ ":" +:+ name) = Ret (Some 0%float))
  /\ (forall m, (forall prec, prec ∈ PRECISION -> m <> Py.str prec +:+ ":" +:+ name) ->
        zscore (db w') "known:" m = Ret (z !! m)).
Proof.
  intros Hs Hz w'.
  pose proof (update_counter_db name count now clock w starts Hs) as Hw'. fold w' in Hw'.
  pose proof (counter_writes_known name count PRECISION starts
                (mapM_res_length _ _ _ Hs) (db w) z Hz) as Hk.
  rewrite <- Hw' in Hk.
  assert (Hscore : forall m, zscore (db w') "known:" m
            = Ret (foldl (fun z p => <[Py.str p +:+ ":" +:+ name := 0%float]> z) z PRECISION
                     !! m)).
  { intros m. unfold zscore. destruct Hk as [[-> Hk]| ->]; [|done].
    by rewrite Hk, lookup_empty. }
  split.
  - intros prec Hp. rewrite Hscore. f_equal.
    apply (foldl_insert_in (fun p => Py.str p +:+ ":" +:+ name)). by left.
  - intros m Hm. rewrite Hscore. f_equal.
    by apply (foldl_insert_out (fun p => Py.str p +:+ ":" +:+ name)).
Qed.

(** ** The hourly rotation of an aggregate *)

(** X18: when the marker holds an earlier hour, [update_stats] archives
    the aggregate under [:last] and the old marker under [:pstart], sets
    the marker to the new hour and starts a new aggregate from the value
    alone: count 1, the value as sum, minimum and maximum, its square as
    sum of squares; these are also the three numbers it returns. *)
Theorem update_stats_rotates (context type hour old : string) (value timeout : Py.num)
    (d t0 : float) (e : tick) (rest : list tick) (w : world) (z : gmap string float) :
  let destination := stats_key context type in
  let start_key := destination +:+ ":start" in
  let v := Py.to_float value in
  let v2 := Py.to_float (Py.mul value value) in
  Py.coerce timeout = Ret d ->
  PrimFloat.ltb (clock e) (PrimFloat.add t0 d) = true ->
  calm_turn (db w) destination hour e ->
  uuid1 e <> destination +:+ ":last" -> uuid2 e <> destination +:+ ":last" ->
  uuid1 e <> destination +:+ ":pstart" -> uuid2 e <> destination +:+ ":pstart" ->
  db w !! start_key = Some (VString old) -> old <> "" -> String.ltb old hour = true ->
  db w !! destination = Some (VZSet z) ->
  is_nan v = false -> is_nan v2 = false ->
  exists w' z',
    update_stats context type value timeout t0 (e :: rest) w
    = Some (Ret (PyReplies [RDouble 1; RDouble v; RDouble v2]), w')
    /\ db w' !! (destination +:+ ":last") = Some (VZSet z)
    /\ db w' !! (destination +:+ ":pstart") = Some (VString old)
    /\ db w' !! start_key = Some (VString hour)
    /\ db w' !! destination = Some (VZSet z')
    /\ z' !! "count" = Some 1%float /\ z' !! "sum" = Some v /\ z' !! "sumsq" = Some v2
    /\ z' !! "min" = Some v /\ z' !! "max" = Some v.
Proof.
  intros destination start_key v v2 Hc Ht
    (Ho & Hu & H12 & H1d & H2d & H1s & H2s & H1 & H2) H1l H2l H1p H2p Hs Hold Hlt Hz Hv Hv2.
  fold start_key in H1s, H2s.
  set (last := destination +:+ ":last") in *.
  set (pstart := destination +:+ ":pstart") in *.
  assert (Hsd : start_key <> destination) by (by apply append_nonempty_ne).
  assert (Hld : last <> destination) by (by apply append_nonempty_ne).
  assert (Hpd : pstart <> destination) by (by apply append_nonempty_ne).
  assert (Hsl : start_key <> last) by (intros H; by apply append_same_prefix in H).
  assert (Hsp : start_key <> pstart) by (intros H; by apply append_same_prefix in H).
  assert (Hlp : last <> pstart) by (intros H; by apply append_same_prefix in H).
  assert (Hb : forall m x, bumped ∅ m x = x).
  { intros m x. unfold bumped. by rewrite lookup_empty. }
  assert (Hg0 : forall a m x, merged a ∅ m x = x).
  { intros a m x. unfold merged. by rewrite lookup_empty. }
  destruct (stats_merge_totals ∅ value)
    as (z' & Hm & Hzc & Hzs & Hzq & Hzmin & Hzmax); rewrite ?Hb; try done.
  fold v v2 in Hm, Hzs, Hzq, Hzmin, Hzmax. rewrite !Hb in Hm, Hzc, Hzs, Hzq.
  rewrite Hg0 in Hzmin, Hzmax.
  unfold update_stats. rewrite Hc. cbn [retry]. rewrite Ht.
  rewrite update_stats_attempt_rotating. fold destination. fold start_key.
  unfold connect. rewrite rotating_attempt_run.
  assert (Hg : get (db w) start_key = Ret (Some old)) by (unfold get; by rewrite Hs).
  rewrite Hg, Hu. unfold interferes. rewrite Ho. cbn [existsb others_db foldl].
  destruct (rotation_cmds_cases destination start_key (Some old) hour)
    as [[_ ->]|[[Hne _]|(_ & Hl' & _)]].
  2:{ cbn in Hne. apply negb_false_iff, String.eqb_eq in Hne. done. }
  2:{ cbn in Hl'. congruence. }
  fold last. fold pstart. cbn [app].
  rewrite run_cmds_cons. rewrite (exec_RENAME_at _ _ _ _ Hz). cbn [fst snd].
  set (st1 := <[last := VZSet z]> (delete destination (db w))).
  assert (Hst1 : st1 !! start_key = Some (VString old)).
  { unfold st1. rewrite lookup_insert_ne by done. by rewrite lookup_delete_ne. }
  rewrite run_cmds_cons. rewrite (exec_RENAME_at _ _ _ _ Hst1). cbn [fst snd].
  set (st2 := <[pstart := VString old]> (delete start_key st1)).
  rewrite run_cmds_cons. cbn [exec_cmd fst snd].
  set (st3 := <[start_key := VString hour]> st2).
  assert (Hfree : forall k, k <> start_key -> k <> pstart -> k <> last ->
                            db w !! k = None -> st3 !! k = None).
  { intros k Hk1 Hk2 Hk3 Hk. unfold st3, st2, st1.
    rewrite lookup_insert_ne by done. rewrite lookup_insert_ne by done.
    rewrite lookup_delete_ne by done. rewrite lookup_insert_ne by done.
    destruct (decide (k = destination)) as [->|Hkd]; [apply lookup_delete_eq|].
    by rewrite lookup_delete_ne. }
  assert (Hz3 : zset_at st3 destination ∅).
  { left. split; [|done]. unfold st3, st2, st1.
    rewrite lookup_insert_ne by done. rewrite lookup_insert_ne by done.
    rewrite lookup_delete_ne by done. rewrite lookup_insert_ne by done.
    apply lookup_delete_eq. }
  destruct (stats_writes_run st3 destination (uuid1 e) (uuid2 e) value ∅ z' _
              Hz3 (Hfree _ H1s H1p H1l H1) (Hfree _ H2s H2p H2l H2) H12 H1d H2d Hm)
    as (pre & st' & Hrun & Herr & Hlen & Hd & Hframe).
  rewrite Hrun. cbn [fst snd]. unfold raise_on_error. cbn [existsb is_error orb].
  rewrite Herr.
  change (ROk :: ROk :: ROk :: pre ++ ?r) with ((ROk :: ROk :: ROk :: pre) ++ r).
  rewrite (last3_app (ROk :: ROk :: ROk :: pre)) by done.
  eexists _, z'. split; [reflexivity|]. cbn [db].
  rewrite !Hframe by done. unfold st3, st2, st1.
  split; [|split; [|split; [|done]]].
  - rewrite !lookup_insert_ne by done. rewrite lookup_delete_ne by done.
    apply lookup_insert_eq.
  - rewrite !lookup_insert_ne by done. apply lookup_insert_eq.
  - apply lookup_insert_eq.
Qed.

(** ** Counters a pass leaves for later *)

Lemma range_of_sub {A} (l : list A) (a b : Z) (x : A) : x ∈ range_of l a b -> x ∈ l.
Proof.
  unfold range_of. cbn zeta. destruct (_ || _); [by intros ?%elem_of_nil|].
  intros H. apply list_elem_of_lookup in H as [i Hi].
  apply lookup_take_Some in Hi as [Hi _]. rewrite lookup_drop in Hi.
  by eapply list_elem_of_lookup_2.
Qed.

Lemma zrange_member (st : store) (k hash : string) (z : gmap string float) (a b : Z)
    (l : list string) :
  st !! k = Some (VZSet z) -> zrange st k a b = Ret (hash :: l) -> is_Some (z !! hash).
Proof.
  intros Hk. unfold zrange, zrange_withscores. rewrite Hk. cbn [mbind res_bind].
  intros [= H].
  assert (Hin : hash ∈ map fst (range_of (zsorted z) a b)) by (rewrite H; apply list_elem_of_here).
  apply list_elem_of_fmap in Hin as ([m s] & -> & Hin). apply range_of_sub in Hin.
  unfold zsorted in Hin. rewrite merge_sort_Permutation in Hin.
  apply elem_of_map_to_list in Hin. by exists s.
Qed.

(** X20: on a pass whose number is not a multiple of a counter's
    precision in minutes, the walk passes the counter by: when that holds
    for every counter of the registry, the pass ends with the keyspace,
    the connection and the history as they were. *)
Theorem registry_pass_skips (sample_count passes : Z) (envs : list sweep_env) (w : world)
    (z : gmap string float) :
  db w !! "known:" = Some (VZSet z) ->
  (forall hash, is_Some (z !! hash) ->
     exists prec, Py.int_of_str (Py.before_colon hash) = Ret prec
       /\ passes mod (if prec / 60 =? 0 then 1 else prec / 60) <> 0) ->
  (size z <= length envs)%nat ->
  registry_pass sample_count passes envs 0 w = Some (Ret (), w).
Proof.
  intros Hk Hskip Hlen.
  assert (Hgen : forall index, 0 <= index ->
            (size z - Z.to_nat index <= length envs)%nat ->
            registry_pass sample_count passes envs index w = Some (Ret (), w)).
  2:{ apply Hgen; [done|]. lia. }
  clear Hlen. induction envs as [|e envs IH]; intros index Hi Hlen.
  - cbn [registry_pass]. unfold zcard. rewrite Hk.
    replace (index <? Z.of_nat (size z)) with false; [done|].
    symmetry. apply Z.ltb_ge. cbn [length] in Hlen. lia.
  - cbn [registry_pass]. unfold zcard. rewrite Hk.
    destruct (index <? Z.of_nat (size z)) eqn:Hlt; [|done].
    apply Z.ltb_lt in Hlt.
    destruct (zrange (db w) "known:" index index) as [[|hash l]|x] eqn:Hr; [done| |].
    + destruct (Hskip hash (zrange_member _ _ _ _ _ _ _ Hk Hr)) as (prec & -> & Hmod).
      replace (passes mod _ =? 0) with false by (symmetry; by apply Z.eqb_neq).
      cbn [negb]. apply IH; [lia|]. cbn [length] in Hlen. lia.
    + unfold zrange, zrange_withscores in Hr. by rewrite Hk in Hr.
Qed.

Lemma registry_pass_skips_witness :
  let w := World {["known:" := VZSet {["3600:hits" := 0%float; "18000:hits" := 0%float]}]}
                 idle [] in
  registry_pass SAMPLE_COUNT 1 [SweepEnv 100%float [] []; SweepEnv 101%float [] []] 0 w
  = Some (Ret (), w).
Proof.
  intros w.
  refine (registry_pass_skips SAMPLE_COUNT 1 _ w
            {["3600:hits" := 0%float; "18000:hits" := 0%float]} eq_refl _ _).
  - intros hash [s H].
    apply lookup_insert_Some in H as [[<- _]|[_ H]]; [by exists 3600|].
    apply lookup_singleton_Some in H as [<- _]. by exists 18000.
  - vm_compute. lia.
Defined.

(** ** The properties above, each on a keyspace of its own *)

Lemma get_counter_sorted_buckets_witness :
  exists l,
    get_counter "hits" 5 sweep_world = Ret l
    /\ StronglySorted (fun a b : Z * Z => a.1 < b.1) l
    /\ (forall t v, (t, v) ∈ l
                    <-> ({["85" := 3; "90" := 1; "95" := 2]} : gmap string Z) !! Py.str t
                        = Some v).
Proof.
  refine (proj2 (get_counter_sorted_buckets "hits" 5 sweep_world
                   {["85" := 3; "90" := 1; "95" := 2]}) eq_refl _).
  intros f v H.
  apply lookup_insert_Some in H as [[<- _]|[_ H]]; [by exists 85|].
  apply lookup_insert_Some in H as [[<- _]|[_ H]]; [by exists 90|].
  apply lookup_singleton_Some in H as [<- _]. by exists 95.
Defined.

Lemma update_counter_adds_witness :
  db (update_counter "test" 1 None 1603487207.5%float (World ∅ idle [])).2
    !! "count:5:test"
  = Some (VHash (<["1603487205" := 1]> ∅)).
Proof.
  refine (update_counter_adds "test" 1 5 1603487205 None 1603487207.5%float
            [1603487207; 1603487205; 1603487160; 1603487100; 1603486800; 1603476000;
             1603411200]
            (World ∅ idle []) ∅ eq_refl _ (or_introl (conj eq_refl eq_refl))
            eq_refl eq_refl).
  apply list_elem_of_further, list_elem_of_here.
Defined.

Lemma update_counter_registers_witness :
  let w' := (update_counter "test" 1 None 1603487207.5%float (World ∅ idle [])).2 in
  (forall prec, prec ∈ PRECISION ->
     zscore (db w') "known:" (Py.str prec +:+ ":" +:+ "test") = Ret (Some 0%float))
  /\ (forall m, (forall prec, prec ∈ PRECISION -> m <> Py.str prec +:+ ":" +:+ "test") ->
        zscore (db w') "known:" m = Ret ((∅ : gmap string float) !! m)).
Proof.
  exact (update_counter_registers "test" 1 None 1603487207.5%float
           [1603487207; 1603487205; 1603487160; 1603487100; 1603486800; 1603476000;
            1603411200]
           (World ∅ idle []) ∅ eq_refl (or_introl (conj eq_refl eq_refl))).
Defined.

Lemma clean_counters_frame_witness :
  let sched := [PassEnv false 0%float [SweepEnv 100%float [] []] 1%float;
                PassEnv true 0%float [] 0%float] in
  let out := default (Ret [], sweep_world) (clean_counters 2 sched sweep_world) in
  clean_counters 2 sched sweep_world = Some (out.1, out.2)
  /\ db out.2 !! "recent:test:info" = db sweep_world !! "recent:test:info".
Proof.
  intros sched out.
  assert (H : clean_counters 2 sched sweep_world = Some (out.1, out.2)) by by_evaluation.
  split; [exact H|].
  refine (clean_counters_frame 2 "recent:test:info" sched sweep_world out.2 out.1 _ _ _ H).
  - discriminate.
  - intros hash Heq. cbv [String.append] in Heq. discriminate Heq.
  - repeat constructor.
Defined.

Lemma list_item_moves_to_market_witness :
  let w1 := after (list_item "item1" "sellerA" (Py.Int 100) 0%float
                     [calm 1%float "" ""] market_world) market_world in
  sismember (db market_world) "inventory:sellerA" "item1" = Ret true
  /\ sismember (db w1) "inventory:sellerA" "item1" = Ret false
  /\ zscore (db w1) "market:" "item1.sellerA" = Ret (Some 100%float)
  /\ (forall k, k <> "market:" -> k <> "inventory:sellerA" ->
                db w1 !! k = db market_world !! k).
Proof.
  intros w1.
  refine (list_item_moves_to_market "item1" "sellerA" (Py.Int 100) 0%float
            [calm 1%float "" ""] market_world w1 _ _).
  - repeat constructor.
  - by_evaluation.
Defined.

Lemma purchase_item_transfers_witness :
  let w1 := after (purchase_item "buyerB" "item1" "sellerA" (Py.Int 100) 0%float
                     [calm 1%float "" ""] listed_world) listed_world in
  100 <= funds_of (db listed_world) "buyerB"
  /\ funds_of (db w1) "sellerA" = funds_of (db listed_world) "sellerA" + 100
  /\ funds_of (db w1) "buyerB" = funds_of (db listed_world) "buyerB" - 100
  /\ sismember (db w1) "inventory:buyerB" "item1" = Ret true
  /\ zscore (db w1) "market:" "item1.sellerA" = Ret None.
Proof.
  intros w1.
  refine (purchase_item_transfers "buyerB" "item1" "sellerA" 100 0%float
            [calm 1%float "" ""] listed_world w1 _ _ _).
  - discriminate.
  - repeat constructor.
  - by_evaluation.
Defined.

Lemma no_sale_no_write_witness :
  let w1 := after (purchase_item "buyerB" "item1" "sellerA" (Py.Int 90) 0%float
                     [calm 1%float "" ""] listed_world) listed_world in
  history w1 = history listed_world
  /\ (quiet [calm 1%float "" ""] -> db w1 = db listed_world).
Proof.
  intros w1.
  refine (proj2 no_sale_no_write "buyerB" "item1" "sellerA" (Py.Int 90) 0%float
            [calm 1%float "" ""] listed_world (Ret PyNone) w1 _ (or_introl eq_refl)).
  by_evaluation.
Defined.

Lemma log_common_counts_witness :
  exists w',
    log_common "test" "a message" (Level 20) (Py.Int 5) 0%float
               [Tick 1%float "2020-10-29T20:00:00" "" "" "Thu Oct 29 20:27:18 2020" []]
               logged_world
    = Some (Ret PyNone, w')
    /\ db w' !! "common:test:info" = Some (VZSet (<["a message" := 4%float]>
                                                    {["a message" := 3%float]}))
    /\ db w' !! "recent:test:info"
       = Some (VList (take 100 ["Thu Oct 29 20:27:18 2020 a message"]))
    /\ db w' !! "common:test:info:start" = Some (VString "2020-10-29T20:00:00").
Proof.
  refine (log_common_counts "test" "a message" "2020-10-29T20:00:00" (Level 20) (Py.Int 5)
            5%float 0%float
            (Tick 1%float "2020-10-29T20:00:00" "" "" "Thu Oct 29 20:27:18 2020" []) []
            logged_world {["a message" := 3%float]} []
            eq_refl eq_refl eq_refl eq_refl _ eq_refl (or_intror eq_refl)
            (or_introl (conj eq_refl eq_refl)) eq_refl).
  discriminate.
Defined.

Lemma log_common_rotates_witness :
  exists w',
    log_common "test" "a message" (Level 20) (Py.Int 5) 0%float
               [calm 1%float "" ""] logged_world
    = Some (Ret PyNone, w')
    /\ db w' !! "common:test:info:last" = Some (VZSet {["a message" := 3%float]})
    /\ db w' !! "common:test:info:pstart" = Some (VString "2020-10-29T20:00:00")
    /\ db w' !! "common:test:info:start" = Some (VString "2020-10-29T21:00:00")
    /\ db w' !! "common:test:info" = Some (VZSet {["a message" := 1%float]})
    /\ db w' !! "recent:test:info"
       = Some (VList (take 100 ["Thu Oct 29 21:27:18 2020 a message"])).
Proof.
  refine (log_common_rotates "test" "a message" "2020-10-29T21:00:00" "2020-10-29T20:00:00"
            (Level 20) (Py.Int 5) 5%float 0%float (calm 1%float "" "") []
            logged_world {["a message" := 3%float]} []
            eq_refl eq_refl eq_refl eq_refl eq_refl _ eq_refl eq_refl
            (or_introl (conj eq_refl eq_refl))).
  discriminate.
Defined.

Lemma update_stats_rotates_witness :
  exists w' z',
    update_stats "temp" "example" (Py.Int 12) (Py.Int 5) 0%float
                 [calm 1%float "a1" "a2"] measured_world
    = Some (Ret (PyReplies [RDouble 1; RDouble 12; RDouble 144]), w')
    /\ db w' !! "stats:temp:example:last"
       = Some (VZSet {["count" := 2%float; "sum" := 18%float; "sumsq" := 164%float;
                       "min" := 8%float; "max" := 10%float]})
    /\ db w' !! "stats:temp:example:pstart" = Some (VString "2020-10-29T20:00:00")
    /\ db w' !! "stats:temp:example:start" = Some (VString "2020-10-29T21:00:00")
    /\ db w' !! "stats:temp:example" = Some (VZSet z')
    /\ z' !! "count" = Some 1%float /\ z' !! "sum" = Some 12%float
    /\ z' !! "sumsq" = Some 144%float
    /\ z' !! "min" = Some 12%float /\ z' !! "max" = Some 12%float.
Proof.
  refine (update_stats_rotates "temp" "example" "2020-10-29T21:00:00" "2020-10-29T20:00:00"
            (Py.Int 12) (Py.Int 5) 5%float 0%float (calm 1%float "a1" "a2") []
            measured_world
            {["count" := 2%float; "sum" := 18%float; "sumsq" := 164%float;
              "min" := 8%float; "max" := 10%float]}
            eq_refl eq_refl _ _ _ _ _ eq_refl _ eq_refl eq_refl eq_refl eq_refl);
    try discriminate.
  repeat split; try reflexivity; discriminate.
Defined.
